(** * Agentic Tooling: a shallow embedding of the dispatch engine

    The development follows the repository's layout:
    - [JsString]      the JavaScript string primitives the scripts rely on;
    - [Refusal]       [REFUSAL_PATTERNS] and [detectRefusal] (scripts/cli.ts);
    - [Gateway]       the listeners of [runDocker] (scripts/cli.ts);
    - [Harvest]       [collectTools] (scripts/cli.ts, src/ask-agent.tsx) and
                      [collectNewTools] (src/raybuddy.ts);
    - [Driver]        the Docker CLI from its first line to [main]
                      (scripts/cli.ts, the revision with the tools directory);
    - [Js]            state, exceptions and [process.exit] as a monad;
    - [JsLiteral]     what a string or template literal of a generated
                      script evaluates to;
    - [Ledger]        the task ledger, [handleSubmit] and the Docker runner
                      script (src/ask-agent.tsx);
    - [Base64]        the runtime's base64 and that of the sandbox;
    - [JsText], [Fs]  paths and the file tree of a sandbox: directories,
                      regular files and what the user may do with them;
    - [Shell]         the command channel of a sandbox, as far as the
                      transfer protocol uses it;
    - [Daytona]       [pushFile], [pullFile] and [main] of
                      scripts/daytona-cli.ts;
    - [RemoteRunner]  the Daytona runner script (src/ask-agent.tsx);
    - [Scenarios]     concrete hosts, jobs and files.

    Strings are byte strings; [toLowerCase] and [trim] are modelled on the
    ASCII range. The definitions come first, the properties after them. *)

From Stdlib Require Import ZArith NArith List String Ascii Bool Lia ZifyNat.
From Stdlib Require Strings.Byte.
From stdpp Require Import base strings list gmap pretty.

(** stdpp seals [String.append] against [simpl]; the proofs below unfold it. *)
#[local] Arguments String.append : simpl nomatch.

(* ===================================================================== *)
(** ** JavaScript string primitives *)
(* ===================================================================== *)

Module JsString.

(** [String.prototype.toLowerCase], on the ASCII range: the letters
    [A]..[Z] are mapped to [a]..[z], every other code unit is kept. *)
Definition lowerChar (c : ascii) : ascii :=
  let n := nat_of_ascii c in
  if (65 <=? n)%nat && (n <=? 90)%nat then ascii_of_nat (n + 32) else c.

Fixpoint toLowerCase (s : string) : string :=
  match s with
  | EmptyString => EmptyString
  | String c s' => String (lowerChar c) (toLowerCase s')
  end.

(** [s.startsWith(p)] *)
Fixpoint startsWith (s p : string) {struct p} : bool :=
  match p, s with
  | EmptyString, _ => true
  | String _ _, EmptyString => false
  | String a p', String b s' => Ascii.eqb a b && startsWith s' p'
  end.

(** [s.includes(p)]: [p] occurs at some position of [s]. *)
Fixpoint includes (s p : string) : bool :=
  startsWith s p ||
  match s with
  | EmptyString => false
  | String _ s' => includes s' p
  end.

(** [s.endsWith(p)]: some suffix of [s] is [p]. *)
Fixpoint endsWith (s p : string) : bool :=
  String.eqb s p ||
  match s with
  | EmptyString => false
  | String _ s' => endsWith s' p
  end.

(** [xs.some(f)] *)
Definition some {A} (f : A -> bool) (xs : list A) : bool := existsb f xs.

(** [s.slice(i, j)] for [0 <= i <= j]. *)
Fixpoint dropFirst (n : nat) (s : string) : string :=
  match n, s with
  | O, _ => s
  | S _, EmptyString => EmptyString
  | S n', String _ s' => dropFirst n' s'
  end.

Fixpoint takeFirst (n : nat) (s : string) : string :=
  match n, s with
  | O, _ => EmptyString
  | S _, EmptyString => EmptyString
  | S n', String c s' => String c (takeFirst n' s')
  end.

Definition slice (s : string) (i j : nat) : string := takeFirst (j - i) (dropFirst i s).

(** [s.trim()] *)
Fixpoint trimStart (s : string) : string :=
  match s with
  | EmptyString => EmptyString
  | String c s' => if Ascii.is_space c then trimStart s' else s
  end.

Fixpoint trimEnd (s : string) : string :=
  match s with
  | EmptyString => EmptyString
  | String c s' =>
      match trimEnd s' with
      | EmptyString => if Ascii.is_space c then EmptyString else String c EmptyString
      | t => String c t
      end
  end.

Definition trim (s : string) : string := trimEnd (trimStart s).

Definition quote : ascii := "'"%char.
Definition dquote : ascii := "034"%char.

(** [value.replace(/'/g, ...)] with the replacement [' dquote ' dquote ']:
    close the quote, a quoted quote, open the quote again. *)
Fixpoint escapeSingleQuotes (value : string) : string :=
  match value with
  | EmptyString => EmptyString
  | String c rest =>
      if Ascii.eqb c quote
      then String quote (String dquote (String quote (String dquote (String quote
             (escapeSingleQuotes rest)))))
      else String c (escapeSingleQuotes rest)
  end.

(** Substring containment as a proposition: the reading of "contains"
    that the executable [includes] is compared with. *)
Definition Contains (s p : string) : Prop :=
  exists pre post, s = pre +:+ p +:+ post.

Definition HasSuffix (s p : string) : Prop :=
  exists pre, s = pre +:+ p.

End JsString.

(* ===================================================================== *)
(** ** Refusal detection (scripts/cli.ts) *)
(* ===================================================================== *)

Module Refusal.
Import JsString.

(** The signature list of the Docker CLI. *)
Definition REFUSAL_PATTERNS : list string :=
  [ "I can't help";
    "I cannot help";
    "I'm unable to";
    "I am unable to";
    "I can't assist";
    "I cannot assist";
    "against my guidelines";
    "I'm not able to";
    "I am not able to";
    "I won't be able";
    "I will not be able";
    "not something I can help with";
    "I'm sorry, but I can't";
    "I apologize, but I cannot";
    "need to decline";
    "I should not help";
    "I shouldn't help";
    "I must decline";
    "cannot fulfill this request";
    "can't fulfill this request" ].

(** The longer list of the RayBuddy CLI and of the Docker runner script. *)
Definition REFUSAL_PATTERNS_EXT : list string :=
  REFUSAL_PATTERNS ++
  [ "decline this request";
    "respectfully decline";
    "violates YouTube's Terms";
    "Terms of Service";
    "copyright infringement" ].

(** [detectRefusal], over the signature list in scope. *)
Definition detectRefusalWith (patterns : list string) (output : string) : bool :=
  let lowerOutput := toLowerCase output in
  some (fun pattern => includes lowerOutput (toLowerCase pattern)) patterns.

Definition detectRefusal : string -> bool := detectRefusalWith REFUSAL_PATTERNS.
Definition detectRefusalExt : string -> bool := detectRefusalWith REFUSAL_PATTERNS_EXT.

End Refusal.

(* ===================================================================== *)
(** ** Shell/Process gateway: [runDocker] (scripts/cli.ts) *)
(* ===================================================================== *)

Module Gateway.

(** The value the promise of [runDocker] resolves with. *)
Record RunResult := { exitCode : Z; output : string }.

(** What the child process does, as seen through the listeners that
    [runDocker] registers on it. [Exit None] is a ['close'] event whose
    [code] is [null]: the child was ended by a signal. *)
Inductive ChildEvent :=
| Stdout (text : string)
| Stderr (text : string)
| Exit (code : option Z)
| Fail (message : string).

(** Events of the event loop while the promise is pending. *)
Inductive Event :=
| FromChild (e : ChildEvent)
| TimerFired.

(** The variables captured by the closures of [runDocker]. *)
Record Pending := {
  buffer : string;               (* let output = "" *)
  timeoutId : bool;              (* the timer is still armed *)
  settled : option RunResult;    (* what [resolve] was first called with *)
  signals : list string;         (* proc.kill(...) calls, oldest first *)
  console : list string          (* messages printed by log(...) *)
}.

Definition spawned : Pending :=
  {| buffer := ""; timeoutId := true; settled := None;
     signals := []; console := [] |}.

(** [code || 0] *)
Definition orZero (code : option Z) : Z :=
  match code with
  | Some c => if (c =? 0)%Z then 0%Z else c
  | None => 0%Z
  end.

(** [resolve(v)]: only the first call settles a promise. *)
Definition resolve (v : RunResult) (st : Pending) : Pending :=
  match settled st with
  | Some _ => st
  | None => {| buffer := buffer st; timeoutId := timeoutId st; settled := Some v;
               signals := signals st; console := console st |}
  end.

Definition clearTimeout (st : Pending) : Pending :=
  {| buffer := buffer st; timeoutId := false; settled := settled st;
     signals := signals st; console := console st |}.

Definition appendOutput (text : string) (st : Pending) : Pending :=
  {| buffer := buffer st +:+ text; timeoutId := timeoutId st; settled := settled st;
     signals := signals st; console := console st |}.

(** [log(msg)] prints unless [--quiet]. *)
Definition log (quiet : bool) (msg : string) (st : Pending) : Pending :=
  {| buffer := buffer st; timeoutId := timeoutId st; settled := settled st;
     signals := signals st;
     console := if quiet then console st else console st ++ [msg] |}.

Definition kill (signal : string) (st : Pending) : Pending :=
  {| buffer := buffer st; timeoutId := timeoutId st; settled := settled st;
     signals := signals st ++ [signal]; console := console st |}.

(** One listener invocation. *)
Definition handle (quiet : bool) (st : Pending) (ev : Event) : Pending :=
  match ev with
  | FromChild (Stdout text) => appendOutput text st
  | FromChild (Stderr text) => appendOutput text st
  | TimerFired =>
      if timeoutId st
      then log quiet "Docker process timed out"
             (kill "SIGTERM" (clearTimeout st))
      else st
  | FromChild (Exit code) =>
      let st := clearTimeout st in
      resolve {| exitCode := orZero code; output := buffer st |} st
  | FromChild (Fail message) =>
      let st := appendOutput (String "010" "Error: " +:+ message) (clearTimeout st) in
      resolve {| exitCode := 1; output := buffer st |} st
  end.

(** A child process: the events it produces when left alone, each with
    the time (ms after spawn) at which it is delivered, and its reaction
    to SIGTERM: [Some evs] when the signal ends it (then [evs] is what is
    still delivered, normally [[Exit None]]), [None] when it ignores the
    signal and carries on. *)
Record Child := {
  script : list (Z * ChildEvent);
  onSIGTERM : option (list ChildEvent)
}.

Definition before (deadline : Z) (c : Child) : list ChildEvent :=
  map snd (List.filter (fun te => (fst te <? deadline)%Z) (script c)).

Definition after (deadline : Z) (c : Child) : list ChildEvent :=
  map snd (List.filter (fun te => (deadline <=? fst te)%Z) (script c)).

(** An event with which the child is over. *)
Definition ends (e : ChildEvent) : bool :=
  match e with Exit _ | Fail _ => true | _ => false end.

(** The event sequence the event loop delivers for a child and a timeout:
    what the child does before the deadline and, when it is still running
    then, the timer callback followed by what the child does after the
    signal. *)
Definition deliver (timeout : Z) (c : Child) : list Event :=
  if existsb ends (before timeout c)
  then map FromChild (before timeout c)
  else
    map FromChild (before timeout c) ++
    TimerFired ::
    map FromChild (match onSIGTERM c with
                   | Some evs => evs
                   | None => after timeout c
                   end).

Definition runPending (quiet : bool) (timeout : Z) (c : Child) : Pending :=
  fold_left (handle quiet) (deliver timeout c) spawned.

(** [await runDocker(model, promptText)]: [None] when the promise never
    settles. *)
Definition runDocker (quiet : bool) (timeout : Z) (c : Child) : option RunResult :=
  settled (runPending quiet timeout c).

(** An event that leaves the child running. *)
Definition quietChild (e : ChildEvent) : Prop := ends e = false.

(** The child has not exited when the timeout elapses. *)
Definition stillRunningAt (timeout : Z) (c : Child) : Prop :=
  existsb ends (before timeout c) = false.

(** An event that leaves the promise pending. *)
Definition pendingEvent (ev : Event) : Prop :=
  match ev with
  | FromChild (Exit _) | FromChild (Fail _) => False
  | _ => True
  end.

(** The child terminates without a numeric exit code: the first ['close']
    or ['error'] that is delivered is a ['close'] whose code is [null]. *)
Definition closesWithoutCode (timeout : Z) (c : Child) : Prop :=
  exists pre post : list Event,
    deliver timeout c = pre ++ FromChild (Exit None) :: post /\
    List.Forall pendingEvent pre.

(** The text written by a sequence of events, in arrival order, after
    what [acc] already holds. *)
Definition textsFrom (acc : string) (evs : list ChildEvent) : string :=
  fold_left (fun acc e =>
               match e with
               | Stdout t | Stderr t => acc +:+ t
               | _ => acc
               end) evs acc.
Definition texts : list ChildEvent -> string := textsFrom "".

End Gateway.

(* ===================================================================== *)
(** ** Tool harvesting: [collectTools] (scripts/cli.ts), [collectNewTools]
     (src/raybuddy.ts) *)
(* ===================================================================== *)

Module Harvest.
Import JsString.

(** A directory entry. *)
Inductive Node :=
| File (content : string) (mode : Z)
| Directory.

Definition toolExtensions : list string := [".sh"; ".ts"; ".js"; ".py"].
Definition excludePatterns : list string :=
  [".runner-"; "node_modules"; ".git"; ".agentic"].

Definition excluded (file : string) : bool :=
  some (fun p => includes file p) excludePatterns.
Definition toolLike (file : string) : bool :=
  some (fun ext => endsWith file ext) toolExtensions.

(** [0o755] *)
Definition executable : Z := 493.

Record Harvested := {
  store : gmap string Node;      (* the tools directory *)
  newTools : list string;
  logs : list string
}.

(** [fs.readdirSync(dir)] *)
Definition readdirSync (dir : gmap string Node) : list string :=
  map fst (map_to_list dir).

(** The body of the [for] loop of [collectTools]. [None] is a thrown
    exception ([fs.statSync] on a name that is gone). *)
Definition collectStep (workspace : gmap string Node) (file : string)
           (h : Harvested) : option Harvested :=
  if excluded file then Some h
  else if negb (toolLike file) then Some h
  else match workspace !! file with
       | None => None
       | Some Directory => Some h
       | Some (File content _) =>
           match store h !! file with
           | Some _ => Some h
           | None =>
               Some {| store := <[file := File content executable]> (store h);
                       newTools := newTools h ++ [file];
                       logs := logs h ++ ["Saved new tool: " +:+ file] |}
           end
       end.

Fixpoint collectLoop (workspace : gmap string Node) (files : list string)
         (h : Harvested) : Harvested :=
  match files with
  | [] => h
  | file :: rest =>
      match collectStep workspace file h with
      | Some h' => collectLoop workspace rest h'
      | None =>
          (* the [catch] around the loop; the message names the path *)
          {| store := store h; newTools := newTools h;
             logs := logs h ++ ["Warning: Failed to collect tools: " +:+ file] |}
      end
  end.

(** [collectTools()], over the listing [files] of the working directory. *)
Definition collectToolsFrom (files : list string)
           (workspace tools : gmap string Node) : Harvested :=
  collectLoop workspace files {| store := tools; newTools := []; logs := [] |}.

Definition collectTools (workspace tools : gmap string Node) : Harvested :=
  collectToolsFrom (readdirSync workspace) workspace tools.

(** [collectTools()] of the runner script in src/ask-agent.tsx: every copy
    sits in a [try] of its own, so a failing entry is skipped. *)
Definition collectToolsRunner (workspace tools : gmap string Node) : Harvested :=
fold_left (fun h file =>
             match collectStep workspace file h with
             | Some h' => h'
             | None => h
             end)
          (readdirSync workspace)
          {| store := tools; newTools := []; logs := [] |}.

(** [collectTools()] of the RayBuddy CLI: the same loop, then the new
    tools are pushed to the shared repository when it is in use
    ([syncOk] is the result of [syncToolsToRayBuddy]). *)
Definition collectToolsRayBuddy (useRayBuddy syncOk : bool)
           (workspace tools : gmap string Node) : Harvested :=
  let h := collectTools workspace tools in
  if useRayBuddy && negb (length (newTools h) =? 0)%nat
  then {| store := store h; newTools := newTools h;
          logs := logs h ++
                  [ "Syncing new tools to RayBuddy...";
                    if syncOk then "Tools synced to RayBuddy successfully"
                    else "Warning: Failed to sync tools to RayBuddy" ] |}
  else h.

(** [path.join(dir, file)] for a directory entry [file]. *)
Definition pathJoin (dir file : string) : string := dir +:+ "/" +:+ file.

(** [collectNewTools(workingDirectory)] of raybuddy.ts: the source paths
    that would be harvested into the repository clone [repo]. *)
Fixpoint collectNewToolsLoop (workingDirectory : string)
         (workspace repo : gmap string Node) (files : list string)
         (newTools : list string) : list string :=
  match files with
  | [] => newTools
  | file :: rest =>
      if excluded file then collectNewToolsLoop workingDirectory workspace repo rest newTools
      else if negb (toolLike file)
      then collectNewToolsLoop workingDirectory workspace repo rest newTools
      else match workspace !! file with
           | None => newTools
           | Some Directory =>
               collectNewToolsLoop workingDirectory workspace repo rest newTools
           | Some (File _ _) =>
               match repo !! file with
               | Some _ =>
                   collectNewToolsLoop workingDirectory workspace repo rest newTools
               | None =>
                   collectNewToolsLoop workingDirectory workspace repo rest
                     (newTools ++ [pathJoin workingDirectory file])
               end
           end
  end.

Definition collectNewTools (workingDirectory : string)
           (workspace repo : gmap string Node) : list string :=
  collectNewToolsLoop workingDirectory workspace repo (readdirSync workspace) [].

End Harvest.

(* ===================================================================== *)
(** ** Execution driver: the Docker CLI (scripts/cli.ts) *)
(* ===================================================================== *)

Module Driver.
Import JsString Refusal Gateway Harvest.

(** Command line and environment variables. *)
Record Config := {
  help : bool;
  prompt : string;
  openRouterApiKey : string;
  modelName : string;
  retryModelName : string;
  timeout : Z;
  quiet : bool
}.

(** The host the CLI runs on. [child n model] is the behaviour of the
    [n]-th [docker run] child process. *)
Record Host := {
  workingDirectoryExists : bool;
  dockerVersionOk : bool;         (* execSync("docker --version") *)
  imageInspectOk : bool;          (* execSync("docker image inspect ...") *)
  dockerfileExists : bool;
  dockerBuildOk : bool;
  child : nat -> string -> Child;
  workspace : gmap string Node;
  tools : gmap string Node
}.

(** What one invocation of the CLI did. *)
Record Job := {
  attempts : list string;             (* models passed to runDocker *)
  harvest : option Harvested;         (* result of collectTools(), if called *)
  exited : option Z                   (* process.exit code; None: still waiting *)
}.

(** A JavaScript string used as a condition. *)
Definition truthy (s : string) : bool :=
  match s with EmptyString => false | _ => true end.

(** [ensureDockerImage()]: [false] when it ends the process. *)
Definition ensureDockerImage (h : Host) : bool :=
  if imageInspectOk h then true
  else if negb (dockerfileExists h) then false
  else dockerBuildOk h.

(** The end of [main] once the last attempt has a result. *)
Definition finish (h : Host) (models : list string) (result : RunResult) : Job :=
  {| attempts := models;
     harvest := if (exitCode result =? 0)%Z
                then Some (collectTools (workspace h) (tools h)) else None;
     exited := Some (exitCode result) |}.

Definition waiting (models : list string) : Job :=
  {| attempts := models; harvest := None; exited := None |}.

(** [async function main()] *)
Definition main (cfg : Config) (h : Host) : Job :=
  if negb (ensureDockerImage h)
  then {| attempts := []; harvest := None; exited := Some 1%Z |}
  else
    let primary := "openrouter/" +:+ modelName cfg in
    match runDocker (quiet cfg) (timeout cfg) (child h 0 primary) with
    | None => waiting [primary]
    | Some result =>
        if truthy (retryModelName cfg) && detectRefusal (output result)
        then
          let fallback := "openrouter/" +:+ retryModelName cfg in
          match runDocker (quiet cfg) (timeout cfg) (child h 1 fallback) with
          | None => waiting [primary; fallback]
          | Some result => finish h [primary; fallback] result
          end
        else finish h [primary] result
    end.

(** The script from its first line: the checks that end the process
    before [main()] is called. *)
Definition cli (cfg : Config) (h : Host) : Job :=
  if help cfg then {| attempts := []; harvest := None; exited := Some 0%Z |}
  else
  if negb (truthy (prompt cfg)) ||
     negb (truthy (openRouterApiKey cfg)) ||
     negb (workingDirectoryExists h) ||
     negb (dockerVersionOk h)
  then {| attempts := []; harvest := None; exited := Some 1%Z |}
  else main cfg h.

(** The checks before the first attempt all pass. *)
Definition started (cfg : Config) (h : Host) : bool :=
  negb (help cfg) && truthy (prompt cfg) && truthy (openRouterApiKey cfg) &&
  workingDirectoryExists h && dockerVersionOk h && ensureDockerImage h.

(** The results of the two attempts the host would answer with. *)
Definition primaryResult (cfg : Config) (h : Host) : option RunResult :=
  runDocker (quiet cfg) (timeout cfg) (child h 0 ("openrouter/" +:+ modelName cfg)).
Definition fallbackResult (cfg : Config) (h : Host) : option RunResult :=
  runDocker (quiet cfg) (timeout cfg) (child h 1 ("openrouter/" +:+ retryModelName cfg)).

(** The child process of the attempt whose result ends the job. *)
Definition lastChild (cfg : Config) (h : Host) : Child :=
  match primaryResult cfg h with
  | Some r =>
      if truthy (retryModelName cfg) && detectRefusal (output r)
      then child h 1 ("openrouter/" +:+ retryModelName cfg)
      else child h 0 ("openrouter/" +:+ modelName cfg)
  | None => child h 0 ("openrouter/" +:+ modelName cfg)
  end.

End Driver.

(* ===================================================================== *)
(** ** Effects: state, exceptions and [process.exit] *)
(* ===================================================================== *)

Module Js.

(** How a piece of script ends: with a value, with a thrown error, or
    by ending the process. *)
Inductive outcome (A : Type) : Type :=
| Ret (a : A)
| Thrown (error : string)
| Exited (code : Z).
Arguments Ret {A} a.
Arguments Thrown {A} error.
Arguments Exited {A} code.

Definition M (S A : Type) : Type := S -> outcome A * S.

Definition ret {S A} (a : A) : M S A := fun s => (Ret a, s).

Definition bind {S A B} (m : M S A) (k : A -> M S B) : M S B :=
  fun s =>
    match m s with
    | (Ret a, s') => k a s'
    | (Thrown e, s') => (Thrown e, s')
    | (Exited c, s') => (Exited c, s')
    end.

(** [throw new Error(msg)] *)
Definition throw {S A} (error : string) : M S A := fun s => (Thrown error, s).

(** [process.exit(code)] *)
Definition exit {S A} (code : Z) : M S A := fun s => (Exited code, s).

(** [try { body } catch (e) { handler(e) }] *)
Definition tryCatch {S A} (body : M S A) (handler : string -> M S A) : M S A :=
  fun s =>
    match body s with
    | (Thrown e, s') => handler e s'
    | r => r
    end.

Definition get {S} : M S S := fun s => (Ret s, s).
Definition modify {S} (f : S -> S) : M S unit := fun s => (Ret tt, f s).

(** [if (c) { m }] *)
Definition when {S} (c : bool) (m : M S unit) : M S unit :=
  if c then m else ret tt.

(** [for (const x of xs) { body(x) }] *)
Fixpoint forEach {S A} (xs : list A) (body : A -> M S unit) : M S unit :=
  match xs with
  | [] => ret tt
  | x :: rest => bind (body x) (fun _ => forEach rest body)
  end.

(** A JavaScript string used as a condition. *)
Definition truthy (s : string) : bool :=
  match s with EmptyString => false | _ => true end.

(** [s || ""] for an optional string. *)
Definition orEmpty (s : option string) : string :=
  match s with Some t => t | None => "" end.

End Js.

Notation "'do' x <- m ;; k" := (Js.bind m (fun x => k))
  (at level 10, x name, m at level 99, k at level 200, only parsing).
Notation "'run' m ;; k" := (Js.bind m (fun _ => k))
  (at level 10, m at level 99, k at level 200, only parsing).

(* ===================================================================== *)
(** ** String and template literals of a generated script *)
(* ===================================================================== *)

Module JsLiteral.

(** [value.replace(/c/g, replacement)] for a one-character pattern. *)
Fixpoint replaceAll (c : ascii) (replacement : string) (value : string) : string :=
  match value with
  | EmptyString => EmptyString
  | String x rest =>
      if Ascii.eqb x c then replacement +:+ replaceAll c replacement rest
      else String x (replaceAll c replacement rest)
  end.

Definition backslash : ascii := "\"%char.
Definition quote : ascii := "034"%char.
Definition backtick : ascii := "`"%char.
Definition LF : ascii := "010"%char.
Definition CR : ascii := "013"%char.

Definition digit (c : ascii) : bool :=
  (48 <=? nat_of_ascii c)%nat && (nat_of_ascii c <=? 57)%nat.

(** What [\c] stands for inside a literal. [None]: the escapes that carry
    a character code (digits, [x], [u]), which are legal only in some
    forms and are not read here, a carriage return, and a byte that
    starts a multi-byte character. A backslash before a line feed
    continues the line and stands for nothing. *)
Definition escaped (c : ascii) : option string :=
  if digit c || Ascii.eqb c "x" || Ascii.eqb c "u" || Ascii.eqb c CR
     || (128 <=? nat_of_ascii c)%nat
  then None
  else if Ascii.eqb c LF then Some EmptyString
  else if Ascii.eqb c "n" then Some (String LF EmptyString)
  else if Ascii.eqb c "r" then Some (String CR EmptyString)
  else if Ascii.eqb c "t" then Some (String "009" EmptyString)
  else if Ascii.eqb c "b" then Some (String "008" EmptyString)
  else if Ascii.eqb c "v" then Some (String "011" EmptyString)
  else if Ascii.eqb c "f" then Some (String "012" EmptyString)
  else Some (String c EmptyString).

(** The value of the double-quoted literal with the given text between
    its quotes. [None] when the text does not stay one literal: a double
    quote or a line break ends it early, a backslash at the end escapes
    the closing quote, an escape is not read. *)
Fixpoint stringLiteral (body : string) : option string :=
  match body with
  | EmptyString => Some EmptyString
  | String c rest =>
      if Ascii.eqb c backslash
      then match rest with
           | EmptyString => None
           | String e rest' =>
               match escaped e, stringLiteral rest' with
               | Some first, Some value => Some (first +:+ value)
               | _, _ => None
               end
           end
      else if Ascii.eqb c quote || Ascii.eqb c LF || Ascii.eqb c CR then None
      else match stringLiteral rest with
           | Some value => Some (String c value)
           | None => None
           end
  end.

(** The value of the template literal with the given text between its
    backticks. [None] when the text does not stay one literal without
    substitutions: a backtick ends it early, a dollar sign before a brace
    opens a substitution, an escape is not read. A carriage return reads
    as a line feed, and together with a following line feed as one. *)
Fixpoint templateLiteral (body : string) : option string :=
  match body with
  | EmptyString => Some EmptyString
  | String c rest =>
      if Ascii.eqb c backslash
      then match rest with
           | EmptyString => None
           | String e rest' =>
               match escaped e, templateLiteral rest' with
               | Some first, Some value => Some (first +:+ value)
               | _, _ => None
               end
           end
      else if Ascii.eqb c backtick then None
      else match templateLiteral rest with
           | Some value =>
               if Ascii.eqb c "$"
               then match rest with
                    | String "{" _ => None
                    | _ => Some (String c value)
                    end
               else if Ascii.eqb c CR
               then match rest with
                    | String "010" _ => Some value
                    | _ => Some (String LF value)
                    end
               else Some (String c value)
           | None => None
           end
  end.

End JsLiteral.

(* ===================================================================== *)
(** ** Job ledger, [handleSubmit] and the runner script (src/ask-agent.tsx) *)
(* ===================================================================== *)

Module Ledger.
Import JsString Refusal Harvest Js JsLiteral.

(** JSON values. Only the outermost array and its records are ever
    inspected, so no induction principle over the nesting is needed. *)
#[local] Unset Elimination Schemes.
Inductive json :=
| JNull
| JBool (b : bool)
| JNum (n : Z)
| JStr (s : string)
| JArr (items : list json)
| JObj (fields : list (string * json)).
#[local] Set Elimination Schemes.

(** The text of the ledger file: either the serialisation
    [JSON.stringify(v, null, 2)] of a value, which [JSON.parse] maps back
    to [v], or text that [JSON.parse] rejects. *)
Inductive FileContent :=
| Json (v : json)
| NotJson (raw : string).

(** The runner script, as the values its constants have when [bun] loads
    it. *)
Record Script := {
  taskId : string;
  logFile : string;
  primaryModel : string;
  retryModel : string;
  apiKey : string;
  dockerfilePath : string;
  promptText : string
}.

Inductive Effect :=
| Toast (style title : string)
| ConsoleError (message : string)
| WriteTasks (content : json)            (* fs.writeFileSync(tasksFile, ...) *)
| WriteScript (path : string) (script : option Script)
                                         (* [None]: a text that is not read *)
| SpawnRunner (path : string)
| Log (line : string)                    (* a line appended to the log file *)
| DockerInfo
| DockerRun (model : string)
| CollectTools
| Exec (command : string).

Record World := {
  workingDirectoryExists : bool;
  tasksFile : option FileContent;        (* .agentic-tasks.json *)
  workspace : gmap string Node;
  tools : gmap string Node;
  reads : nat;                           (* calls of Date.now() so far *)
  effects : list Effect                  (* oldest first *)
}.

(** The result of [spawnSync]. *)
Record SpawnSyncResult := {
  status : option Z;
  stdout : option string;
  stderr : option string
}.

(** The machine the extension and the runner run on. *)
Record Host := {
  now : nat -> Z;                        (* successive values of Date.now() *)
  dockerInfoOk : bool;                   (* execSync("docker info") *)
  inspectStatus : option Z;              (* docker image inspect *)
  smokeStatus : option Z;                (* docker run --rm IMAGE echo test *)
  dockerfileExists : bool;
  buildStatus : option Z;                (* docker build *)
  agent : nat -> string -> SpawnSyncResult   (* the n-th docker run *)
}.

Record Preferences := {
  workingDirectory : string;
  modelName : string;
  retryModelName : string;
  openRouterApiKey : string
}.

Record FormValues := { prompt : string; files : list string }.

Definition setTasks (c : FileContent) (w : World) : World :=
  {| workingDirectoryExists := workingDirectoryExists w; tasksFile := Some c;
     workspace := workspace w; tools := tools w; reads := reads w;
     effects := effects w |}.
Definition setTools (t : gmap string Node) (w : World) : World :=
  {| workingDirectoryExists := workingDirectoryExists w; tasksFile := tasksFile w;
     workspace := workspace w; tools := t; reads := reads w;
     effects := effects w |}.
Definition tick (w : World) : World :=
  {| workingDirectoryExists := workingDirectoryExists w; tasksFile := tasksFile w;
     workspace := workspace w; tools := tools w; reads := S (reads w);
     effects := effects w |}.
Definition record (e : Effect) (w : World) : World :=
  {| workingDirectoryExists := workingDirectoryExists w; tasksFile := tasksFile w;
     workspace := workspace w; tools := tools w; reads := reads w;
     effects := effects w ++ [e] |}.

Definition effect (e : Effect) : M World unit := modify (record e).

(** [Date.now()] *)
Definition DateNow (h : Host) : M World Z :=
  do w <- get ;; run modify tick ;; ret (now h (reads w)).

Definition showToast (style title : string) : M World unit :=
  effect (Toast style title).

(** [fs.writeFileSync(tasksFile, JSON.stringify(tasks, null, 2))] *)
Definition writeTasks (tasks : json) : M World unit :=
  run effect (WriteTasks tasks) ;; modify (setTasks (Json tasks)).

(** [JSON.parse(fs.readFileSync(tasksFile, "utf-8"))] *)
Definition parseTasks (c : FileContent) : M World json :=
  match c with
  | Json v => ret v
  | NotJson _ => throw "SyntaxError: JSON Parse error"
  end.

(** [tasks.push(task)]: only arrays have the method. *)
Definition push (tasks : json) (task : json) : M World json :=
  match tasks with
  | JArr items => ret (JArr (items ++ [task]))
  | _ => throw "TypeError: tasks.push is not a function"
  end.

(** [obj[key]] on a parsed object. *)
Fixpoint field (key : string) (fields : list (string * json)) : option json :=
  match fields with
  | [] => None
  | (k, v) :: rest => if String.eqb k key then Some v else field key rest
  end.

(** [obj[key] = v]: an existing key keeps its place, a new one goes last. *)
Fixpoint setField (key : string) (v : json) (fields : list (string * json))
  : list (string * json) :=
  match fields with
  | [] => [(key, v)]
  | (k, x) :: rest =>
      if String.eqb k key then (k, v) :: rest else (k, x) :: setField key v rest
  end.

(** [t.id === taskId]: [None] when reading [t.id] throws. *)
Definition hasId (id : string) (t : json) : option bool :=
  match t with
  | JNull => None
  | JObj fields =>
      match field "id" fields with
      | Some (JStr s) => Some (String.eqb s id)
      | _ => Some false
      end
  | _ => Some false
  end.

(** [items.findIndex(t => t.id === taskId)], counting from [i]:
    [None] when the callback throws, [Some None] for -1. *)
Fixpoint findIndexFrom (i : nat) (id : string) (items : list json)
  : option (option nat) :=
  match items with
  | [] => Some None
  | t :: rest =>
      match hasId id t with
      | None => None
      | Some true => Some (Some i)
      | Some false => findIndexFrom (S i) id rest
      end
  end.

Definition findIndex (id : string) (tasks : json) : M World (option nat) :=
  match tasks with
  | JArr items =>
      match findIndexFrom 0 id items with
      | Some r => ret r
      | None => throw "TypeError: null is not an object (evaluating 't.id')"
      end
  | _ => throw "TypeError: tasks.findIndex is not a function"
  end.

(** [tasks[idx].status = status; if (endTime) tasks[idx].endTime = endTime] *)
Definition mutate (st : string) (endTime : Z) (t : json) : json :=
  match t with
  | JObj fields =>
      let fields := setField "status" (JStr st) fields in
      JObj (if (endTime =? 0)%Z then fields
            else setField "endTime" (JNum endTime) fields)
  | _ => t
  end.

Definition mutateAt (idx : nat) (st : string) (endTime : Z) (tasks : json) : json :=
  match tasks with
  | JArr items => JArr (alter (mutate st endTime) idx items)
  | _ => tasks
  end.

(** [log(msg)] of the runner script. *)
Definition log (msg : string) : M World unit := effect (Log msg).

(** [updateTask(status, endTime)] of the runner script. *)
Definition updateTask (id : string) (st : string) (endTime : Z) : M World unit :=
  tryCatch
    (do w <- get ;;
     do tasks <- match tasksFile w with
                 | Some c => parseTasks c
                 | None => ret (JArr [])
                 end ;;
     do idx <- findIndex id tasks ;;
     match idx with
     | Some i => writeTasks (mutateAt i st endTime tasks)
     | None => ret tt
     end)
    (fun e => log ("Failed to update task: " +:+ e)).

(** The record pushed by [handleSubmit]. *)
Definition newTask (id prompt : string) (startTime : Z) (logFile : string) : json :=
  JObj [ ("id", JStr id);
         ("agent", JStr "opencode");
         ("prompt", JStr prompt);
         ("startTime", JNum startTime);
         ("status", JStr "running");
         ("logFile", JStr logFile) ].

Definition PROMPT_HEADER : string :=
"You are running in a Docker container with FULL NETWORK ACCESS.
Execute tasks directly - you can download files, make API calls, etc.
Save any output files to /workspace directory.

IMPORTANT - TOOL REUSE:
Before creating any scripts or tools, check /tools directory for existing tools that might solve the task:
1. Run: ls -la /tools/ to see available tools
2. If a suitable tool exists, use it instead of creating a new one
3. If you must create a new tool, save it to /workspace with a descriptive filename

IMPORTANT - INSTALLING PACKAGES:
For Python tools like yt-dlp, use: uv tool run yt-dlp [args]
This runs the tool without needing global installation.

USER REQUEST:
".

(** [escapePathForTemplate(value)] *)
Definition escapePathForTemplate (value : string) : string :=
  replaceAll backslash (String backslash (String backslash EmptyString)) value.

(** [prompt.replace(/`/g, "\\`").replace(/\$/g, "\\$")] *)
Definition escapePrompt (prompt : string) : string :=
  replaceAll "$" (String backslash "$")
    (replaceAll backtick (String backslash (String backtick EmptyString)) prompt).

(** [a === b] on two constants of the script. *)
Definition same (a b : string) : bool := String.eqb a b.

(** The runner script [handleSubmit] writes. The values are pasted into
    the script text between double quotes as they are, the two Docker
    paths with their backslashes doubled, the prompt into a template
    literal with its backticks and dollar signs escaped; the script is
    what [bun] makes of that text. [None] stands for a text that is not
    read: one of the literals does not stay a literal, so that the text
    is no module or another program, or the task id or a path of the
    working directory comes out changed, so that the runner works on
    files the world does not hold. [path.join] is taken on a working
    directory in normal form. *)
Definition dockerRunnerScript (p : Preferences) (v : FormValues)
           (id logFile : string) : option Script :=
  let tasksFile := workingDirectory p +:+ "/.agentic-tasks.json" in
  let toolsDirectory := workingDirectory p +:+ "/tools" in
  let dockerfilePath := workingDirectory p +:+ "/docker/Dockerfile" in
  let dockerContextPath := workingDirectory p in
  match stringLiteral id, stringLiteral tasksFile, stringLiteral logFile,
        stringLiteral (workingDirectory p), stringLiteral toolsDirectory with
  | Some id', Some tasksFile', Some logFile', Some workingDirectory',
    Some toolsDirectory' =>
      if same id' id && same tasksFile' tasksFile && same logFile' logFile
         && same workingDirectory' (workingDirectory p)
         && same toolsDirectory' toolsDirectory
      then
        match stringLiteral
                ("openrouter/" +:+ (if truthy (modelName p) then modelName p
                                    else "anthropic/claude-3.5-haiku")),
              stringLiteral
                (if truthy (retryModelName p)
                 then "openrouter/" +:+ retryModelName p else ""),
              stringLiteral (openRouterApiKey p),
              stringLiteral (escapePathForTemplate dockerfilePath),
              stringLiteral (escapePathForTemplate dockerContextPath),
              templateLiteral
                (PROMPT_HEADER +:+ escapePrompt (prompt v) +:+ String LF "") with
        | Some primaryModel', Some retryModel', Some apiKey',
          Some dockerfilePath', Some _, Some promptText' =>
            Some {| taskId := id';
                    logFile := logFile';
                    primaryModel := primaryModel';
                    retryModel := retryModel';
                    apiKey := apiKey';
                    dockerfilePath := dockerfilePath';
                    promptText := promptText' |}
        | _, _, _, _, _, _ => None
        end
      else None
  | _, _, _, _, _ => None
  end.



(** [handleSubmit(values)]. The context files are read but the Docker
    runner script does not use them. *)
Definition handleSubmit (h : Host) (p : Preferences) (v : FormValues)
  : M World unit :=
  if negb (truthy (prompt v)) then showToast "Failure" "Prompt is required"
  else
    do w <- get ;;
    if negb (workingDirectoryExists w)
    then showToast "Failure" "Working directory not found"
    else
      tryCatch
        (run showToast "Animated" "Starting Agent..." ;;
         do t <- DateNow h ;;
         let id := pretty t in
         let logFile := workingDirectory p +:+ "/.agentic-logs/" +:+ id +:+ ".log" in
         do w <- get ;;
         do tasks <- match tasksFile w with
                     | Some c =>
                         tryCatch (parseTasks c)
                           (fun e =>
                              run effect (ConsoleError "Failed to parse tasks file") ;;
                              ret (JArr []))
                     | None => ret (JArr [])
                     end ;;
         do startTime <- DateNow h ;;
         do tasks <- push tasks (newTask id (prompt v) startTime logFile) ;;
         run writeTasks tasks ;;
         let scriptPath := workingDirectory p +:+ "/.runner-" +:+ id +:+ ".mjs" in
         run effect (WriteScript scriptPath (dockerRunnerScript p v id logFile)) ;;
         run effect (SpawnRunner scriptPath) ;;
         showToast "Success" "Agent started")
        (fun error => showToast "Failure" "Failed to start Agent").

(** *** The runner script *)

Definition DOCKER_IMAGE : string := "agentic-tooling:latest".

(** [result.status === 0] *)
Definition isZero (st : option Z) : bool :=
match st with Some 0%Z => true | _ => false end.

(** [runDocker(model, prompt)] of the runner script; [n] numbers the
    [docker run] processes of the job. *)
Definition runDocker (h : Host) (s : Script) (n : nat) (model : string)
  : M World Gateway.RunResult :=
run log ("Running: docker run --rm -e OPENROUTER_API_KEY=" +:+ apiKey s +:+ " -v ...") ;;
run effect (DockerRun model) ;;
let result := agent h n model in
ret {| Gateway.exitCode := Gateway.orZero (status result);
       Gateway.output := orEmpty (stdout result) +:+ orEmpty (stderr result) |}.

(** [ensureDockerImage()] of the runner script. *)
Definition ensureDockerImage (h : Host) (s : Script) : M World unit :=
do usable <-
   (if isZero (inspectStatus h)
    then if isZero (smokeStatus h)
         then run log "Docker image verified" ;; ret true
         else run log "Docker image exists but is not usable, rebuilding..." ;; ret false
    else run log ("Docker image '" +:+ DOCKER_IMAGE +:+ "' not found. Building...") ;;
         ret false) ;;
if usable : bool then ret tt
else if negb (dockerfileExists h)
then throw ("Dockerfile not found at " +:+ dockerfilePath s +:+
            ". Please ensure you are using the repo version of the extension.")
else
  run log ("Building Docker image from " +:+ dockerfilePath s +:+ "...") ;;
  if negb (isZero (buildStatus h))
  then throw ("Failed to build Docker image. Exit code: " +:+
              match buildStatus h with Some c => pretty c | None => "null" end)
  else log "Docker image built successfully.".

(** [ensureDockerImage()] returns: the image passes the smoke test or
    can be built. *)
Definition imageReady (h : Host) : bool :=
(isZero (inspectStatus h) && isZero (smokeStatus h)) ||
(dockerfileExists h && isZero (buildStatus h)).

(** [collectTools()] of the runner script, on the directories of the world. *)
Definition collectTools : M World unit :=
run effect CollectTools ;;
do w <- get ;;
let harvested := collectToolsRunner (workspace w) (tools w) in
run modify (setTools (store harvested)) ;;
forEach (logs harvested) log.

Definition statusOf (exitCode : Z) : string :=
if (exitCode =? 0)%Z then "completed" else "failed".

(** The top-level [try { ... } catch (err) { ... }] of the runner script. *)
Definition runner (h : Host) (s : Script) : M World unit :=
tryCatch
  (run log "Starting Docker sandbox..." ;;
   run tryCatch
         (run effect DockerInfo ;;
          if dockerInfoOk h then log "Docker is available"
          else throw "Command failed: docker info")
         (fun e => throw "Docker is not installed or not running") ;;
   run ensureDockerImage h s ;;
   run log ("Running opencode with primary model: " +:+ primaryModel s) ;;
   do result <- runDocker h s 0 (primaryModel s) ;;
   run log ("Primary model finished with exit code: " +:+
            pretty (Gateway.exitCode result)) ;;
   run log ("Output:" +:+ String "010" (Gateway.output result)) ;;
   do result <-
      (if truthy (retryModel s) && detectRefusalExt (Gateway.output result)
       then
         run log (String "010" "=== REFUSAL DETECTED - Retrying with fallback model ===" +:+
                  String "010" "") ;;
         run log ("Retrying with: " +:+ retryModel s) ;;
         do result <- runDocker h s 1 (retryModel s) ;;
         run log ("Retry model finished with exit code: " +:+
                  pretty (Gateway.exitCode result)) ;;
         run log ("Retry Output:" +:+ String "010" (Gateway.output result)) ;;
         ret result
       else ret result) ;;
   run when (Gateway.exitCode result =? 0)%Z collectTools ;;
   run log "Cleaning up workspace state..." ;;
   run tryCatch
         (run effect (Exec "rm -rf .opencode .config/opencode 2>/dev/null || true") ;;
          log "Workspace cleanup done")
         (fun e => log ("Cleanup warning: " +:+ e)) ;;
   do t <- DateNow h ;;
   run updateTask (taskId s) (statusOf (Gateway.exitCode result)) t ;;
   exit (Gateway.exitCode result))
  (fun err =>
     run log ("Error: " +:+ err) ;;
     do t <- DateNow h ;;
     run updateTask (taskId s) "failed" t ;;
     exit 1%Z).

(** The script handed to the detached [bun] process: [None] when none
    was spawned or its text is not read. *)
Fixpoint spawnedScript (effects : list Effect) : option Script :=
match effects with
| WriteScript path s :: SpawnRunner path' :: _ => s
| _ :: rest => spawnedScript rest
| [] => None
end.

(** A submission followed by the run of the detached runner process. *)
Definition submitAndRun (h : Host) (p : Preferences) (v : FormValues)
  : M World unit :=
do w0 <- get ;;
run handleSubmit h p v ;;
do w <- get ;;
match spawnedScript (drop (length (effects w0)) (effects w)) with
| Some s => runner h s
| None => ret tt
end.

(** The collection [handleSubmit] appends to: the empty one for a ledger
    file that is absent or that [JSON.parse] rejects; [None] where
    [tasks.push] throws. *)
Definition openLedger (c : option FileContent) : option (list json) :=
match c with
| None => Some []
| Some (NotJson _) => Some []
| Some (Json (JArr items)) => Some items
| Some (Json _) => None
end.

(** The attempt whose result ends the job. *)
Definition lastAttempt (h : Host) (s : Script) : SpawnSyncResult :=
let first := agent h 0 (primaryModel s) in
if truthy (retryModel s) &&
   detectRefusalExt (orEmpty (stdout first) +:+ orEmpty (stderr first))
then agent h 1 (retryModel s)
else first.

(** *** Reading the ledger and the trace *)

(** The [status] of the record with the given [id], as [list()] shows it. *)
Definition statusIn (id : string) (c : option FileContent) : option json :=
match c with
| Some (Json (JArr items)) =>
    match findIndexFrom 0 id items with
    | Some (Some i) =>
        match items !! i with
        | Some (JObj fields) => field "status" fields
        | _ => None
        end
    | _ => None
    end
| _ => None
end.

(** Every status the record [id] was written with, oldest first. *)
Fixpoint statusHistory (id : string) (effects : list Effect) : list json :=
match effects with
| [] => []
| WriteTasks v :: rest =>
    match statusIn id (Some (Json v)) with
    | Some st => st :: statusHistory id rest
    | None => statusHistory id rest
    end
| _ :: rest => statusHistory id rest
end.

Definition isLedgerWrite (e : Effect) : bool :=
match e with WriteTasks _ => true | _ => false end.
Definition isLog (line : string) (e : Effect) : bool :=
match e with Log l => String.eqb l line | _ => false end.

(** Position of the first effect that satisfies [f]. *)
Fixpoint firstIndex (f : Effect -> bool) (effects : list Effect) : option nat :=
match effects with
| [] => None
| e :: rest => if f e then Some 0%nat else S <$> firstIndex f rest
end.

(** The collection a ledger file holds: empty when the file is absent,
    undefined when the file is not a JSON array. *)
Definition ledgerItems (c : option FileContent) : option (list json) :=
match c with
| None => Some []
| Some (Json (JArr items)) => Some items
| Some _ => None
end.

End Ledger.

(* ===================================================================== *)
(** ** Base64, as the host runtime and the sandbox's coreutils do it *)
(* ===================================================================== *)

Module Base64.

Definition alphabet : string :=
  "ABCDEFGHIJKLMNOPQRSTUVWXYZabcdefghijklmnopqrstuvwxyz0123456789+/".

Definition pad : ascii := "="%char.
Definition newline : ascii := "010"%char.

(** The digit of a sextet. *)
Definition digit (n : N) : ascii :=
  match String.get (N.to_nat n) alphabet with
  | Some c => c
  | None => pad
  end.

(** The sextet of a digit of the standard alphabet. *)
Definition value (c : ascii) : option N :=
  let n := N_of_ascii c in
  if (65 <=? n)%N && (n <=? 90)%N then Some (n - 65)%N
  else if (97 <=? n)%N && (n <=? 122)%N then Some (n - 71)%N
  else if (48 <=? n)%N && (n <=? 57)%N then Some (n + 4)%N
  else if (n =? 43)%N then Some 62%N
  else if (n =? 47)%N then Some 63%N
  else None.

(** The decoder of the runtime also takes the URL-safe digits. *)
Definition valueUrl (c : ascii) : option N :=
  let n := N_of_ascii c in
  if (n =? 45)%N then Some 62%N
  else if (n =? 95)%N then Some 63%N
  else value c.

Definition byteOf (n : N) : Byte.byte :=
  match Byte.of_N n with
  | Some b => b
  | None => Byte.x00
  end.

(** [buffer.toString("base64")] *)
Fixpoint encode (bs : list Byte.byte) : string :=
  match bs with
  | [] => ""
  | [a] =>
      let x := Byte.to_N a in
      String (digit (x / 4)) (String (digit ((x mod 4) * 16)) (String pad (String pad "")))
  | [a; b] =>
      let x := Byte.to_N a in
      let y := Byte.to_N b in
      String (digit (x / 4))
     (String (digit ((x mod 4) * 16 + y / 16))
     (String (digit ((y mod 16) * 4)) (String pad "")))
  | a :: b :: c :: rest =>
      let x := Byte.to_N a in
      let y := Byte.to_N b in
      let z := Byte.to_N c in
      String (digit (x / 4))
     (String (digit ((x mod 4) * 16 + y / 16))
     (String (digit ((y mod 16) * 4 + z / 64))
     (String (digit (z mod 64)) (encode rest))))
  end.

Definition byte1 (a b : N) : Byte.byte := byteOf (a * 4 + b / 16).
Definition byte2 (b c : N) : Byte.byte := byteOf ((b mod 16) * 16 + c / 4).
Definition byte3 (c d : N) : Byte.byte := byteOf ((c mod 4) * 64 + d).

(** The sextets of the digits of a text, up to the first padding
    character; anything that is not a digit is skipped. *)
Fixpoint sextets (s : string) : list N :=
  match s with
  | EmptyString => []
  | String c s' =>
      if Ascii.eqb c pad then []
      else match valueUrl c with
           | Some v => v :: sextets s'
           | None => sextets s'
           end
  end.

Fixpoint unpack (vs : list N) : list Byte.byte :=
  match vs with
  | a :: b :: c :: d :: rest => byte1 a b :: byte2 b c :: byte3 c d :: unpack rest
  | [a; b; c] => [byte1 a b; byte2 b c]
  | [a; b] => [byte1 a b]
  | _ => []
  end.

(** [Buffer.from(text, "base64")]: white space and other foreign characters
    are ignored, decoding stops at the padding. *)
Definition decodeLenient (s : string) : list Byte.byte := unpack (sextets s).

(** Groups of four digits, the last one possibly padded; [None] on
    anything else. *)
Fixpoint strictGroups (s : string) : option (list Byte.byte) :=
  match s with
  | EmptyString => Some []
  | String a (String b (String c (String d rest))) =>
      match value a, value b with
      | Some va, Some vb =>
          if Ascii.eqb c pad
          then if Ascii.eqb d pad && String.eqb rest "" then Some [byte1 va vb] else None
          else match value c with
               | None => None
               | Some vc =>
                   if Ascii.eqb d pad
                   then if String.eqb rest "" then Some [byte1 va vb; byte2 vb vc] else None
                   else match value d, strictGroups rest with
                        | Some vd, Some bs =>
                            Some (byte1 va vb :: byte2 vb vc :: byte3 vc vd :: bs)
                        | _, _ => None
                        end
               end
      | _, _ => None
      end
  | _ => None
  end.

Fixpoint dropNewlines (s : string) : string :=
  match s with
  | EmptyString => EmptyString
  | String c s' => if Ascii.eqb c newline then dropNewlines s' else String c (dropNewlines s')
  end.

(** [base64 -d] of coreutils: line breaks are ignored, other garbage is
    an error. *)
Definition decodeStrict (s : string) : option (list Byte.byte) :=
  strictGroups (dropNewlines s).

(** The output of [base64 FILE]: lines of 76 digits, each ended by a
    line break. *)
Fixpoint wrapFrom (column : nat) (s : string) : string :=
  match s with
  | EmptyString =>
      match column with O => EmptyString | S _ => String newline EmptyString end
  | String c s' =>
      if (column =? 76)%nat then String newline (String c (wrapFrom 1 s'))
      else String c (wrapFrom (S column) s')
  end.

Definition wrap76 : string -> string := wrapFrom 0.

(** What the transfer relies on: a digit or padding character is not a
    quote, not a line break and not white space. *)
Definition plainChar (c : ascii) : bool :=
  negb (Ascii.eqb c "'"%char) && negb (Ascii.eqb c newline) && negb (Ascii.is_space c).

Fixpoint plain (s : string) : bool :=
  match s with
  | EmptyString => true
  | String c s' => plainChar c && plain s'
  end.

End Base64.

(* ===================================================================== *)
(** ** Splitting and joining text *)
(* ===================================================================== *)

Module JsText.

(** [s.split(sep)] for a separator of one character. *)
Fixpoint split (sep : ascii) (s : string) : list string :=
  match s with
  | EmptyString => [EmptyString]
  | String c rest =>
      if Ascii.eqb c sep then EmptyString :: split sep rest
      else match split sep rest with
           | first :: others => String c first :: others
           | [] => [String c EmptyString]
           end
  end.

(** [parts.join(sep)] *)
Fixpoint join (sep : ascii) (parts : list string) : string :=
  match parts with
  | [] => EmptyString
  | part :: rest =>
      match rest with
      | [] => part
      | _ :: _ => part +:+ String sep (join sep rest)
      end
  end.

(** The text holds no [sep]. *)
Fixpoint free (sep : ascii) (s : string) : bool :=
  match s with
  | EmptyString => true
  | String c rest => negb (Ascii.eqb c sep) && free sep rest
  end.

End JsText.

(* ===================================================================== *)
(** ** The file tree of a sandbox *)
(* ===================================================================== *)

Module Fs.
Import JsString JsText.

(** An absolute path as its components, the innermost first: the parent
    of a path is its tail and [[]] is the root directory. *)
Abbreviation Path := (list string).

(** What the user of the sandbox finds at a path, with what that user may
    do there. *)
Inductive Entry :=
| Dir (searchable writable : bool)
| File (content : list Byte.byte) (readable writable : bool).

Abbreviation Tree := (gmap (list string) Entry).

Definition dots (name : string) : bool :=
  String.eqb name "." || String.eqb name "..".

(** The components of a path text. Repeated and trailing slashes are
    skipped, as path resolution does. [None] for what the model does not
    resolve: a relative path (it depends on the working directory, and an
    operand that starts with a dash is read as an option) and a path with
    a [.] or [..] component. *)
Definition components (path : string) : option Path :=
  if startsWith path "/"
  then
    let names := List.filter (fun name => negb (String.eqb name "")) (split "/" path) in
    if existsb dots names then None else Some (rev names)
  else None.

(** The text ends with a slash: it can only name a directory. *)
Definition trailingSlash (path : string) : bool :=
  String.eqb (List.last (split "/" path) "x") "".

(** How a command reads a path operand: not at all, as a place where no
    regular file can be, or as a path of the tree. *)
Inductive Operand :=
| Unread
| Refused
| At (p : Path).

Definition directoryOperand (path : string) : Operand :=
  match components path with
  | Some p => At p
  | None => Unread
  end.

Definition fileOperand (path : string) : Operand :=
  match components path with
  | Some p => if trailingSlash path then Refused else At p
  | None => Unread
  end.

(** Every directory from the root down to [dir] exists and can be
    searched: the files in [dir] can be reached. *)
Fixpoint enters (t : Tree) (dir : Path) : bool :=
  match t !! dir with
  | Some (Dir true _) =>
      match dir with
      | [] => true
      | _ :: parent => enters t parent
      end
  | _ => false
  end.

(** [mkdir -p dir]: the tree afterwards and whether the command
    succeeded. Directories that exist are kept as they are; a missing one
    is created in its parent when that one can be searched and written. *)
Fixpoint mkdirP (t : Tree) (dir : Path) : Tree * bool :=
  match dir with
  | [] => (t, match t !! dir with Some (Dir _ _) => true | _ => false end)
  | _ :: parent =>
      let (t', made) := mkdirP t parent in
      if negb made then (t', false)
      else match t' !! parent with
           | Some (Dir true writable) =>
               match t' !! dir with
               | Some (Dir _ _) => (t', true)
               | Some (File _ _ _) => (t', false)
               | None =>
                   if writable then (<[dir := Dir true true]> t', true)
                   else (t', false)
               end
           | _ => (t', false)
           end
  end.

(** Opening [file] for writing and replacing its content by [update] of
    it: an existing regular file must be writable, a missing one is
    created when its directory can be written. [None] when the file
    cannot be opened. *)
Definition store (update : list Byte.byte -> list Byte.byte) (t : Tree) (file : Path)
  : option Tree :=
  match file with
  | [] => None
  | _ :: parent =>
      if enters t parent
      then match t !! file with
           | Some (File content readable true) =>
               Some (<[file := File (update content) readable true]> t)
           | Some _ => None
           | None =>
               match t !! parent with
               | Some (Dir _ true) => Some (<[file := File (update []) true true]> t)
               | _ => None
               end
           end
      else None
  end.

(** Reading [file]: [None] when it is not a regular file the user may
    read. *)
Definition read (t : Tree) (file : Path) : option (list Byte.byte) :=
  match file with
  | [] => None
  | _ :: parent =>
      if enters t parent
      then match t !! file with
           | Some (File content true _) => Some content
           | _ => None
           end
      else None
  end.

(** A name that is one component of a path. *)
Definition segment (name : string) : bool :=
  negb (String.eqb name "") && free "/" name && negb (dots name).

(** The text of the path with the components [p], for a path below the
    root. *)
Fixpoint render (p : Path) : string :=
  match p with
  | [] => EmptyString
  | name :: parent => render parent +:+ String "/" name
  end.

(** A new entry can be created at [p]: nothing is there, the innermost
    directory above it that exists can be reached, searched and written,
    and no regular file is in the way. *)
Fixpoint vacant (t : Tree) (p : Path) : bool :=
  match p with
  | [] => false
  | _ :: parent =>
      match t !! p with
      | Some _ => false
      | None =>
          match t !! parent with
          | Some (Dir true true) => enters t parent
          | Some _ => false
          | None => vacant t parent
          end
      end
  end.

(** A file can be put at [file]: the place is vacant, or a regular file
    is there that the user can reach, read and write. *)
Definition accepts (t : Tree) (file : Path) : bool :=
  match t !! file with
  | Some (File _ true true) =>
      match file with
      | [] => false
      | _ :: parent => enters t parent
      end
  | Some _ => false
  | None => vacant t file
  end.

End Fs.

(* ===================================================================== *)
(** ** The command channel of a sandbox *)
(* ===================================================================== *)

Module Shell.
Import JsString.

(** Where the reader of a shell word stands. *)
Inductive Quoting := Outside | Single | Double.

Definition consWord (c : ascii) (r : option (string * string)) : option (string * string) :=
  match r with
  | Some (w, rest) => Some (String c w, rest)
  | None => None
  end.

(** Characters that are expanded inside double quotes. *)
Definition expands (c : ascii) : bool :=
  Ascii.eqb c "\"%char || Ascii.eqb c "$"%char || Ascii.eqb c "`"%char.

(** A word made of quoted segments: the text it denotes and what follows
    it. [None] is a syntax the model does not read. *)
Fixpoint word (q : Quoting) (s : string) : option (string * string) :=
  match s with
  | EmptyString =>
      match q with Outside => Some (EmptyString, EmptyString) | _ => None end
  | String c s' =>
      match q with
      | Outside =>
          if Ascii.eqb c quote then word Single s'
          else if Ascii.eqb c dquote then word Double s'
          else Some (EmptyString, s)
      | Single =>
          if Ascii.eqb c quote then word Outside s' else consWord c (word Single s')
      | Double =>
          if Ascii.eqb c dquote then word Outside s'
          else if expands c then None
          else consWord c (word Double s')
      end
  end.

(** What may follow a word: nothing, or a character that is not a quote. *)
Definition endsWord (rest : string) : Prop :=
  match rest with
  | EmptyString => True
  | String c _ => Ascii.eqb c quote = false /\ Ascii.eqb c dquote = false
  end.

(** [s] without the prefix [p]. *)
Fixpoint after (p s : string) {struct p} : option string :=
  match p, s with
  | EmptyString, _ => Some s
  | String _ _, EmptyString => None
  | String a p', String b s' => if Ascii.eqb a b then after p' s' else None
  end.

(** The commands of the transfer protocol. *)
Inductive Command :=
| Truncate (dir file : string)          (* mkdir -p DIR && : > FILE *)
| AppendDecoded (text file : string)    (* echo TEXT | base64 -d >> FILE *)
| Encode (file : string)                (* base64 FILE *)
| Other.

Definition parseTruncate (cmd : string) : option Command :=
  match after "mkdir -p " cmd with
  | None => None
  | Some r =>
      match word Outside r with
      | None => None
      | Some (dir, r) =>
          match after " && : > " r with
          | None => None
          | Some r =>
              match word Outside r with
              | Some (file, EmptyString) => Some (Truncate dir file)
              | _ => None
              end
          end
      end
  end.

Definition parseAppend (cmd : string) : option Command :=
  match after "echo " cmd with
  | None => None
  | Some r =>
      match word Outside r with
      | None => None
      | Some (text, r) =>
          match after " | base64 -d >> " r with
          | None => None
          | Some r =>
              match word Outside r with
              | Some (file, EmptyString) => Some (AppendDecoded text file)
              | _ => None
              end
          end
      end
  end.

Definition parseEncode (cmd : string) : option Command :=
  match after "base64 " cmd with
  | None => None
  | Some r =>
      match word Outside r with
      | Some (file, EmptyString) => Some (Encode file)
      | _ => None
      end
  end.

Definition parse (cmd : string) : Command :=
  match parseTruncate cmd with
  | Some c => c
  | None =>
      match parseAppend cmd with
      | Some c => c
      | None =>
          match parseEncode cmd with
          | Some c => c
          | None => Other
          end
      end
  end.

(** Exit code, standard output and standard error of a command. *)
Record Completed := { exit : Z; out : string; err : string }.

Definition ok (text : string) : Completed := {| exit := 0; out := text; err := "" |}.
Definition failed (message : string) : Completed := {| exit := 1; out := ""; err := message |}.

(** One command on the file tree of the sandbox. [other] answers what
    the model does not read: the commands outside the transfer protocol,
    path operands that [Fs.components] does not resolve, and text that
    [base64 -d] rejects. A command that cannot open its file fails and
    leaves the tree as it is; in [mkdir -p DIR && : > FILE] the second
    command runs when the first one succeeded. *)
Definition exec (other : string -> Completed) (cmd : string) (files : Fs.Tree)
  : Completed * Fs.Tree :=
  match parse cmd with
  | Truncate dir file =>
      match Fs.directoryOperand dir, Fs.fileOperand file with
      | Fs.At d, Fs.At f =>
          let (made, done) := Fs.mkdirP files d in
          if done
          then match Fs.store (fun _ => []) made f with
               | Some written => (ok "", written)
               | None => (failed ("sh: cannot create " +:+ file), made)
               end
          else (failed ("mkdir: cannot create directory " +:+ dir), made)
      | Fs.At d, Fs.Refused =>
          (failed ("sh: cannot create " +:+ file), fst (Fs.mkdirP files d))
      | _, _ => (other cmd, files)
      end
  | AppendDecoded text file =>
      match Fs.fileOperand file with
      | Fs.At f =>
          match Base64.decodeStrict (text +:+ String Base64.newline "") with
          | Some bytes =>
              match Fs.store (fun content => content ++ bytes) files f with
              | Some written => (ok "", written)
              | None => (failed ("sh: cannot create " +:+ file), files)
              end
          | None => (other cmd, files)
          end
      | Fs.Refused => (failed ("sh: cannot create " +:+ file), files)
      | Fs.Unread => (other cmd, files)
      end
  | Encode file =>
      match Fs.fileOperand file with
      | Fs.At f =>
          match Fs.read files f with
          | Some bytes => (ok (Base64.wrap76 (Base64.encode bytes)), files)
          | None => (failed ("base64: " +:+ file +:+ ": No such file or directory"), files)
          end
      | Fs.Refused => (failed ("base64: " +:+ file +:+ ": Not a directory"), files)
      | Fs.Unread => (other cmd, files)
      end
  | Other => (other cmd, files)
  end.

End Shell.

(* ===================================================================== *)
(** ** The Daytona sandbox CLI (scripts/daytona-cli.ts) *)
(* ===================================================================== *)

Module Daytona.
Import JsString Js.

(** [RunResponse]: each provider fills its own subset of the fields. *)
Record RunResponse := {
  exit_code : option Z;
  exitCode : option Z;
  result : option string;
  stdout : option string;
  stderr : option string
}.

(** [PushPair] and [PullPair]. *)
Record Pair := { local : string; remote : string }.

Record Options := {
  apiKey : option string;
  language : option string;
  remoteDir : string;
  push : list Pair;
  pull : list Pair;
  cmd : option string;
  keep : bool
}.

Definition DEFAULT_REMOTE_DIR : string := "/tmp/daytona-cli".
Definition CHUNK_SIZE : nat := N.to_nat 60000.

(** Calls made to the provider's SDK. *)
Inductive ApiCall :=
| Create (language : string)
| CodeRun (code : string)
| Delete.

Record World := {
  localFiles : gmap string (list Byte.byte);
  writeError : string -> option string;  (* why no file can be written at a
                                            local path, where none can *)
  sandboxFiles : Fs.Tree;
  calls : list ApiCall;                  (* oldest first *)
  console : list string;
  processExitCode : Z
}.

(** The remote-sandbox provider. *)
Record Provider := {
  createOk : bool;                       (* daytona.create resolves *)
  sandboxId : option string;
  deleteOk : bool;                       (* sandbox.delete resolves *)
  snakeCase : bool;                      (* {exit_code, result} or {exitCode, stdout} *)
  other : string -> Shell.Completed      (* the commands [Shell.exec] does not read *)
}.

Definition call (c : ApiCall) (w : World) : World :=
  {| localFiles := localFiles w; writeError := writeError w;
     sandboxFiles := sandboxFiles w;
     calls := calls w ++ [c]; console := console w;
     processExitCode := processExitCode w |}.
Definition setSandboxFiles (f : Fs.Tree) (w : World) : World :=
  {| localFiles := localFiles w; writeError := writeError w;
     sandboxFiles := f;
     calls := calls w; console := console w;
     processExitCode := processExitCode w |}.
Definition setLocalFiles (f : gmap string (list Byte.byte)) (w : World) : World :=
  {| localFiles := f; writeError := writeError w;
     sandboxFiles := sandboxFiles w;
     calls := calls w; console := console w;
     processExitCode := processExitCode w |}.
Definition print (line : string) (w : World) : World :=
  {| localFiles := localFiles w; writeError := writeError w;
     sandboxFiles := sandboxFiles w;
     calls := calls w; console := console w ++ [line];
     processExitCode := processExitCode w |}.
Definition setExitCode (c : Z) (w : World) : World :=
  {| localFiles := localFiles w; writeError := writeError w;
     sandboxFiles := sandboxFiles w;
     calls := calls w; console := console w;
     processExitCode := c |}.

Definition consoleLog (line : string) : M World unit := modify (print line).

(** The response object for a completed command. *)
Definition respond (pv : Provider) (c : Shell.Completed) : RunResponse :=
  if snakeCase pv
  then {| exit_code := Some (Shell.exit c); exitCode := None;
          result := Some (Shell.out c); stdout := None;
          stderr := Some (Shell.err c) |}
  else {| exit_code := None; exitCode := Some (Shell.exit c);
          result := None; stdout := Some (Shell.out c);
          stderr := Some (Shell.err c) |}.

(** [await sandbox.process.codeRun(text)] *)
Definition codeRun (pv : Provider) (text : string) : M World RunResponse :=
  fun w =>
    let (done, files) := Shell.exec (other pv) text (sandboxFiles w) in
    (Ret (respond pv done), call (CodeRun text) (setSandboxFiles files w)).

(** [res?.exitCode ?? res?.exit_code ?? 0] *)
Definition code (res : RunResponse) : Z :=
  match exitCode res with
  | Some c => c
  | None => match exit_code res with Some c => c | None => 0%Z end
  end.

(** [a || b] on optional strings: the first that is present and not empty. *)
Definition orElse (a : option string) (b : string) : string :=
  match a with
  | Some t => if truthy t then t else b
  | None => b
  end.

(** [res?.stderr || res?.result || "unknown error"] *)
Definition diagnostic (res : RunResponse) : string :=
  orElse (stderr res) (orElse (result res) "unknown error").

Definition slash : ascii := "/"%char.

Fixpoint dropSlashes (s : string) : string :=
  match s with
  | String c s' => if Ascii.eqb c slash then dropSlashes s' else s
  | EmptyString => EmptyString
  end.

Fixpoint dropName (s : string) : string :=
  match s with
  | String c s' => if Ascii.eqb c slash then s else dropName s'
  | EmptyString => EmptyString
  end.

(** [path.posix.dirname(path)] *)
Definition dirname (path : string) : string :=
  match path with
  | EmptyString => "."
  | String first tail =>
      let hasRoot := Ascii.eqb first slash in
      match dropName (dropSlashes (String.rev tail)) with
      | EmptyString => if hasRoot then "/" else "."
      | String _ before =>
          match before with
          | EmptyString => if hasRoot then "//" else String first EmptyString
          | _ => String first (String.rev before)
          end
      end
  end.

(** [fs.promises.readFile(path)] *)
Definition readFile (path : string) : M World (list Byte.byte) :=
  do w <- get ;;
  match localFiles w !! path with
  | Some bytes => ret bytes
  | None => throw ("ENOENT: no such file or directory, open '" +:+ path +:+ "'")
  end.

(** [fs.promises.mkdir(path.dirname(path), { recursive: true })] and
    [fs.promises.writeFile(path, buf)] *)
Definition writeFile (path : string) (buf : list Byte.byte) : M World unit :=
  do w <- get ;;
  match writeError w path with
  | Some message => throw message
  | None => modify (setLocalFiles (<[path := buf]> (localFiles w)))
  end.

(** The [for] loop of [pushFile]; [fuel] bounds the iterations that are
    left, and the length of the text is always enough. *)
Fixpoint pushChunks (pv : Provider) (pair : Pair) (remoteEsc b64 : string)
         (fuel i : nat) : M World unit :=
  if (i <? String.length b64)%nat
  then
    match fuel with
    | O => throw "pushFile: more chunks than characters"
    | S fuel' =>
        let chunk := escapeSingleQuotes (slice b64 i (i + CHUNK_SIZE)) in
        do res <- codeRun pv ("echo '" +:+ chunk +:+ "' | base64 -d >> '" +:+
                            remoteEsc +:+ "'") ;;
        if negb (code res =? 0)%Z
        then throw ("Failed to push " +:+ local pair +:+ ": " +:+ diagnostic res)
        else pushChunks pv pair remoteEsc b64 fuel' (i + CHUNK_SIZE)
    end
  else ret tt.

(** [pushFile(sandbox, pair)] *)
Definition pushFile (pv : Provider) (pair : Pair) : M World unit :=
  do buffer <- readFile (local pair) ;;
  let b64 := Base64.encode buffer in
  let remoteEsc := escapeSingleQuotes (remote pair) in
  let dir := dirname (remote pair) in
  do _ <- codeRun pv ("mkdir -p '" +:+ escapeSingleQuotes dir +:+ "' && : > '" +:+
                    remoteEsc +:+ "'") ;;
  run pushChunks pv pair remoteEsc b64 (String.length b64) 0 ;;
  consoleLog ("Pushed " +:+ local pair +:+ " -> " +:+ remote pair).

(** [pullFile(sandbox, pair)] *)
Definition pullFile (pv : Provider) (pair : Pair) : M World unit :=
  let remoteEsc := escapeSingleQuotes (remote pair) in
  do res <- codeRun pv ("base64 '" +:+ remoteEsc +:+ "'") ;;
  if negb (code res =? 0)%Z
  then throw ("Failed to pull " +:+ remote pair +:+ ": " +:+ diagnostic res)
  else
    let data := orElse (result res) (orElse (stdout res) "") in
    let buf := Base64.decodeLenient (trim data) in
    run writeFile (local pair) buf ;;
    consoleLog ("Pulled " +:+ remote pair +:+ " -> " +:+ local pair).

(** [await daytona.create({ language })] *)
Definition create (pv : Provider) (lang : string) : M World unit :=
  run modify (call (Create lang)) ;;
  if createOk pv then ret tt else throw "Failed to create sandbox".

(** [await sandbox.delete()] *)
Definition delete (pv : Provider) : M World unit :=
  run modify (call Delete) ;;
  if deleteOk pv then ret tt else throw "Failed to delete sandbox".

(** The command step of [main]. *)
Definition runCommand (pv : Provider) (text : string) : M World unit :=
  do runRes <- codeRun pv text ;;
  let exit := code runRes in
  run consoleLog ("Command exit: " +:+ pretty exit) ;;
  run when (truthy (orEmpty (stdout runRes))) (consoleLog (trim (orEmpty (stdout runRes)))) ;;
  run when (truthy (orEmpty (result runRes)) && negb (truthy (orEmpty (stdout runRes))))
           (consoleLog (trim (orEmpty (result runRes)))) ;;
  if negb (exit =? 0)%Z
  then throw ("Command failed: " +:+ diagnostic runRes)
  else ret tt.

(** [main()], from the parsed options on. *)
Definition main (pv : Provider) (opts : Options) : M World unit :=
  tryCatch
    (if negb (truthy (orEmpty (apiKey opts)))
     then throw "DAYTONA_API_KEY is required (or --api-key)"
     else
       run create pv (orElse (language opts) "typescript") ;;
       run consoleLog ("Sandbox created: " +:+
                       orElse (sandboxId pv) "[no id in response]") ;;
       run forEach (push opts) (pushFile pv) ;;
       run when (truthy (orEmpty (cmd opts))) (runCommand pv (orEmpty (cmd opts))) ;;
       run forEach (pull opts) (pullFile pv) ;;
       if negb (keep opts)
       then run delete pv ;; consoleLog "Sandbox deleted"
       else consoleLog "Sandbox kept (per --keep)")
    (fun err => run consoleLog err ;; modify (setExitCode 1)).

Definition isDelete (c : ApiCall) : bool :=
  match c with Delete => true | _ => false end.
Definition isCreate (c : ApiCall) : bool :=
  match c with Create _ => true | _ => false end.

End Daytona.

(* ===================================================================== *)
(** ** The remote-sandbox runner script (src/ask-agent.tsx, Daytona variant) *)
(* ===================================================================== *)

Module RemoteRunner.
Import JsString Js.

(** The runner touches the working directory of the extension and the
    sandbox of the provider. *)
Record World := { ledger : Ledger.World; sandbox : Daytona.World }.

Definition onLedger {A} (m : M Ledger.World A) : M World A :=
  fun w =>
    let (o, l) := m (ledger w) in (o, {| ledger := l; sandbox := sandbox w |}).

Definition onSandbox {A} (m : M Daytona.World A) : M World A :=
  fun w =>
    let (o, d) := m (sandbox w) in (o, {| ledger := ledger w; sandbox := d |}).

(** The constants baked into the script. *)
Record Script := {
  taskId : string;
  model : string;
  fileContents : list (string * string);   (* name, base64 text *)
  openRouterApiKey : string;
  promptText : string
}.

Definition CHUNK_SIZE : nat := N.to_nat 60000.
Definition CONTEXT_DIR : string := "/home/daytona/context".

Definition log (msg : string) : M World unit := onLedger (Ledger.log msg).

(** [await sandbox.process.executeCommand(text)] *)
Definition executeCommand (pv : Daytona.Provider) (text : string)
  : M World Daytona.RunResponse :=
  onSandbox (Daytona.codeRun pv text).

(** [value.replace(/'/g, ...)] with the replacement [' backslash ' ']. *)
Fixpoint escapeForShell (value : string) : string :=
  match value with
  | EmptyString => EmptyString
  | String c rest =>
      if Ascii.eqb c quote
      then String quote (String "\"%char (String quote (String quote
             (escapeForShell rest))))
      else String c (escapeForShell rest)
  end.

(** [remotePath.substring(0, remotePath.lastIndexOf('/'))] *)
Definition parentOf (remotePath : string) : string :=
  match Daytona.dropName (String.rev remotePath) with
  | EmptyString => EmptyString
  | String _ before => String.rev before
  end.

Fixpoint uploadChunks (pv : Daytona.Provider) (escaped b64Content : string)
         (fuel i : nat) : M World unit :=
  if (i <? String.length b64Content)%nat
  then
    match fuel with
    | O => throw "uploadFile: more chunks than characters"
    | S fuel' =>
        let chunk := escapeSingleQuotes (slice b64Content i (i + CHUNK_SIZE)) in
        do res <- executeCommand pv ("echo '" +:+ chunk +:+ "' | base64 -d >> '" +:+
                                   escaped +:+ "'") ;;
        if negb (Daytona.code res =? 0)%Z
        then throw ("Failed to upload: " +:+
                    Daytona.orElse (Daytona.stderr res) (orEmpty (Daytona.result res)))
        else uploadChunks pv escaped b64Content fuel' (i + CHUNK_SIZE)
    end
  else ret tt.

(** [uploadFile(sandbox, remotePath, b64Content)] *)
Definition uploadFile (pv : Daytona.Provider) (remotePath b64Content : string)
  : M World unit :=
  let escaped := escapeSingleQuotes remotePath in
  let dir := parentOf remotePath in
  do _ <- executeCommand pv ("mkdir -p '" +:+ escapeSingleQuotes dir +:+ "' && : > '" +:+
                           escaped +:+ "'") ;;
  uploadChunks pv escaped b64Content (String.length b64Content) 0.

(** [names.map(f => "- " + f.name).join(newline)] *)
Fixpoint listing (names : list string) : string :=
  match names with
  | [] => EmptyString
  | [name] => "- " +:+ name
  | name :: rest => "- " +:+ name +:+ String "010" (listing rest)
  end.

(** [main()] of the runner script. *)
Definition main (h : Ledger.Host) (pv : Daytona.Provider) (s : Script) : M World unit :=
  tryCatch
    (run log "Creating Daytona sandbox..." ;;
     run onSandbox (Daytona.create pv "typescript") ;;
     run log ("Sandbox created: " +:+ Daytona.orElse (Daytona.sandboxId pv) "unknown") ;;
     run log "Installing opencode via npm..." ;;
     do _ <- executeCommand pv "npm install -g opencode-ai 2>&1" ;;
     run log "OpenCode installed" ;;
     run when (0 <? length (fileContents s))%nat
           (run log ("Uploading " +:+ pretty (length (fileContents s)) +:+
                     " context file(s)...") ;;
            forEach (fileContents s)
                    (fun file =>
                       run uploadFile pv (CONTEXT_DIR +:+ "/" +:+ fst file) (snd file) ;;
                       log ("Uploaded: " +:+ fst file))) ;;
     let fullPrompt :=
       if (0 <? length (fileContents s))%nat
       then promptText s +:+
            String "010" (String "010" ("Context files uploaded to " +:+ CONTEXT_DIR +:+
            "/:" +:+ String "010" (listing (map fst (fileContents s)))))
       else promptText s in
     let envSetup :=
       if truthy (openRouterApiKey s)
       then "export OPENROUTER_API_KEY='" +:+ escapeForShell (openRouterApiKey s) +:+
            "' && "
       else "" in
     run log "Running opencode..." ;;
     let command :=
       envSetup +:+ "opencode run --model '" +:+ escapeForShell (model s) +:+ "' '" +:+
       escapeForShell fullPrompt +:+ "' --print-logs 2>&1" in
     do result <- executeCommand pv command ;;
     let exitCode := Daytona.code result in
     let output := Daytona.orElse (Daytona.stdout result)
                                  (orEmpty (Daytona.result result)) in
     run log ("OpenCode finished with exit code: " +:+ pretty exitCode) ;;
     run log ("Output:" +:+ String "010" output) ;;
     run log "Cleaning up sandbox..." ;;
     run onSandbox (Daytona.delete pv) ;;
     run log "Sandbox deleted" ;;
     do t <- onLedger (Ledger.DateNow h) ;;
     run onLedger (Ledger.updateTask (taskId s) (Ledger.statusOf exitCode) t) ;;
     exit exitCode)
    (fun err =>
       run log ("Error: " +:+ err) ;;
       do t <- onLedger (Ledger.DateNow h) ;;
       run onLedger (Ledger.updateTask (taskId s) "failed" t) ;;
       exit 1%Z).

End RemoteRunner.

(* ===================================================================== *)
(** ** Scenarios *)
(* ===================================================================== *)

Module Scenarios.
Import Gateway Harvest.

(** Ten minutes, the default of [--timeout]. *)
Definition tenMinutes : Z := 600000.

(** A run that prints and then stays alive past the timeout; SIGTERM
    ends it. *)
Definition stuckChild : Child :=
  {| script := [(10%Z, Stdout "done")]; onSIGTERM := Some [Exit None] |}.

(** A run that prints the same text and exits with code 0. *)
Definition cleanChild : Child :=
  {| script := [(10%Z, Stdout "done"); (20%Z, Exit (Some 0%Z))];
     onSIGTERM := Some [Exit None] |}.

(** A run that ignores SIGTERM and never exits. *)
Definition deafChild : Child :=
  {| script := [(10%Z, Stdout "working")]; onSIGTERM := None |}.

Definition oldTools : gmap string Node :=
  {[ "fizzbuzz.py" := File "print('v1')" 420 ]}.
Definition newWorkspace : gmap string Node :=
  {[ "fizzbuzz.py" := File "print('v2')" 420 ]}.

Definition helperWorkspace : gmap string Node :=
  {[ "my.github-helper.py" := File "import os" 420 ]}.

(** A machine on which the Docker daemon is not running. *)
Definition offlineHost : Ledger.Host :=
{| Ledger.now := fun n => (1700000000000 + Z.of_nat n)%Z;
   Ledger.dockerInfoOk := false;
   Ledger.inspectStatus := None;
   Ledger.smokeStatus := None;
   Ledger.dockerfileExists := true;
   Ledger.buildStatus := None;
   Ledger.agent := fun _ _ =>
     {| Ledger.status := None; Ledger.stdout := None; Ledger.stderr := None |} |}.

Definition somePreferences : Ledger.Preferences :=
{| Ledger.workingDirectory := "/work";
   Ledger.modelName := "anthropic/claude-haiku-4.5";
   Ledger.retryModelName := "x-ai/grok-4.1-fast";
   Ledger.openRouterApiKey := "sk-or-key" |}.

Definition fizzbuzzRequest : Ledger.FormValues :=
{| Ledger.prompt := "write a fizzbuzz script"; Ledger.files := [] |}.

(** A working directory without a ledger file. *)
Definition freshWorld : Ledger.World :=
{| Ledger.workingDirectoryExists := true;
   Ledger.tasksFile := None;
   Ledger.workspace := ∅;
   Ledger.tools := ∅;
   Ledger.reads := 0;
   Ledger.effects := [] |}.

(** A working directory whose ledger file is not JSON. *)
Definition garbledWorld : Ledger.World :=
{| Ledger.workingDirectoryExists := true;
   Ledger.tasksFile := Some (Ledger.NotJson "[{");
   Ledger.workspace := ∅;
   Ledger.tools := ∅;
   Ledger.reads := 0;
   Ledger.effects := [] |}.

(** The Docker CLI with its defaults, on a host where every [docker run]
    hangs until the timeout. *)
Definition timedOutConfig : Driver.Config :=
{| Driver.help := false;
   Driver.prompt := "write a fizzbuzz script";
   Driver.openRouterApiKey := "sk-or-key";
   Driver.modelName := "anthropic/claude-haiku-4.5";
   Driver.retryModelName := "x-ai/grok-4.1-fast";
   Driver.timeout := tenMinutes;
   Driver.quiet := false |}.

Definition timedOutCliHost : Driver.Host :=
{| Driver.workingDirectoryExists := true;
   Driver.dockerVersionOk := true;
   Driver.imageInspectOk := true;
   Driver.dockerfileExists := true;
   Driver.dockerBuildOk := true;
   Driver.child := fun _ _ => stuckChild;
   Driver.workspace := newWorkspace;
   Driver.tools := ∅ |}.

(** A model that declines and exits with code 0. *)
Definition refusingChild : Child :=
  {| script := [(10%Z, Stdout "I cannot assist with that request.");
                (20%Z, Exit (Some 0%Z))];
     onSIGTERM := Some [Exit None] |}.

Definition refusingCliHost : Driver.Host :=
{| Driver.workingDirectoryExists := true;
   Driver.dockerVersionOk := true;
   Driver.imageInspectOk := true;
   Driver.dockerfileExists := true;
   Driver.dockerBuildOk := true;
   Driver.child := fun _ _ => refusingChild;
   Driver.workspace := newWorkspace;
   Driver.tools := ∅ |}.

(** [--retry-model ""]: no fallback model. *)
Definition noFallbackConfig : Driver.Config :=
{| Driver.help := false;
   Driver.prompt := "write a fizzbuzz script";
   Driver.openRouterApiKey := "sk-or-key";
   Driver.modelName := "anthropic/claude-haiku-4.5";
   Driver.retryModelName := "";
   Driver.timeout := tenMinutes;
   Driver.quiet := false |}.

(** The machine of the extension when [spawnSync] gives up after its ten
    minutes: the result has no status. *)
Definition timedOutHost : Ledger.Host :=
{| Ledger.now := fun n => (1700000000000 + Z.of_nat n)%Z;
   Ledger.dockerInfoOk := true;
   Ledger.inspectStatus := Some 0%Z;
   Ledger.smokeStatus := Some 0%Z;
   Ledger.dockerfileExists := true;
   Ledger.buildStatus := Some 0%Z;
   Ledger.agent := fun _ _ =>
     {| Ledger.status := None; Ledger.stdout := Some "done"; Ledger.stderr := None |} |}.

(** The runner script of the submission of [fizzbuzzRequest]. *)
Definition fizzbuzzScript : Ledger.Script :=
{| Ledger.taskId := "1700000000000";
   Ledger.logFile := "/work/.agentic-logs/1700000000000.log";
   Ledger.primaryModel := "openrouter/" +:+ Ledger.modelName somePreferences;
   Ledger.retryModel := "openrouter/" +:+ Ledger.retryModelName somePreferences;
   Ledger.apiKey := Ledger.openRouterApiKey somePreferences;
   Ledger.dockerfilePath := "/work/docker/Dockerfile";
   Ledger.promptText :=
     Ledger.PROMPT_HEADER +:+ Ledger.prompt fizzbuzzRequest +:+ String "010" "" |}.

(** The world right after the submission of [fizzbuzzRequest]. *)
Definition submittedWorld : Ledger.World :=
{| Ledger.workingDirectoryExists := true;
   Ledger.tasksFile :=
     Some (Ledger.Json (Ledger.JArr
       [Ledger.newTask "1700000000000" "write a fizzbuzz script" 1700000000001
          "/work/.agentic-logs/1700000000000.log"]));
   Ledger.workspace := newWorkspace;
   Ledger.tools := ∅;
   Ledger.reads := 2;
   Ledger.effects := [] |}.

(** A provider that answers in camel case; the command [false] fails. *)
Definition someProvider : Daytona.Provider :=
{| Daytona.createOk := true;
   Daytona.sandboxId := Some "sandbox-1";
   Daytona.deleteOk := true;
   Daytona.snakeCase := false;
   Daytona.other := fun text =>
     if String.eqb text "false" then Shell.failed "" else Shell.ok "" |}.

Definition payload : list Byte.byte :=
String.list_byte_of_string "hello from local file".

(** A sandbox as the provider hands it out: the user may write below
    [/tmp] and below the home directory, not into the root. *)
Definition sandboxTree : Fs.Tree :=
{[ [] := Fs.Dir true false;
   ["tmp"] := Fs.Dir true true;
   ["home"] := Fs.Dir true false;
   ["daytona"; "home"] := Fs.Dir true true ]}.

(** Where the host cannot write a file: at its directory [test]. *)
Definition testIsDirectory (path : string) : option string :=
if String.eqb path "test"
then Some "EISDIR: illegal operation on a directory, open 'test'"
else None.

(** The host of test/daytona-cli-example.sh before the run. *)
Definition exampleWorld : Daytona.World :=
{| Daytona.localFiles := {[ "test/payload.txt" := payload ]};
   Daytona.writeError := testIsDirectory;
   Daytona.sandboxFiles := sandboxTree;
   Daytona.calls := [];
   Daytona.console := [];
   Daytona.processExitCode := 0 |}.

Definition pushPayload : Daytona.Pair :=
{| Daytona.local := "test/payload.txt";
   Daytona.remote := "/tmp/daytona-cli/payload.txt" |}.

Definition pullPayload : Daytona.Pair :=
{| Daytona.local := "test/payload.out";
   Daytona.remote := "/tmp/daytona-cli/payload.txt" |}.

(** [--push test/payload.txt --cmd false]: the command exits with 1. *)
Definition failingCommand : Daytona.Options :=
{| Daytona.apiKey := Some "dtn-key";
   Daytona.language := None;
   Daytona.remoteDir := Daytona.DEFAULT_REMOTE_DIR;
   Daytona.push := [pushPayload];
   Daytona.pull := [];
   Daytona.cmd := Some "false";
   Daytona.keep := false |}.

(** [--push test/missing.txt]: the local file does not exist. *)
Definition failingPush : Daytona.Options :=
{| Daytona.apiKey := Some "dtn-key";
   Daytona.language := None;
   Daytona.remoteDir := Daytona.DEFAULT_REMOTE_DIR;
   Daytona.push := [ {| Daytona.local := "test/missing.txt";
                        Daytona.remote := "/tmp/daytona-cli/missing.txt" |} ];
   Daytona.pull := [];
   Daytona.cmd := None;
   Daytona.keep := false |}.

(** [--pull /tmp/daytona-cli/absent.txt]: the remote file does not exist. *)
Definition failingPull : Daytona.Options :=
{| Daytona.apiKey := Some "dtn-key";
   Daytona.language := None;
   Daytona.remoteDir := Daytona.DEFAULT_REMOTE_DIR;
   Daytona.push := [];
   Daytona.pull := [ {| Daytona.local := "absent.txt";
                        Daytona.remote := "/tmp/daytona-cli/absent.txt" |} ];
   Daytona.cmd := None;
   Daytona.keep := false |}.

(** The example of the test folder: push, run, pull. *)
Definition exampleOptions : Daytona.Options :=
{| Daytona.apiKey := Some "dtn-key";
   Daytona.language := None;
   Daytona.remoteDir := Daytona.DEFAULT_REMOTE_DIR;
   Daytona.push := [pushPayload];
   Daytona.pull := [pullPayload];
   Daytona.cmd := Some "wc -c /tmp/daytona-cli/payload.txt";
   Daytona.keep := false |}.

(** A provider on which the agent command exits with code 2. *)
Definition agentFails : Daytona.Provider :=
{| Daytona.createOk := true;
   Daytona.sandboxId := Some "sandbox-1";
   Daytona.deleteOk := true;
   Daytona.snakeCase := false;
   Daytona.other := fun text =>
     if JsString.includes text "opencode run"
     then {| Shell.exit := 2; Shell.out := "model error"; Shell.err := "" |}
     else Shell.ok "" |}.

Definition remoteScript : RemoteRunner.Script :=
{| RemoteRunner.taskId := "1700000000000";
   RemoteRunner.model := "openrouter/anthropic/claude-3.5-haiku";
   RemoteRunner.fileContents := [("payload.txt", Base64.encode payload)];
   RemoteRunner.openRouterApiKey := "sk-or-key";
   RemoteRunner.promptText := "write a fizzbuzz script" |}.

Definition remoteWorld : RemoteRunner.World :=
{| RemoteRunner.ledger := submittedWorld;
   RemoteRunner.sandbox :=
     {| Daytona.localFiles := ∅;
        Daytona.writeError := fun _ => None;
        Daytona.sandboxFiles := sandboxTree;
        Daytona.calls := [];
        Daytona.console := [];
        Daytona.processExitCode := 0 |} |}.

End Scenarios.

(* ===================================================================== *)
(** ** What a harvest is made of *)
(* ===================================================================== *)

Module Catalogue.
Import JsString Harvest.



End Catalogue.

(* ===================================================================== *)
(** ** The order of the calls to the provider *)
(* ===================================================================== *)

Module Protocol.
Import Js Daytona.

(** A step that talks to the sandbox only through [codeRun]: whatever its
    outcome, the calls it adds are [CodeRun] calls. *)
Definition onlyRuns {A} (m : M World A) : Prop :=
  forall w, exists runs, calls (snd (m w)) = calls w ++ map CodeRun runs.

(** A step that ends the conversation: [CodeRun] calls, then at most the
    [Delete] call, which [keep] rules out. *)
Definition closes {A} (keep : bool) (m : M World A) : Prop :=
  forall w, exists runs closing,
    calls (snd (m w)) = calls w ++ map CodeRun runs ++ closing /\
    (closing = [] \/ closing = [Delete] /\ keep = false).

End Protocol.

(* ===================================================================== *)
(** * Properties *)
(* ===================================================================== *)

Section JsStringFacts.
Import JsString.

Lemma append_nil_r (s : string) : s +:+ "" = s.
Proof. induction s as [|c s IH]; simpl; [reflexivity | now rewrite IH]. Qed.

Lemma append_assoc (a b c : string) : (a +:+ b) +:+ c = a +:+ (b +:+ c).
Proof. induction a as [|x a IH]; simpl; [reflexivity | now rewrite IH]. Qed.

Lemma toLowerCase_app (a b : string) :
  toLowerCase (a +:+ b) = toLowerCase a +:+ toLowerCase b.
Proof. induction a as [|x a IH]; simpl; [reflexivity | now rewrite IH]. Qed.

Lemma startsWith_spec (s p : string) :
  startsWith s p = true <-> exists post, s = p +:+ post.
Proof.
  revert s. induction p as [|a p IH]; intros s; simpl.
  - split; [intros _; now exists s | reflexivity].
  - destruct s as [|b s].
    + split; [discriminate | intros [post H]; discriminate].
    + rewrite andb_true_iff, Ascii.eqb_eq, IH. split.
      * intros [-> [post ->]]. now exists post.
      * intros [post H]. injection H as -> ->. split; [reflexivity | now exists post].
Qed.

Lemma includes_spec (s p : string) :
  includes s p = true <-> Contains s p.
Proof.
  unfold Contains. induction s as [|c s IH]; simpl.
  - rewrite orb_false_r, startsWith_spec. split.
    + intros [post H]. now exists "", post.
    + intros [pre [post H]]. destruct pre; [now exists post | discriminate].
  - rewrite orb_true_iff, startsWith_spec, IH. split.
    + intros [[post H] | [pre [post H]]].
      * now exists "", post.
      * exists (String c pre), post. simpl. now rewrite H.
    + intros [pre [post H]]. destruct pre as [|x pre]; simpl in H.
      * left. now exists post.
      * right. injection H as -> ->. now exists pre, post.
Qed.

Lemma endsWith_spec (s p : string) :
  endsWith s p = true <-> HasSuffix s p.
Proof.
  unfold HasSuffix. induction s as [|c s IH]; cbn [endsWith].
  - rewrite orb_false_r, String.eqb_eq. split.
    + intros <-. now exists "".
    + intros [pre H]. destruct pre; simpl in H; [congruence | discriminate].
  - rewrite orb_true_iff, String.eqb_eq, IH. split.
    + intros [<- | [pre ->]]; [now exists "" | now exists (String c pre)].
    + intros [pre H]. destruct pre as [|x pre]; simpl in H.
      * now left.
      * right. injection H as -> ->. now exists pre.
Qed.

Lemma some_spec {A} (f : A -> bool) (xs : list A) :
  some f xs = true <-> exists x, In x xs /\ f x = true.
Proof. apply existsb_exists. Qed.

End JsStringFacts.

Section RefusalFacts.
Import JsString Refusal.

Lemma detectRefusalWith_spec (patterns : list string) (output : string) :
  detectRefusalWith patterns output = true <->
  exists sig, In sig patterns /\ Contains (toLowerCase output) (toLowerCase sig).
Proof.
  unfold detectRefusalWith. rewrite some_spec.
  split; intros [sig [Hin H]]; exists sig; (split; [exact Hin|]);
    now apply includes_spec.
Qed.

(** C6. Refusal detection is case-insensitive substring containment
    against the fixed signature list: an output is classified as a
    refusal exactly when its lower-cased text contains the lower-cased
    text of some signature; in particular every output that contains
    "I CANNOT ASSIST" is a refusal. *)
Theorem detectRefusal_case_insensitive_containment :
  (forall output : string,
      detectRefusal output = true <->
      exists sig, In sig REFUSAL_PATTERNS /\
                  Contains (toLowerCase output) (toLowerCase sig)) /\
  (forall pre post : string,
      detectRefusal (pre +:+ "I CANNOT ASSIST" +:+ post) = true).
Proof.
  split.
  - intros output. apply detectRefusalWith_spec.
  - intros pre post. apply detectRefusalWith_spec.
    exists "I cannot assist". split.
    + unfold REFUSAL_PATTERNS. simpl. tauto.
    + exists (toLowerCase pre), (toLowerCase post).
      now rewrite !toLowerCase_app.
Qed.

End RefusalFacts.

Section GatewayFacts.
Import Gateway.

Lemma fold_handle_settled quiet evs st r :
  settled st = Some r -> settled (fold_left (handle quiet) evs st) = Some r.
Proof.
  revert st. induction evs as [|ev evs IH]; intros st H; simpl; [exact H|].
  apply IH. destruct ev as [[t|t|code|msg]|]; simpl;
    unfold resolve; simpl; try rewrite H; try reflexivity; try exact H.
  destruct (timeoutId st); simpl; exact H.
Qed.

(** While the child only writes, nothing is settled and the timer stays
    armed. *)
Lemma fold_handle_data quiet evs st :
  (forall e, In e evs -> quietChild e) ->
  let st' := fold_left (handle quiet) (map FromChild evs) st in
  settled st' = settled st /\ timeoutId st' = timeoutId st /\
  signals st' = signals st /\ console st' = console st /\
  buffer st' = textsFrom (buffer st) evs.
Proof.
  revert st. induction evs as [|e evs IH]; intros st Hq; simpl.
  - repeat split.
  - assert (He : quietChild e) by (apply Hq; now left).
    assert (Hq' : forall e', In e' evs -> quietChild e')
      by (intros e' Hin; apply Hq; now right).
    specialize (IH (handle quiet st (FromChild e)) Hq').
    destruct e as [t|t|code|msg]; try discriminate He;
      simpl in *; exact IH.
Qed.

Lemma running_quiet (evs : list ChildEvent) :
  existsb ends evs = false -> forall e, In e evs -> quietChild e.
Proof.
  intros H e Hin. unfold quietChild. destruct (ends e) eqn:He; [|reflexivity].
  assert (existsb ends evs = true) by (apply existsb_exists; eauto). congruence.
Qed.

Lemma fold_handle_pending quiet evs st :
  List.Forall pendingEvent evs ->
  settled (fold_left (handle quiet) evs st) = settled st.
Proof.
  intros H. revert st. induction H as [|ev evs Hev _ IH]; intros st; simpl; [reflexivity|].
  rewrite IH. destruct ev as [[t|t|code|msg]|]; simpl in *; try contradiction;
    try reflexivity.
  now destruct (timeoutId st).
Qed.

(** A run whose child terminates without a numeric exit code resolves
    with exit code 0. *)
Lemma runDocker_closes_without_code quiet timeout (c : Child) :
  closesWithoutCode timeout c ->
  exists out, runDocker quiet timeout c = Some {| exitCode := 0; output := out |}.
Proof.
  intros (pre & post & Hdel & Hpre). unfold runDocker, runPending.
  rewrite Hdel, fold_left_app. simpl.
  pose proof (fold_handle_pending quiet pre spawned Hpre) as Hs. simpl in Hs.
  set (st := fold_left (handle quiet) pre spawned) in *.
  exists (buffer st). apply fold_handle_settled.
  unfold resolve. simpl. now rewrite Hs.
Qed.

(** Being ended by the SIGTERM of the timeout is one way of closing
    without a code. *)
Lemma killed_closes_without_code timeout (c : Child) :
  stillRunningAt timeout c ->
  onSIGTERM c = Some [Exit None] ->
  closesWithoutCode timeout c.
Proof.
  intros Hrun Hsig. unfold closesWithoutCode, deliver. rewrite Hrun, Hsig. simpl.
  exists (map FromChild (before timeout c) ++ [TimerFired]), [].
  split; [now rewrite <- app_assoc|].
  apply Forall_app. split; [|repeat constructor].
  apply List.Forall_forall. intros ev Hin. apply in_map_iff in Hin as (e & <- & He).
  pose proof (running_quiet _ Hrun e He) as Hq. now destruct e.
Qed.

End GatewayFacts.

Section GatewayTimeout.
Import Gateway Scenarios.

(** A child that is still running at the timeout and is ended by the
    signal: SIGTERM is sent once, and the promise resolves with exit code
    0 and the text captured so far. *)
Lemma runPending_killed quiet timeout (c : Child) :
  stillRunningAt timeout c ->
  onSIGTERM c = Some [Exit None] ->
  signals (runPending quiet timeout c) = ["SIGTERM"] /\
  settled (runPending quiet timeout c) =
    Some {| exitCode := 0; output := texts (before timeout c) |}.
Proof.
  intros Hrun Hsig. unfold runPending, deliver. rewrite Hrun, Hsig.
  rewrite fold_left_app.
  destruct (fold_handle_data quiet (before timeout c) spawned (running_quiet _ Hrun))
    as (Hs & Ht & Hk & _ & Hb).
  set (st := fold_left (handle quiet) (map FromChild (before timeout c)) spawned) in *.
  simpl. rewrite Ht. simpl. unfold resolve. simpl. rewrite Hs. simpl.
  rewrite Hk, Hb. split; reflexivity.
Qed.

(** A child that exits by itself with code 0 within the time limit. *)
Lemma runDocker_exit_zero quiet timeout (c : Child) evs rest :
  before timeout c = evs ++ Exit (Some 0%Z) :: rest ->
  (forall e, In e evs -> quietChild e) ->
  runDocker quiet timeout c = Some {| exitCode := 0; output := texts evs |}.
Proof.
  intros Hbefore Hq. unfold runDocker, runPending, deliver.
  replace (existsb ends (before timeout c)) with true
    by (symmetry; apply existsb_exists; exists (Exit (Some 0%Z));
        rewrite Hbefore, in_app_iff; simpl; auto).
  rewrite Hbefore, map_app, fold_left_app.
  destruct (fold_handle_data quiet evs spawned Hq) as (Hs & _ & _ & _ & Hb).
  set (st := fold_left (handle quiet) (map FromChild evs) spawned) in *.
  simpl. apply fold_handle_settled.
  unfold resolve. simpl. rewrite Hs. simpl. now rewrite Hb.
Qed.

(** The promise settles only on ['close'] or ['error']: a child that
    ignores the signal and never exits leaves [runDocker] pending. *)
Lemma runDocker_waits_for_close :
  signals (runPending false tenMinutes deafChild) = ["SIGTERM"] /\
  runDocker false tenMinutes deafChild = None.
Proof. split; reflexivity. Qed.

(** C1, evaluated on the code. The child is still running when the
    ten-minute timeout elapses; [runDocker] sends SIGTERM and resolves,
    but with exit code 0 and the captured text: the very result of a run
    that printed the same text and exited with code 0. Nothing in the
    result tells the timeout from a success. *)
Theorem runDocker_timeout_looks_successful :
  stillRunningAt tenMinutes stuckChild /\
  signals (runPending false tenMinutes stuckChild) = ["SIGTERM"] /\
  runDocker false tenMinutes stuckChild = Some {| exitCode := 0; output := "done" |} /\
  runDocker false tenMinutes stuckChild = runDocker false tenMinutes cleanChild.
Proof.
  repeat split; reflexivity.
Qed.

End GatewayTimeout.

Section GatewayOutcomes.
Import Gateway.

(** [code || 0] keeps every numeric code. *)
Lemma orZero_Some (code : Z) : orZero (Some code) = code.
Proof. unfold orZero. destruct (code =? 0)%Z eqn:H; [|reflexivity]. now apply Z.eqb_eq in H. Qed.

(** The listeners on the child never send a signal and never print. *)
Lemma fold_handle_child quiet evs st :
  signals (fold_left (handle quiet) (map FromChild evs) st) = signals st /\
  console (fold_left (handle quiet) (map FromChild evs) st) = console st.
Proof.
  revert st. induction evs as [|e evs IH]; intros st; [now split|].
  cbn [map fold_left]. destruct (IH (handle quiet st (FromChild e))) as [-> ->].
  destruct e as [t|t|code|msg]; cbn; unfold resolve; cbn;
    destruct (settled st); now split.
Qed.

(** What [runPending] holds once the child has ended by itself. *)
Lemma runPending_ended quiet timeout (c : Child) evs last rest :
  before timeout c = evs ++ last :: rest ->
  ends last = true ->
  (forall e, In e evs -> quietChild e) ->
  settled (runPending quiet timeout c) =
    settled (handle quiet
               {| buffer := texts evs; timeoutId := true; settled := None;
                  signals := []; console := [] |} (FromChild last)) /\
  signals (runPending quiet timeout c) = [] /\
  console (runPending quiet timeout c) = [].
Proof.
  intros Hbefore Hlast Hq. unfold runPending, deliver.
  replace (existsb ends (before timeout c)) with true
    by (symmetry; apply existsb_exists; exists last;
        rewrite Hbefore, in_app_iff; simpl; auto).
  destruct (fold_handle_child quiet (before timeout c) spawned) as [Hsig Hcon].
  split; [|split; [exact Hsig | exact Hcon]].
  rewrite Hbefore, map_app, fold_left_app.
  destruct (fold_handle_data quiet evs spawned Hq) as (Hs & Ht & Hk & Hc & Hb).
  set (st := fold_left (handle quiet) (map FromChild evs) spawned) in *.
  cbn [map fold_left].
  assert (Hst : st = {| buffer := texts evs; timeoutId := true; settled := None;
                        signals := []; console := [] |}).
  { destruct st; cbn in *; subst; reflexivity. }
  rewrite Hst.
  destruct last as [t|t|code|msg]; try discriminate Hlast;
    apply fold_handle_settled; reflexivity.
Qed.



(** X2. A child that cannot be spawned or fails with an ['error'] event
    before the time limit: [runDocker] resolves, never rejects, with exit
    code 1 and with the text captured so far followed by a line
    [Error: <message>]. *)
Theorem runDocker_reports_spawn_error quiet timeout (c : Child) evs message rest :
  before timeout c = evs ++ Fail message :: rest ->
  (forall e, In e evs -> quietChild e) ->
  runDocker quiet timeout c =
    Some {| exitCode := 1;
            output := texts evs +:+ (String "010" "Error: " +:+ message) |} /\
  signals (runPending quiet timeout c) = [].
Proof.
  intros Hbefore Hq.
  destruct (runPending_ended quiet timeout c evs (Fail message) rest Hbefore eq_refl Hq)
    as (Hs & Hk & _).
  unfold runDocker. rewrite Hs. cbn. auto.
Qed.

Lemma runDocker_reports_spawn_error_witness :
  runDocker true 600000
    {| script := [(0%Z, Fail "spawn docker ENOENT")]; onSIGTERM := None |}
  = Some {| exitCode := 1; output := String "010" "Error: spawn docker ENOENT" |}.
Proof.
  apply (runDocker_reports_spawn_error true 600000
           {| script := [(0%Z, Fail "spawn docker ENOENT")]; onSIGTERM := None |}
           [] "spawn docker ENOENT" []).
  - reflexivity.
  - intros e [].
Defined.



End GatewayOutcomes.

Section DriverFacts.
Import JsString Refusal Gateway Harvest Driver Scenarios.

Lemma cli_started cfg h : started cfg h = true -> cli cfg h = main cfg h.
Proof.
  unfold started, cli. rewrite !andb_true_iff, negb_true_iff.
  intros [[[[[-> ->] ->] ->] ->] _]. reflexivity.
Qed.

Lemma cli_not_started cfg h : started cfg h = false -> attempts (cli cfg h) = [].
Proof.
  unfold started, cli, main.
  destruct (help cfg), (truthy (prompt cfg)), (truthy (openRouterApiKey cfg)),
    (workingDirectoryExists h), (dockerVersionOk h); simpl; try reflexivity.
  now intros ->.
Qed.

(** The shape of every job of the CLI. *)
Lemma cli_cases cfg h :
  started cfg h = true ->
  let primary := "openrouter/" +:+ modelName cfg in
  let fallback := "openrouter/" +:+ retryModelName cfg in
  match primaryResult cfg h with
  | None => cli cfg h = waiting [primary]
  | Some r =>
      if truthy (retryModelName cfg) && detectRefusal (output r)
      then match fallbackResult cfg h with
           | None => cli cfg h = waiting [primary; fallback]
           | Some r2 => cli cfg h = finish h [primary; fallback] r2
           end
      else cli cfg h = finish h [primary] r
  end.
Proof.
  intros Hs. rewrite (cli_started _ _ Hs).
  unfold started in Hs. rewrite !andb_true_iff in Hs. destruct Hs as [_ He].
  unfold main, primaryResult, fallbackResult. rewrite He. simpl.
  destruct (runDocker _ _ (child h 0 _)) as [r|]; [|reflexivity].
  destruct (truthy (retryModelName cfg) && detectRefusal (output r)); [|reflexivity].
  destruct (runDocker _ _ (child h 1 _)); reflexivity.
Qed.

(** C5. Every job runs the agent at most twice. A second run happens
    exactly when the job got as far as its first run, that run returned,
    a fallback model is configured and the output of the primary run
    matches a refusal signature; the second run uses the fallback model.
    Without a fallback model there is at most one run and its exit code
    ends the job; the result of the fallback run ends the job whatever
    its output says. *)
Theorem agent_runs_at_most_twice (cfg : Config) (h : Host) :
  (length (attempts (cli cfg h)) <= 2)%nat /\
  (length (attempts (cli cfg h)) = 2%nat <->
     started cfg h = true /\
     exists r, primaryResult cfg h = Some r /\
               truthy (retryModelName cfg) = true /\
               detectRefusal (output r) = true) /\
  (length (attempts (cli cfg h)) = 2%nat ->
     attempts (cli cfg h) =
       ["openrouter/" +:+ modelName cfg; "openrouter/" +:+ retryModelName cfg]) /\
  (truthy (retryModelName cfg) = false ->
     (length (attempts (cli cfg h)) <= 1)%nat /\
     forall r, started cfg h = true -> primaryResult cfg h = Some r ->
               exited (cli cfg h) = Some (exitCode r)) /\
  (forall r2, length (attempts (cli cfg h)) = 2%nat ->
              fallbackResult cfg h = Some r2 ->
              exited (cli cfg h) = Some (exitCode r2)).
Proof.
  destruct (started cfg h) eqn:Hs.
  - pose proof (cli_cases cfg h Hs) as Hc. simpl in Hc.
    destruct (primaryResult cfg h) as [r|] eqn:Hp.
    + destruct (truthy (retryModelName cfg)) eqn:Ht; simpl in Hc.
      * destruct (detectRefusal (output r)) eqn:Hd.
        -- destruct (fallbackResult cfg h) as [r2|] eqn:Hf; rewrite Hc; simpl;
             (split; [lia|]); (split; [split; [intros _|reflexivity]|]);
             try (split; [reflexivity|exists r; repeat split; assumption]);
             (split; [reflexivity|]); (split; [discriminate|]);
             intros r2' _ Hr; congruence.
        -- rewrite Hc; simpl. split; [lia|]. split.
           ++ split; [discriminate|]. intros [_ [r' [Hr' [_ Hd']]]].
              injection Hr' as <-. congruence.
           ++ split; [discriminate|]. split; [discriminate|]. discriminate.
      * rewrite Hc; simpl. split; [lia|]. split.
        -- split; [discriminate|]. intros [_ [r' [_ [Ht' _]]]]. discriminate.
        -- split; [discriminate|]. split; [|discriminate].
           intros _. split; [lia|]. intros r' _ Hr'. injection Hr' as <-. reflexivity.
    + rewrite Hc; simpl. split; [lia|]. split.
      * split; [discriminate|]. intros [_ [r [Hr _]]]. discriminate.
      * split; [discriminate|]. split; [|discriminate].
        intros _. split; [lia|]. intros r _ Hr. discriminate.
  - rewrite (cli_not_started _ _ Hs). simpl. split; [lia|]. split.
    + split; [discriminate|]. intros [Hf _]. discriminate.
    + split; [discriminate|]. split; [|discriminate].
      intros _. split; [lia|]. intros r Hf. discriminate.
Qed.

Lemma agent_runs_at_most_twice_witness :
  length (attempts (cli timedOutConfig refusingCliHost)) = 2%nat /\
  exited (cli timedOutConfig refusingCliHost) = Some 0%Z /\
  (length (attempts (cli noFallbackConfig refusingCliHost)) <= 1)%nat /\
  exited (cli noFallbackConfig refusingCliHost) = Some 0%Z.
Proof.
  destruct (agent_runs_at_most_twice timedOutConfig refusingCliHost)
    as (_ & Htwice & _ & _ & Hlast).
  destruct (agent_runs_at_most_twice noFallbackConfig refusingCliHost)
    as (_ & _ & _ & Hsingle & _).
  assert (H2 : length (attempts (cli timedOutConfig refusingCliHost)) = 2%nat).
  { apply Htwice. split; [reflexivity|].
    exists {| exitCode := 0; output := "I cannot assist with that request." |}.
    repeat split; reflexivity. }
  destruct (Hsingle eq_refl) as [Hone Hexit].
  split; [exact H2|]. split; [|split; [exact Hone|]].
  - apply (Hlast {| exitCode := 0; output := "I cannot assist with that request." |} H2).
    reflexivity.
  - apply (Hexit {| exitCode := 0; output := "I cannot assist with that request." |});
      reflexivity.
Defined.

(** When the child of the last attempt terminates without a numeric exit
    code, the CLI harvests the workspace and exits with code 0. *)
Lemma cli_signalled_run_succeeds (cfg : Config) (h : Host) :
  started cfg h = true ->
  closesWithoutCode (timeout cfg) (lastChild cfg h) ->
  exited (cli cfg h) = Some 0%Z /\
  harvest (cli cfg h) = Some (collectTools (workspace h) (tools h)).
Proof.
  intros Hs Hc. pose proof (cli_cases cfg h Hs) as Hcases. simpl in Hcases.
  apply (runDocker_closes_without_code (quiet cfg)) in Hc as [out Hout].
  unfold lastChild in Hout.
  destruct (primaryResult cfg h) as [r|] eqn:Hp.
  - destruct (truthy (retryModelName cfg) && detectRefusal (output r)).
    + unfold fallbackResult in Hcases. rewrite Hout in Hcases. rewrite Hcases.
      split; reflexivity.
    + unfold primaryResult in Hp. rewrite Hout in Hp. injection Hp as <-.
      rewrite Hcases. split; reflexivity.
  - unfold primaryResult in Hp. congruence.
Qed.

End DriverFacts.

Section DriverOutcomes.
Import JsString Refusal Gateway Harvest Driver Scenarios.

(** The job of a CLI whose checks pass, by the result that ends it. *)
Lemma cli_started_shape cfg h :
  started cfg h = true ->
  (exists models, models <> [] /\ cli cfg h = waiting models) \/
  (exists models r, models <> [] /\ cli cfg h = finish h models r).
Proof.
  intros Hs. pose proof (cli_cases cfg h Hs) as Hc. cbv zeta in Hc.
  destruct (primaryResult cfg h) as [r|].
  - destruct (truthy (retryModelName cfg) && detectRefusal (output r)).
    + destruct (fallbackResult cfg h) as [r2|].
      * right. eexists _, r2. split; [|exact Hc]. discriminate.
      * left. eexists. split; [|exact Hc]. discriminate.
    + right. eexists _, r. split; [|exact Hc]. discriminate.
  - left. eexists. split; [|exact Hc]. discriminate.
Qed.

Lemma cli_not_started_shape cfg h :
  started cfg h = false ->
  cli cfg h = {| attempts := []; harvest := None;
                 exited := Some (if help cfg then 0%Z else 1%Z) |}.
Proof.
  unfold started, cli, main.
  destruct (help cfg), (truthy (prompt cfg)), (truthy (openRouterApiKey cfg)),
    (workingDirectoryExists h), (dockerVersionOk h); simpl; try reflexivity.
  now intros ->.
Qed.

(** X4. The CLI harvests the workspace exactly when the agent was run and
    the last attempt ended with exit code 0: a harvest implies both, both
    imply the harvest, and what is harvested is [collectTools] on the
    working directory and the tools directory of the host. *)
Theorem tools_harvested_iff_exit_zero (cfg : Config) (h : Host) :
  (forall hv, harvest (cli cfg h) = Some hv ->
              hv = collectTools (workspace h) (tools h) /\
              attempts (cli cfg h) <> [] /\
              exited (cli cfg h) = Some 0%Z) /\
  (attempts (cli cfg h) <> [] -> exited (cli cfg h) = Some 0%Z ->
   harvest (cli cfg h) = Some (collectTools (workspace h) (tools h))).
Proof.
  destruct (started cfg h) eqn:Hs.
  - destruct (cli_started_shape cfg h Hs) as [(models & Hne & ->) | (models & r & Hne & ->)].
    + split; [discriminate|]. cbn. discriminate.
    + unfold finish. cbn. destruct (exitCode r =? 0)%Z eqn:Hz.
      * apply Z.eqb_eq in Hz. rewrite Hz. split; [|reflexivity].
        intros hv [= <-]. auto.
      * split; [discriminate|]. intros _ [= Hr]. rewrite Hr in Hz. discriminate.
  - rewrite (cli_not_started_shape cfg h Hs). cbn. split; [discriminate|]. congruence.
Qed.

Lemma tools_harvested_iff_exit_zero_witness :
  harvest (cli noFallbackConfig refusingCliHost)
  = Some (collectTools newWorkspace ∅).
Proof.
  destruct (tools_harvested_iff_exit_zero noFallbackConfig refusingCliHost) as [_ H].
  apply H; [discriminate | reflexivity].
Defined.

(** X5. When one of the checks before the first attempt fails (no prompt,
    no API key, no working directory, no Docker, or an image that is
    neither present nor buildable) the CLI runs no agent, harvests
    nothing and exits with code 1. *)
Theorem failed_check_runs_nothing (cfg : Config) (h : Host) :
  help cfg = false ->
  truthy (prompt cfg) = false \/
  truthy (openRouterApiKey cfg) = false \/
  workingDirectoryExists h = false \/
  dockerVersionOk h = false \/
  (imageInspectOk h = false /\ (dockerfileExists h = false \/ dockerBuildOk h = false)) ->
  cli cfg h = {| attempts := []; harvest := None; exited := Some 1%Z |}.
Proof.
  intros Hhelp Hcheck.
  assert (Hs : started cfg h = false).
  { unfold started, ensureDockerImage.
    destruct (help cfg), (truthy (prompt cfg)), (truthy (openRouterApiKey cfg)),
      (workingDirectoryExists h), (dockerVersionOk h), (imageInspectOk h),
      (dockerfileExists h), (dockerBuildOk h); cbn; try reflexivity;
      exfalso; intuition discriminate. }
  rewrite (cli_not_started_shape cfg h Hs), Hhelp. reflexivity.
Qed.

Lemma failed_check_runs_nothing_witness :
  exited (cli {| help := false; prompt := ""; openRouterApiKey := "sk-or-key";
                 modelName := "anthropic/claude-haiku-4.5"; retryModelName := "";
                 timeout := tenMinutes; quiet := false |} refusingCliHost)
  = Some 1%Z.
Proof.
  rewrite (failed_check_runs_nothing
             {| help := false; prompt := ""; openRouterApiKey := "sk-or-key";
                modelName := "anthropic/claude-haiku-4.5"; retryModelName := "";
                timeout := tenMinutes; quiet := false |} refusingCliHost eq_refl).
  - reflexivity.
  - left. reflexivity.
Defined.

End DriverOutcomes.

Section HarvestFacts.
Import JsString Harvest Scenarios.

(** One iteration never replaces an entry of the store. *)
Lemma collectStep_keeps workspace file (h h' : Harvested) name entry :
  collectStep workspace file h = Some h' ->
  store h !! name = Some entry -> store h' !! name = Some entry.
Proof.
  unfold collectStep. intros Hstep Hname.
  destruct (excluded file); [now injection Hstep as <-|].
  destruct (negb (toolLike file)); [now injection Hstep as <-|].
  destruct (workspace !! file) as [[content mode|]|]; try discriminate;
    [|now injection Hstep as <-].
  destruct (store h !! file) eqn:Hdest; injection Hstep as <-; [exact Hname|].
  simpl. rewrite lookup_insert_ne; [exact Hname|].
  intros ->. rewrite Hname in Hdest. discriminate.
Qed.

Lemma collectLoop_keeps workspace files (h : Harvested) name entry :
  store h !! name = Some entry ->
  store (collectLoop workspace files h) !! name = Some entry.
Proof.
  revert h. induction files as [|file rest IH]; intros h Hname; simpl; [exact Hname|].
  destruct (collectStep workspace file h) as [h'|] eqn:Hstep.
  - apply IH. eapply collectStep_keeps; eauto.
  - exact Hname.
Qed.

(** C7. Harvesting never overwrites an entry of the tool store: a name
    that is present before [collectTools] holds the same entry (content
    and mode) afterwards, whatever the workspace file of that name
    contains. *)
Theorem collectTools_first_write_wins
        (workspace tools : gmap string Node) (name : string) (entry : Node) :
  tools !! name = Some entry ->
  store (collectTools workspace tools) !! name = Some entry.
Proof. intros H. unfold collectTools, collectToolsFrom. now apply collectLoop_keeps. Qed.

Lemma collectTools_first_write_wins_witness :
  oldTools !! "fizzbuzz.py" = Some (File "print('v1')" 420) /\
  newWorkspace !! "fizzbuzz.py" = Some (File "print('v2')" 420) /\
  store (collectTools newWorkspace oldTools) !! "fizzbuzz.py"
    = Some (File "print('v1')" 420).
Proof.
  split; [reflexivity|]. split; [reflexivity|].
  apply (collectTools_first_write_wins newWorkspace oldTools "fizzbuzz.py").
  reflexivity.
Defined.

Lemma excluded_spec file :
  excluded file = true <-> exists p, In p excludePatterns /\ Contains file p.
Proof.
  unfold excluded. rewrite some_spec.
  split; intros [p [Hin H]]; exists p; (split; [exact Hin|]); now apply includes_spec.
Qed.

Lemma collectStep_skips workspace file (h h' : Harvested) name :
  excluded name = true ->
  collectStep workspace file h = Some h' ->
  store h !! name = None -> store h' !! name = None.
Proof.
  unfold collectStep. intros Hex Hstep Hname.
  destruct (excluded file) eqn:Hf; [now injection Hstep as <-|].
  destruct (negb (toolLike file)); [now injection Hstep as <-|].
  destruct (workspace !! file) as [[content mode|]|]; try discriminate;
    [|now injection Hstep as <-].
  destruct (store h !! file) eqn:Hdest; injection Hstep as <-; [exact Hname|].
  simpl. rewrite lookup_insert_ne; [exact Hname|].
  intros ->. congruence.
Qed.

Lemma collectLoop_skips workspace files (h : Harvested) name :
  excluded name = true ->
  store h !! name = None ->
  store (collectLoop workspace files h) !! name = None.
Proof.
  intros Hex. revert h.
  induction files as [|file rest IH]; intros h Hname; simpl; [exact Hname|].
  destruct (collectStep workspace file h) as [h'|] eqn:Hstep.
  - apply IH. eapply collectStep_skips; eauto.
  - exact Hname.
Qed.

Lemma pathJoin_inj dir a b : pathJoin dir a = pathJoin dir b -> a = b.
Proof.
  unfold pathJoin. intros H.
  apply (String.app_inj dir) in H. simpl in H. now injection H.
Qed.

Lemma collectNewToolsLoop_skips wd workspace repo files acc name :
  excluded name = true ->
  ~ In (pathJoin wd name) acc ->
  ~ In (pathJoin wd name) (collectNewToolsLoop wd workspace repo files acc).
Proof.
  intros Hex. revert acc.
  induction files as [|file rest IH]; intros acc Hacc; simpl; [exact Hacc|].
  destruct (excluded file) eqn:Hf; [now apply IH|].
  destruct (negb (toolLike file)); [now apply IH|].
  destruct (workspace !! file) as [[content mode|]|]; [|now apply IH|exact Hacc].
  destruct (repo !! file); [now apply IH|].
  apply IH. rewrite in_app_iff. intros [Hin | [Heq | []]]; [auto|].
  apply pathJoin_inj in Heq. subst file. congruence.
Qed.

(** C10. Exclusion is substring containment anywhere in the file name:
    a workspace file whose name contains one of ".runner-",
    "node_modules", ".git", ".agentic" at any position is never copied
    into the tool store by [collectTools] and never listed by
    [collectNewTools], whatever its extension. *)
Theorem excluded_name_never_harvested
        (workingDirectory : string) (workspace tools repo : gmap string Node)
        (file p : string) :
  In p excludePatterns ->
  Contains file p ->
  tools !! file = None ->
  store (collectTools workspace tools) !! file = None /\
  ~ In file (newTools (collectTools workspace tools)) /\
  ~ In (pathJoin workingDirectory file)
       (collectNewTools workingDirectory workspace repo).
Proof.
  intros Hin Hc Hnone.
  assert (Hex : excluded file = true) by (apply excluded_spec; eauto).
  split; [|split].
  - unfold collectTools, collectToolsFrom. now apply collectLoop_skips.
  - unfold collectTools, collectToolsFrom.
    generalize (readdirSync workspace) as files.
    assert (Hgen : forall files h, ~ In file (newTools h) ->
                     ~ In file (newTools (collectLoop workspace files h))).
    { induction files as [|f rest IH]; intros h Hh; simpl; [exact Hh|].
      destruct (collectStep workspace f h) as [h'|] eqn:Hstep; [|exact Hh].
      apply IH. unfold collectStep in Hstep.
      destruct (excluded f) eqn:Hf; [now injection Hstep as <-|].
      destruct (negb (toolLike f)); [now injection Hstep as <-|].
      destruct (workspace !! f) as [[content mode|]|]; try discriminate;
        [|now injection Hstep as <-].
      destruct (store h !! f); injection Hstep as <-; [exact Hh|].
      simpl. rewrite in_app_iff. intros [H | [-> | []]]; [auto|congruence]. }
    intros files. apply Hgen. simpl. tauto.
  - unfold collectNewTools. apply collectNewToolsLoop_skips; [exact Hex|]. simpl. tauto.
Qed.

Lemma excluded_name_never_harvested_witness :
  toolLike "my.github-helper.py" = true /\
  store (collectTools helperWorkspace ∅) !! "my.github-helper.py" = None /\
  ~ In "my.github-helper.py" (newTools (collectTools helperWorkspace ∅)) /\
  ~ In (pathJoin "/work" "my.github-helper.py")
       (collectNewTools "/work" helperWorkspace ∅).
Proof.
  split; [reflexivity|].
  apply (excluded_name_never_harvested "/work" helperWorkspace ∅ ∅
           "my.github-helper.py" ".git").
  - simpl. tauto.
  - exists "my", "hub-helper.py". reflexivity.
  - reflexivity.
Defined.

End HarvestFacts.

Section HarvestContents.
Import JsString Harvest Catalogue Scenarios.



















End HarvestContents.

Section LedgerFacts.
Import JsString Refusal Harvest Js JsLiteral Ledger Scenarios.

(** Symbolic execution of monadic script code on an abstract world. *)
Ltac js :=
  repeat (progress
            (cbv beta iota zeta delta
                 [tryCatch bind ret throw exit get modify when effect showToast
                  DateNow writeTasks parseTasks push log record tick setTasks
                  setTools];
             cbn [tasksFile effects reads workspace tools
                  workingDirectoryExists fst snd negb
                  Gateway.exitCode Gateway.output])).

(** C8, refuted as stated. [updateTask] on a ledger file that is not JSON
    returns normally but writes nothing: the file still holds the
    malformed text afterwards and the only effect is the log line. *)
Lemma updateTask_keeps_malformed_ledger :
  let r := updateTask "1700000000000" "completed" 1700000000002 garbledWorld in
  fst r = Ret tt /\
  tasksFile (snd r) = Some (NotJson "[{") /\
  effects (snd r) = [Log "Failed to update task: SyntaxError: JSON Parse error"].
Proof. repeat split; reflexivity. Qed.

(** C8, as the code has it. On a ledger file that is not JSON,
    [handleSubmit] reports the parse failure on the console, starts from
    the empty collection and overwrites the file with the collection that
    holds only the new record; [updateTask] returns normally as well, but
    it logs the failure and leaves the file as it is. *)
Theorem malformed_ledger_tolerated
        (h : Host) (p : Preferences) (v : FormValues) (w : World)
        (raw id st : string) (endTime : Z) :
  tasksFile w = Some (NotJson raw) ->
  truthy (prompt v) = true ->
  workingDirectoryExists w = true ->
  (let r := handleSubmit h p v w in
   let id := pretty (now h (reads w)) in
   fst r = Ret tt /\
   tasksFile (snd r) =
     Some (Json (JArr [newTask id (prompt v) (now h (S (reads w)))
                         (workingDirectory p +:+ "/.agentic-logs/" +:+ id +:+ ".log")])) /\
   In (ConsoleError "Failed to parse tasks file") (effects (snd r)) /\
   In (Toast "Success" "Agent started") (effects (snd r))) /\
  (let r := updateTask id st endTime w in
   fst r = Ret tt /\
   tasksFile (snd r) = tasksFile w /\
   effects (snd r) =
     effects w ++ [Log "Failed to update task: SyntaxError: JSON Parse error"]).
Proof.
  intros Hfile Hprompt Hdir. split.
  - unfold handleSubmit. rewrite Hprompt. js. rewrite Hdir. js.
    rewrite Hfile. js. repeat split; rewrite ?in_app_iff; cbn; tauto.
  - unfold updateTask. js. rewrite Hfile. js. repeat split. exact Hfile.
Qed.

Lemma malformed_ledger_tolerated_witness :
  tasksFile (snd (handleSubmit offlineHost somePreferences fizzbuzzRequest garbledWorld))
  = Some (Json (JArr [newTask "1700000000000" "write a fizzbuzz script" 1700000000001
                        "/work/.agentic-logs/1700000000000.log"])) /\
  tasksFile (snd (updateTask "1700000000000" "failed" 7 garbledWorld))
  = Some (NotJson "[{").
Proof.
  destruct (malformed_ledger_tolerated offlineHost somePreferences fizzbuzzRequest
              garbledWorld "[{" "1700000000000" "failed" 7
              eq_refl eq_refl eq_refl) as [(_ & Hcreate & _) (_ & Hupdate & _)].
  split; [exact Hcreate | exact Hupdate].
Defined.

Lemma findIndexFrom_fresh i id (old : list json) (t : json) :
  findIndexFrom i id old = Some None ->
  hasId id t = Some true ->
  findIndexFrom i id (old ++ [t]) = Some (Some (i + length old)%nat).
Proof.
  revert i. induction old as [|x old IH]; intros i Hold Ht; simpl in *.
  - rewrite Ht. f_equal. f_equal. lia.
  - destruct (hasId id x) as [[|]|]; try discriminate.
    rewrite (IH (S i) Hold Ht). f_equal. f_equal. lia.
Qed.

Lemma alter_last (f : json -> json) (old : list json) (t : json) :
  alter f (length old) (old ++ [t]) = old ++ [f t].
Proof. rewrite (alter_app_r_alt f old [t] (length old)) by lia. now rewrite Nat.sub_diag. Qed.

Lemma hasId_newTask id prompt startTime logFile :
  hasId id (newTask id prompt startTime logFile) = Some true.
Proof. unfold hasId, newTask. cbn. now rewrite String.eqb_refl. Qed.

(** C2, refuted as stated. With the Docker daemon down, the record of the
    submitted job is written with status "running" (effect 1 of the trace)
    before the runner reports the environment error (effect 7, in the log
    file); the record then goes from "running" to "failed". *)
Lemma running_is_recorded_before_docker_check :
  let r := submitAndRun offlineHost somePreferences fizzbuzzRequest freshWorld in
  fst r = Exited 1 /\
  statusHistory "1700000000000" (effects (snd r)) = [JStr "running"; JStr "failed"] /\
  firstIndex isLedgerWrite (effects (snd r)) = Some 1%nat /\
  firstIndex (isLog "Error: Docker is not installed or not running")
             (effects (snd r)) = Some 7%nat.
Proof. vm_compute. repeat split; reflexivity. Qed.

Lemma field_setField_eq key v fields : field key (setField key v fields) = Some v.
Proof.
  induction fields as [|[k x] rest IH]; simpl.
  - now rewrite String.eqb_refl.
  - destruct (String.eqb k key) eqn:Hk; simpl; now rewrite Hk.
Qed.

Lemma field_setField_ne key key' v fields :
  key <> key' -> field key (setField key' v fields) = field key fields.
Proof.
  intros Hne. induction fields as [|[k x] rest IH]; simpl.
  - destruct (String.eqb key' key) eqn:Hk; [|reflexivity].
    apply String.eqb_eq in Hk. congruence.
  - destruct (String.eqb k key') eqn:Hk'; simpl.
    + apply String.eqb_eq in Hk' as ->.
      destruct (String.eqb key' key) eqn:Hk; [|reflexivity].
      apply String.eqb_eq in Hk. congruence.
    + now rewrite IH.
Qed.

Lemma field_mutate_status st endTime fields fields' :
  mutate st endTime (JObj fields) = JObj fields' ->
  field "status" fields' = Some (JStr st) /\ field "id" fields' = field "id" fields.
Proof.
  unfold mutate. intros H. injection H as <-.
  destruct (endTime =? 0)%Z.
  - rewrite field_setField_eq.
    rewrite (field_setField_ne "id" "status") by discriminate. now split.
  - rewrite (field_setField_ne "status" "endTime") by discriminate.
    rewrite field_setField_eq.
    rewrite (field_setField_ne "id" "endTime") by discriminate.
    rewrite (field_setField_ne "id" "status") by discriminate. now split.
Qed.

Lemma hasId_mutate id st endTime (t : json) :
  hasId id (mutate st endTime t) = hasId id t.
Proof.
  destruct t as [ | | | | |fields]; try reflexivity.
  destruct (mutate st endTime (JObj fields)) as [ | | | | |fields'] eqn:Hm;
    try (unfold mutate in Hm; discriminate).
  apply field_mutate_status in Hm as [_ Hid]. unfold hasId. now rewrite Hid.
Qed.

(** After [tasks[idx].status = status] the record found by its id shows
    the new status. *)
Lemma statusIn_mutateAt id st endTime (items : list json) (i : nat) :
  findIndexFrom 0 id items = Some (Some i) ->
  statusIn id (Some (Json (mutateAt i st endTime (JArr items)))) = Some (JStr st).
Proof.
  unfold statusIn, mutateAt.
  assert (Hgen : forall k j,
            findIndexFrom k id items = Some (Some (k + j)%nat) ->
            findIndexFrom k id (alter (mutate st endTime) j items)
              = Some (Some (k + j)%nat) /\
            exists fields, alter (mutate st endTime) j items !! j = Some (JObj fields) /\
                           field "status" fields = Some (JStr st)).
  { induction items as [|t items IH]; intros k j Hfind; simpl in Hfind; [discriminate|].
    destruct (hasId id t) as [[|]|] eqn:Ht; try discriminate.
    - injection Hfind as Hk. assert (j = 0%nat) as -> by lia. simpl.
      rewrite hasId_mutate, Ht. split; [now rewrite Nat.add_0_r|].
      destruct t as [ | | | | |fields]; try (simpl in Ht; discriminate).
      destruct (mutate st endTime (JObj fields)) as [ | | | | |fields'] eqn:Hm;
        try (unfold mutate in Hm; discriminate).
      exists fields'. split; [reflexivity|]. now apply field_mutate_status in Hm.
    - assert (Hle : forall n l r, findIndexFrom n id l = Some (Some r) -> (n <= r)%nat).
      { intros n l. revert n. induction l as [|x l IHl]; intros n r Hr; simpl in Hr;
          [discriminate|].
        destruct (hasId id x) as [[|]|]; try discriminate.
        - injection Hr as <-. lia.
        - apply IHl in Hr. lia. }
      pose proof (Hle _ _ _ Hfind) as Hk.
      destruct j as [|j]; [lia|].
      replace (k + S j)%nat with (S k + j)%nat in * by lia.
      destruct (IH (S k) j Hfind) as [Hf Hl]. simpl. rewrite Ht. split; [exact Hf|exact Hl]. }
  intros Hfind. destruct (Hgen 0%nat i Hfind) as [Hf (fields & Hl & Hs)].
  simpl in Hf. rewrite Hf, Hl. exact Hs.
Qed.

Lemma findIndexFrom_last i id (old : list json) (t : json) :
  hasId id t = Some true ->
  findIndexFrom i id (old ++ [t]) <> Some None.
Proof.
  revert i. induction old as [|x old IH]; intros i Ht; simpl.
  - now rewrite Ht.
  - destruct (hasId id x) as [[|]|]; try discriminate. now apply IH.
Qed.

(** A script that is read names the job it was written for. *)
Lemma dockerRunnerScript_taskId p v id logFile (s : Script) :
  dockerRunnerScript p v id logFile = Some s -> taskId s = id.
Proof.
  unfold dockerRunnerScript.
  destruct (stringLiteral id) as [id'|]; [|discriminate].
  destruct (stringLiteral (workingDirectory p +:+ "/.agentic-tasks.json")); [|discriminate].
  destruct (stringLiteral logFile); [|discriminate].
  destruct (stringLiteral (workingDirectory p)); [|discriminate].
  destruct (stringLiteral (workingDirectory p +:+ "/tools")); [|discriminate].
  destruct (same id' id) eqn:Hid; [|discriminate].
  apply String.eqb_eq in Hid. cbn [andb].
  repeat match goal with
         | |- context [if ?c then _ else None] => destruct c; [|discriminate]
         | |- (match ?x with Some _ => _ | None => _ end) = Some _ -> _ =>
             destruct x; [|discriminate]
         end.
  intros [= <-]. exact Hid.
Qed.

(** C2, as the code has it. For every accepted submission - a prompt, an
    existing working directory, a ledger file that is absent, unparseable
    or a JSON array - whose runner script is read, on a machine whose
    container runtime is unavailable: [handleSubmit] first writes the
    ledger with the new record, status "running", appended and spawns the
    runner; the runner then finds the runtime missing, logs the
    environment error, launches no agent and exits with code 1. In
    between it rewrites to "failed", with the end time, the first record
    that carries the id of the job; that is the record of the job unless
    an older record has the same id. When an older entry of the ledger is
    [null] the search throws: the failure is logged and the ledger stays
    as submitted. *)
Theorem docker_unavailable_job_fails_after_running
        (h : Host) (p : Preferences) (v : FormValues) (w : World)
        (old : list json) (s : Script) :
  dockerInfoOk h = false ->
  truthy (prompt v) = true ->
  workingDirectoryExists w = true ->
  openLedger (tasksFile w) = Some old ->
  let id := pretty (now h (reads w)) in
  let logFile := workingDirectory p +:+ "/.agentic-logs/" +:+ id +:+ ".log" in
  dockerRunnerScript p v id logFile = Some s ->
  let scriptPath := workingDirectory p +:+ "/.runner-" +:+ id +:+ ".mjs" in
  let created := newTask id (prompt v) (now h (S (reads w))) logFile in
  let submitted := old ++ [created] in
  let endTime := now h (S (S (reads w))) in
  let r := submitAndRun h p v w in
  fst r = Exited 1 /\
  (exists closing : Effect,
     effects (snd r) =
       effects w ++
       [ Toast "Animated" "Starting Agent..." ] ++
       match tasksFile w with
       | Some (NotJson _) => [ ConsoleError "Failed to parse tasks file" ]
       | _ => []
       end ++
       [ WriteTasks (JArr submitted);
         WriteScript scriptPath (Some s);
         SpawnRunner scriptPath;
         Toast "Success" "Agent started";
         Log "Starting Docker sandbox...";
         DockerInfo;
         Log "Error: Docker is not installed or not running";
         closing ] /\
     match findIndexFrom 0 id submitted with
     | Some (Some i) =>
         closing = WriteTasks (JArr (alter (mutate "failed" endTime) i submitted)) /\
         tasksFile (snd r) =
           Some (Json (JArr (alter (mutate "failed" endTime) i submitted))) /\
         statusIn id (tasksFile (snd r)) = Some (JStr "failed")
     | _ =>
         (exists message, closing = Log ("Failed to update task: " +:+ message)) /\
         tasksFile (snd r) = Some (Json (JArr submitted))
     end) /\
  (findIndexFrom 0 id old = Some None ->
   tasksFile (snd r) = Some (Json (JArr (old ++ [mutate "failed" endTime created])))).
Proof.
  intros Hdocker Hprompt Hdir Hold id logFile Hs scriptPath created submitted endTime.
  pose proof (dockerRunnerScript_taskId _ _ _ _ _ Hs) as Hid.
  pose proof (findIndexFrom_last 0 id old created
                (hasId_newTask id (prompt v) (now h (S (reads w))) logFile)) as Hlast.
  assert (Hfresh : findIndexFrom 0 id old = Some None ->
                   findIndexFrom 0 id submitted = Some (Some (length old))).
  { intros Hnone. apply (findIndexFrom_fresh 0 id old created Hnone), hasId_newTask. }
  fold submitted in Hlast.
  assert (Hrun :
    submitAndRun h p v w =
    let w1 :=
      {| workingDirectoryExists := workingDirectoryExists w;
         tasksFile := Some (Json (JArr submitted));
         workspace := workspace w; tools := tools w;
         reads := S (S (reads w));
         effects :=
           effects w ++
           [ Toast "Animated" "Starting Agent..." ] ++
           match tasksFile w with
           | Some (NotJson _) => [ ConsoleError "Failed to parse tasks file" ]
           | _ => []
           end ++
           [ WriteTasks (JArr submitted);
             WriteScript scriptPath (Some s);
             SpawnRunner scriptPath;
             Toast "Success" "Agent started" ] |} in
    runner h s w1).
  { unfold submitAndRun, handleSubmit. rewrite Hprompt. js. rewrite Hdir. js.
    subst submitted created scriptPath logFile id.
    unfold openLedger in Hold.
    destruct (tasksFile w) as [[[ | | | | items | ]|raw]|] eqn:Hfile;
      try discriminate; injection Hold as <-; js;
      rewrite <- !app_assoc; cbn [app]; rewrite drop_app_length;
      cbn [spawnedScript]; rewrite Hs, ?Hdir; reflexivity. }
  rewrite Hrun. clear Hrun. cbv zeta.
  unfold runner. js. rewrite Hdocker. js.
  unfold updateTask. js. unfold findIndex. rewrite Hid.
  destruct (findIndexFrom 0 id submitted) as [[i|]|] eqn:Hfind;
    [ | now contradiction Hlast | ]; js.
  - split; [reflexivity|]. split.
    + eexists. split; [rewrite <- !app_assoc; cbn [app]; reflexivity|].
      cbn [mutateAt]. split; [reflexivity|]. split; [reflexivity|].
      exact (statusIn_mutateAt id "failed" _ submitted i Hfind).
    + intros Hnone. apply Hfresh in Hnone. injection Hnone as ->.
      cbn [mutateAt]. subst submitted. now rewrite alter_last.
  - split; [reflexivity|]. split.
    + eexists. split; [rewrite <- !app_assoc; cbn [app]; reflexivity|].
      split; [eexists; reflexivity | reflexivity].
    + intros Hnone. apply Hfresh in Hnone. discriminate.
Qed.

Lemma docker_unavailable_job_fails_after_running_witness :
  fst (submitAndRun offlineHost somePreferences fizzbuzzRequest freshWorld) = Exited 1 /\
  statusIn "1700000000000"
           (tasksFile (snd (submitAndRun offlineHost somePreferences
                                         fizzbuzzRequest freshWorld)))
  = Some (JStr "failed").
Proof.
  destruct (docker_unavailable_job_fails_after_running
              offlineHost somePreferences fizzbuzzRequest freshWorld [] fizzbuzzScript
              eq_refl eq_refl eq_refl eq_refl eq_refl) as (Hexit & _ & Hfile).
  split; [exact Hexit|]. rewrite (Hfile eq_refl). reflexivity.
Defined.

(** [collectTools()] of the runner: the store is updated and one line is
    logged per saved tool; the ledger is not touched. *)
Lemma forEach_log (lines : list string) (w : World) :
  forEach lines log w =
  (Ret tt,
   {| workingDirectoryExists := workingDirectoryExists w; tasksFile := tasksFile w;
      workspace := workspace w; tools := tools w; reads := reads w;
      effects := effects w ++ map Log lines |}).
Proof.
  revert w. induction lines as [|l lines IH]; intros w; simpl.
  - unfold ret. rewrite app_nil_r. now destruct w.
  - unfold bind, log, effect, modify. rewrite IH. simpl. now rewrite <- app_assoc.
Qed.

Lemma collectTools_run (w : World) :
  collectTools w =
  (Ret tt,
   {| workingDirectoryExists := workingDirectoryExists w; tasksFile := tasksFile w;
      workspace := workspace w;
      tools := store (collectToolsRunner (workspace w) (tools w));
      reads := reads w;
      effects := (effects w ++ [CollectTools]) ++
                 map Log (logs (collectToolsRunner (workspace w) (tools w))) |}).
Proof. unfold collectTools. js. rewrite forEach_log. reflexivity. Qed.

(** The runner on a machine where Docker and the image are ready, when
    the [docker run] of the last attempt returns without a status: the
    tools are collected, the record is rewritten to "completed" and the
    process exits with code 0. *)
Lemma runner_signalled_run_succeeds
      (h : Host) (s : Script) (w : World) (items : list json) (i : nat) :
  dockerInfoOk h = true ->
  imageReady h = true ->
  status (lastAttempt h s) = None ->
  tasksFile w = Some (Json (JArr items)) ->
  findIndexFrom 0 (taskId s) items = Some (Some i) ->
  fst (runner h s w) = Exited 0 /\
  In CollectTools (effects (snd (runner h s w))) /\
  statusIn (taskId s) (tasksFile (snd (runner h s w))) = Some (JStr "completed").
Proof.
  intros Hdocker Hready Hlast Hfile Hfind.
  unfold lastAttempt in Hlast. unfold imageReady in Hready.
  unfold runner, ensureDockerImage, runDocker. js. rewrite Hdocker. js.
  destruct (isZero (inspectStatus h)), (isZero (smokeStatus h)),
    (dockerfileExists h), (isZero (buildStatus h)); try discriminate; js.
  all: destruct (truthy (retryModel s) &&
                 detectRefusalExt (orEmpty (stdout (agent h 0 (primaryModel s))) +:+
                                   orEmpty (stderr (agent h 0 (primaryModel s)))));
    js; rewrite Hlast; cbn [Gateway.orZero Z.eqb]; js;
    rewrite collectTools_run; js; unfold updateTask; js; rewrite Hfile; js;
    unfold findIndex; rewrite Hfind; js.
  all: split; [reflexivity|]; split;
    [ rewrite !in_app_iff; simpl; tauto
    | now apply statusIn_mutateAt ].
Qed.

End LedgerFacts.

Section LedgerOutcomes.
Import JsString Refusal Harvest Js Ledger Scenarios.

(** Symbolic execution, as in the section above. *)
Ltac js :=
  repeat (progress
            (cbv beta iota zeta delta
                 [tryCatch bind ret throw exit get modify when effect showToast
                  DateNow writeTasks parseTasks push log record tick setTasks
                  setTools];
             cbn [tasksFile effects reads workspace tools
                  workingDirectoryExists fst snd negb
                  Gateway.exitCode Gateway.output])).

(** X11. A submission without a prompt, or for a working directory that
    does not exist, is rejected with a failure toast and nothing else
    happens: the ledger is not read or written, no identifier is drawn
    from the clock, no runner script is written and no runner is
    spawned. The prompt is checked first. *)
Theorem rejected_submission_changes_nothing
        (h : Host) (p : Preferences) (v : FormValues) (w : World) :
  truthy (prompt v) = false \/ workingDirectoryExists w = false ->
  handleSubmit h p v w =
    (Ret tt,
     record (Toast "Failure"
                   (if truthy (prompt v) then "Working directory not found"
                    else "Prompt is required")) w).
Proof.
  intros Hcheck. unfold handleSubmit.
  destruct (truthy (prompt v)); js; [|reflexivity].
  destruct Hcheck as [Hp | Hd]; [discriminate|]. rewrite Hd. js. now rewrite ?Hd.
Qed.

Lemma rejected_submission_changes_nothing_witness :
  effects (snd (handleSubmit offlineHost somePreferences
                  {| prompt := ""; files := [] |} freshWorld))
  = [Toast "Failure" "Prompt is required"].
Proof.
  rewrite (rejected_submission_changes_nothing offlineHost somePreferences
             {| prompt := ""; files := [] |} freshWorld).
  - reflexivity.
  - left. reflexivity.
Defined.

(** X12. An accepted submission on a ledger that is absent or holds a
    JSON array appends one record and keeps every older record in place:
    the new record has status "running", its id is the first reading of
    the clock, its start time the second, and the runner that is spawned
    is the script written for that id. *)
Theorem submission_appends_running_record
        (h : Host) (p : Preferences) (v : FormValues) (w : World) (old : list json) :
  truthy (prompt v) = true ->
  workingDirectoryExists w = true ->
  ledgerItems (tasksFile w) = Some old ->
  let id := pretty (now h (reads w)) in
  let logFile := workingDirectory p +:+ "/.agentic-logs/" +:+ id +:+ ".log" in
  let r := handleSubmit h p v w in
  fst r = Ret tt /\
  tasksFile (snd r) =
    Some (Json (JArr (old ++ [newTask id (prompt v) (now h (S (reads w))) logFile]))) /\
  reads (snd r) = S (S (reads w)) /\
  spawnedScript (drop (length (effects w)) (effects (snd r)))
    = dockerRunnerScript p v id logFile.
Proof.
  intros Hprompt Hdir Hold id logFile. unfold ledgerItems in Hold.
  unfold handleSubmit. rewrite Hprompt. js. rewrite Hdir. js.
  destruct (tasksFile w) as [[[ | | | | items | ]|]|] eqn:Hfile;
    try discriminate; injection Hold as <-; js;
    rewrite <- !app_assoc; cbn [app]; rewrite drop_app_length;
    repeat split.
Qed.

Lemma submission_appends_running_record_witness :
  tasksFile (snd (handleSubmit timedOutHost somePreferences fizzbuzzRequest
                    {| workingDirectoryExists := true;
                       tasksFile := Some (Json (JArr [JObj [("id", JStr "1")]]));
                       workspace := ∅; tools := ∅; reads := 0; effects := [] |}))
  = Some (Json (JArr [ JObj [("id", JStr "1")];
                       newTask "1700000000000" "write a fizzbuzz script" 1700000000001
                         "/work/.agentic-logs/1700000000000.log" ])).
Proof.
  destruct (submission_appends_running_record timedOutHost somePreferences fizzbuzzRequest
              {| workingDirectoryExists := true;
                 tasksFile := Some (Json (JArr [JObj [("id", JStr "1")]]));
                 workspace := ∅; tools := ∅; reads := 0; effects := [] |}
              [JObj [("id", JStr "1")]] eq_refl eq_refl eq_refl) as (_ & H & _).
  exact H.
Defined.

(** X13. When the ledger file holds valid JSON that is not an array
    ([null], an object, a number, a string), [tasks.push] throws: the submission
    ends with the toast "Failed to start Agent", the ledger file is left
    as it is, and no runner script is written or spawned. *)
Theorem submission_on_non_array_ledger_fails
        (h : Host) (p : Preferences) (v : FormValues) (w : World) (content : json) :
  truthy (prompt v) = true ->
  workingDirectoryExists w = true ->
  tasksFile w = Some (Json content) ->
  (forall items, content <> JArr items) ->
  let r := handleSubmit h p v w in
  fst r = Ret tt /\
  tasksFile (snd r) = tasksFile w /\
  effects (snd r) =
    effects w ++ [Toast "Animated" "Starting Agent...";
                  Toast "Failure" "Failed to start Agent"].
Proof.
  intros Hprompt Hdir Hfile Hshape.
  unfold handleSubmit. rewrite Hprompt. js. rewrite Hdir. js. rewrite Hfile. js.
  destruct content as [ | | | | items | ]; try (now destruct (Hshape items)); js;
    rewrite <- !app_assoc; repeat split; exact Hfile.
Qed.

Lemma submission_on_non_array_ledger_fails_witness :
  let w := {| workingDirectoryExists := true;
              tasksFile := Some (Json JNull);
              workspace := ∅; tools := ∅; reads := 0; effects := [] |} in
  tasksFile (snd (handleSubmit timedOutHost somePreferences fizzbuzzRequest w))
    = Some (Json JNull) /\
  effects (snd (handleSubmit timedOutHost somePreferences fizzbuzzRequest w))
    = [Toast "Animated" "Starting Agent..."; Toast "Failure" "Failed to start Agent"].
Proof.
  cbv zeta.
  destruct (submission_on_non_array_ledger_fails timedOutHost somePreferences fizzbuzzRequest
              {| workingDirectoryExists := true;
                 tasksFile := Some (Json JNull);
                 workspace := ∅; tools := ∅; reads := 0; effects := [] |}
              JNull eq_refl eq_refl eq_refl) as (_ & Hfile & Heff).
  - discriminate.
  - split; [exact Hfile | exact Heff].
Defined.

(** X14. [updateTask] for an id that no record of the ledger carries does
    nothing at all: no write, no log line; the same holds when there is
    no ledger file. *)
Theorem update_of_unknown_job_is_silent
        (id st : string) (endTime : Z) (w : World) (items : list json) :
  ledgerItems (tasksFile w) = Some items ->
  findIndexFrom 0 id items = Some None ->
  updateTask id st endTime w = (Ret tt, w).
Proof.
  intros Hitems Hfind. unfold ledgerItems in Hitems. unfold updateTask. js.
  destruct (tasksFile w) as [[[ | | | | l | ]|]|]; try discriminate;
    injection Hitems as <-; js; unfold findIndex; rewrite Hfind; reflexivity.
Qed.

Lemma update_of_unknown_job_is_silent_witness :
  updateTask "42" "completed" 1700000000002 submittedWorld = (Ret tt, submittedWorld).
Proof.
  apply (update_of_unknown_job_is_silent "42" "completed" 1700000000002 submittedWorld
           [newTask "1700000000000" "write a fizzbuzz script" 1700000000001
              "/work/.agentic-logs/1700000000000.log"]); reflexivity.
Defined.

(** X15. [updateTask] rewrites one record and only that one: the ledger
    keeps its length and its order, the first record with the runner's id
    gets the new status (and the end time), every other record is written
    back unchanged, and the file is written exactly once. *)
Theorem update_rewrites_one_record
        (id st : string) (endTime : Z) (w : World) (items : list json) (i : nat) :
  tasksFile w = Some (Json (JArr items)) ->
  findIndexFrom 0 id items = Some (Some i) ->
  exists items',
    updateTask id st endTime w =
      (Ret tt, setTasks (Json (JArr items')) (record (WriteTasks (JArr items')) w)) /\
    length items' = length items /\
    items' !! i = mutate st endTime <$> items !! i /\
    (forall j, j <> i -> items' !! j = items !! j) /\
    statusIn id (Some (Json (JArr items'))) = Some (JStr st).
Proof.
  intros Hfile Hfind. exists (alter (mutate st endTime) i items).
  split; [|split; [|split; [|split]]].
  - unfold updateTask. js. rewrite Hfile. js. unfold findIndex. rewrite Hfind. js.
    reflexivity.
  - apply length_alter.
  - apply list_lookup_alter_eq.
  - intros j Hj. apply list_lookup_alter_ne. congruence.
  - apply (statusIn_mutateAt id st endTime items i Hfind).
Qed.

Lemma update_rewrites_one_record_witness :
  statusIn "1700000000000"
    (tasksFile (snd (updateTask "1700000000000" "failed" 1700000000002 submittedWorld)))
  = Some (JStr "failed").
Proof.
  destruct (update_rewrites_one_record "1700000000000" "failed" 1700000000002
              submittedWorld
              [newTask "1700000000000" "write a fizzbuzz script" 1700000000001
                 "/work/.agentic-logs/1700000000000.log"] 0%nat eq_refl eq_refl)
    as (items' & Hrun & _ & _ & _ & Hstatus).
  rewrite Hrun. exact Hstatus.
Defined.


(** [ensureDockerImage()] on a usable or buildable image returns, having
    only written log lines; otherwise it throws, having only written log
    lines. *)
Lemma ensureDockerImage_run (h : Host) (s : Script) (w : World) :
  exists lines,
    snd (ensureDockerImage h s w) =
      {| workingDirectoryExists := workingDirectoryExists w; tasksFile := tasksFile w;
         workspace := workspace w; tools := tools w; reads := reads w;
         effects := effects w ++ map Log lines |} /\
    if imageReady h then fst (ensureDockerImage h s w) = Ret tt
    else exists e, fst (ensureDockerImage h s w) = Thrown e.
Proof.
  unfold ensureDockerImage, imageReady.
  destruct (isZero (inspectStatus h)), (isZero (smokeStatus h)),
    (dockerfileExists h), (isZero (buildStatus h)); js; cbn [andb orb];
    rewrite <- ?app_assoc; cbn [app];
    match goal with
    | |- context [effects w ++ ?l] =>
        exists (List.flat_map (fun e => match e with Log m => [m] | _ => [] end) l)
    end; (split; [reflexivity | eauto]).
Qed.

Lemma not_in_logs (e : Effect) (lines : list string) :
  (forall m, e <> Log m) -> ~ In e (map Log lines).
Proof. intros He Hin. apply in_map_iff in Hin as (m & <- & _). now apply (He m). Qed.

(** An effect that does not occur in a trace made of explicit effects and
    of log lines. *)
Ltac absent :=
  rewrite ?in_app_iff; cbn [In]; intros Hin;
  repeat (destruct Hin as [Hin | Hin]; try discriminate Hin);
  try (now apply not_in_logs in Hin); try destruct Hin.

(** X16. When Docker runs but the image is neither usable nor buildable
    (missing or failing its smoke test, and then no Dockerfile or a failed
    build), the runner starts no agent and collects no tools; it rewrites
    the record to "failed" and exits with code 1. *)
Theorem unready_image_fails_job_without_run
        (h : Host) (s : Script) (w : World) (items : list json) (i : nat) :
  dockerInfoOk h = true ->
  imageReady h = false ->
  tasksFile w = Some (Json (JArr items)) ->
  findIndexFrom 0 (taskId s) items = Some (Some i) ->
  let r := runner h s w in
  let trace := drop (length (effects w)) (effects (snd r)) in
  fst r = Exited 1 /\
  (forall model, ~ In (DockerRun model) trace) /\
  ~ In CollectTools trace /\
  tools (snd r) = tools w /\
  statusIn (taskId s) (tasksFile (snd r)) = Some (JStr "failed").
Proof.
  intros Hdocker Hready Hfile Hfind.
  unfold runner. js. rewrite Hdocker. js.
  match goal with
  | |- context [ensureDockerImage h s ?w1] =>
      destruct (ensureDockerImage_run h s w1) as (lines & Hw & Hout);
      rewrite Hready in Hout; destruct Hout as [e He];
      destruct (ensureDockerImage h s w1) as [out w2]
  end.
  cbn [fst snd] in Hw, He. subst out w2. js.
  unfold updateTask. js. rewrite Hfile. js. unfold findIndex. rewrite Hfind. js.
  rewrite <- !app_assoc, drop_app_length.
  split; [reflexivity|]. split; [|split; [|split]].
  - intros model. absent.
  - absent.
  - reflexivity.
  - now apply statusIn_mutateAt.
Qed.

Lemma unready_image_fails_job_without_run_witness :
  let h := {| now := fun n => (1700000000000 + Z.of_nat n)%Z;
              dockerInfoOk := true;
              inspectStatus := Some 1%Z; smokeStatus := None;
              dockerfileExists := false; buildStatus := None;
              agent := fun _ _ => {| status := Some 0%Z; stdout := None; stderr := None |} |} in
  fst (runner h fizzbuzzScript submittedWorld) = Exited 1 /\
  statusIn "1700000000000" (tasksFile (snd (runner h fizzbuzzScript submittedWorld)))
    = Some (JStr "failed").
Proof.
  cbv zeta.
  destruct (unready_image_fails_job_without_run
              {| now := fun n => (1700000000000 + Z.of_nat n)%Z;
                 dockerInfoOk := true;
                 inspectStatus := Some 1%Z; smokeStatus := None;
                 dockerfileExists := false; buildStatus := None;
                 agent := fun _ _ =>
                   {| status := Some 0%Z; stdout := None; stderr := None |} |}
              fizzbuzzScript submittedWorld
              [newTask "1700000000000" "write a fizzbuzz script" 1700000000001
                 "/work/.agentic-logs/1700000000000.log"] 0%nat
              eq_refl eq_refl eq_refl eq_refl) as (Hexit & _ & _ & _ & Hstatus).
  split; [exact Hexit | exact Hstatus].
Defined.

(** X17. The end of a job mirrors the exit code of its last attempt. When
    Docker and the image are ready and the last [docker run] returns with
    exit code [c], the runner exits with [c]; the record is rewritten to
    "completed" when [c] is 0 and to "failed" otherwise; the tools are
    collected exactly when [c] is 0, and the tools directory is left
    untouched otherwise. *)
Theorem runner_status_mirrors_exit_code
        (h : Host) (s : Script) (w : World) (items : list json) (i : nat) (c : Z) :
  dockerInfoOk h = true ->
  imageReady h = true ->
  status (lastAttempt h s) = Some c ->
  tasksFile w = Some (Json (JArr items)) ->
  findIndexFrom 0 (taskId s) items = Some (Some i) ->
  let r := runner h s w in
  let trace := drop (length (effects w)) (effects (snd r)) in
  fst r = Exited c /\
  statusIn (taskId s) (tasksFile (snd r))
    = Some (JStr (if (c =? 0)%Z then "completed" else "failed")) /\
  tools (snd r) = (if (c =? 0)%Z
                   then store (collectToolsRunner (workspace w) (tools w))
                   else tools w) /\
  (In CollectTools trace <-> c = 0%Z).
Proof.
  intros Hdocker Hready Hlast Hfile Hfind.
  unfold lastAttempt in Hlast.
  unfold runner. js. rewrite Hdocker. js.
  match goal with
  | |- context [ensureDockerImage h s ?w1] =>
      destruct (ensureDockerImage_run h s w1) as (lines & Hw & Hout);
      rewrite Hready in Hout;
      destruct (ensureDockerImage h s w1) as [out w2]
  end.
  cbn [fst snd] in Hw, Hout. subst out w2. unfold runDocker. js.
  destruct (truthy (retryModel s) &&
            detectRefusalExt (orEmpty (stdout (agent h 0 (primaryModel s))) +:+
                              orEmpty (stderr (agent h 0 (primaryModel s)))));
    js; rewrite Hlast, orZero_Some; unfold statusOf;
    destruct (c =? 0)%Z eqn:Hc; js;
    rewrite ?collectTools_run; js; unfold updateTask; js; rewrite Hfile; js;
    unfold findIndex; rewrite Hfind; js;
    rewrite <- !app_assoc, drop_app_length;
    (split; [reflexivity|]); (split; [now apply statusIn_mutateAt|]);
    (split; [reflexivity|]);
    first [ apply Z.eqb_eq in Hc | apply Z.eqb_neq in Hc ].
  1, 3: split; [intros _; exact Hc|]; intros _;
    rewrite !in_app_iff; cbn [In]; tauto.
  all: split; [|intros Hz; destruct (Hc Hz)]; intros Hin; exfalso; revert Hin; absent.
Qed.

Lemma runner_status_mirrors_exit_code_witness :
  let h := {| now := fun n => (1700000000000 + Z.of_nat n)%Z;
              dockerInfoOk := true;
              inspectStatus := Some 0%Z; smokeStatus := Some 0%Z;
              dockerfileExists := true; buildStatus := Some 0%Z;
              agent := fun _ _ =>
                {| status := Some 3%Z; stdout := Some "boom"; stderr := None |} |} in
  fst (runner h fizzbuzzScript submittedWorld) = Exited 3 /\
  statusIn "1700000000000" (tasksFile (snd (runner h fizzbuzzScript submittedWorld)))
    = Some (JStr "failed").
Proof.
  cbv zeta.
  destruct (runner_status_mirrors_exit_code
              {| now := fun n => (1700000000000 + Z.of_nat n)%Z;
                 dockerInfoOk := true;
                 inspectStatus := Some 0%Z; smokeStatus := Some 0%Z;
                 dockerfileExists := true; buildStatus := Some 0%Z;
                 agent := fun _ _ =>
                   {| status := Some 3%Z; stdout := Some "boom"; stderr := None |} |}
              fizzbuzzScript submittedWorld
              [newTask "1700000000000" "write a fizzbuzz script" 1700000000001
                 "/work/.agentic-logs/1700000000000.log"] 0%nat 3%Z
              eq_refl eq_refl eq_refl eq_refl eq_refl) as (Hexit & Hstatus & _).
  split; [exact Hexit | exact Hstatus].
Defined.

End LedgerOutcomes.

Section ScriptText.
Import JsString Js JsLiteral Ledger Scenarios.










(** A prompt with an escape that the grammar refuses: the script text is
    no module, and it is not read. *)
Lemma broken_escape_is_not_read :
  dockerRunnerScript somePreferences {| prompt := "print \x"; files := [] |}
    "1700000000000" "/work/.agentic-logs/1700000000000.log" = None.
Proof. reflexivity. Qed.

End ScriptText.

Section SignalledRuns.
Import Gateway Scenarios.

(** C9. A run whose child process terminates without a numeric exit code
    (for instance because the SIGTERM of the timeout ended it) is reported
    with exit code 0, by [runDocker] of the CLI as by [runDocker] of the
    runner script. When that run is the last attempt of the job, the CLI
    harvests the workspace and exits with code 0, and the runner collects
    the tools, rewrites the record to "completed" and exits with code 0. *)
Theorem run_without_exit_code_counts_as_success :
  (forall quiet timeout (c : Child),
      closesWithoutCode timeout c ->
      exists out, runDocker quiet timeout c = Some {| exitCode := 0; output := out |}) /\
  (forall timeout (c : Child),
      stillRunningAt timeout c -> onSIGTERM c = Some [Exit None] ->
      closesWithoutCode timeout c) /\
  (forall (cfg : Driver.Config) (h : Driver.Host),
      Driver.started cfg h = true ->
      closesWithoutCode (Driver.timeout cfg) (Driver.lastChild cfg h) ->
      Driver.exited (Driver.cli cfg h) = Some 0%Z /\
      Driver.harvest (Driver.cli cfg h)
        = Some (Harvest.collectTools (Driver.workspace h) (Driver.tools h))) /\
  (forall (h : Ledger.Host) (s : Ledger.Script) (w : Ledger.World)
          (items : list Ledger.json) (i : nat),
      Ledger.dockerInfoOk h = true ->
      Ledger.imageReady h = true ->
      Ledger.status (Ledger.lastAttempt h s) = None ->
      Ledger.tasksFile w = Some (Ledger.Json (Ledger.JArr items)) ->
      Ledger.findIndexFrom 0 (Ledger.taskId s) items = Some (Some i) ->
      fst (Ledger.runner h s w) = Js.Exited 0 /\
      In Ledger.CollectTools (Ledger.effects (snd (Ledger.runner h s w))) /\
      Ledger.statusIn (Ledger.taskId s) (Ledger.tasksFile (snd (Ledger.runner h s w)))
        = Some (Ledger.JStr "completed")).
Proof.
  split; [exact runDocker_closes_without_code|].
  split; [exact killed_closes_without_code|].
  split; [exact cli_signalled_run_succeeds|].
  exact runner_signalled_run_succeeds.
Qed.

Lemma run_without_exit_code_counts_as_success_witness :
  Driver.exited (Driver.cli timedOutConfig timedOutCliHost) = Some 0%Z /\
  Ledger.statusIn "1700000000000"
    (Ledger.tasksFile (snd (Ledger.runner timedOutHost fizzbuzzScript submittedWorld)))
    = Some (Ledger.JStr "completed").
Proof.
  destruct run_without_exit_code_counts_as_success as (_ & Hkill & Hcli & Hrunner).
  split.
  - apply (Hcli timedOutConfig timedOutCliHost); [reflexivity|].
    apply Hkill; reflexivity.
  - apply (Hrunner timedOutHost fizzbuzzScript submittedWorld
             [Ledger.newTask "1700000000000" "write a fizzbuzz script" 1700000000001
                "/work/.agentic-logs/1700000000000.log"] 0%nat);
      reflexivity.
Defined.

End SignalledRuns.

(** Division and remainder by constants, for [lia]. *)
Ltac Zify.zify_post_hook ::= Z.to_euclidean_division_equations.

Section Base64Facts.
Import JsString Base64.

(** Lists, three elements at a time. *)
Lemma list_ind3 {A} (P : list A -> Prop) :
  P [] -> (forall a, P [a]) -> (forall a b, P [a; b]) ->
  (forall a b c l, P l -> P (a :: b :: c :: l)) ->
  forall l, P l.
Proof.
  intros H0 H1 H2 H3.
  refine (fix F l := match l with
                     | [] => H0
                     | [a] => H1 a
                     | [a; b] => H2 a b
                     | a :: b :: c :: l' => H3 a b c l' (F l')
                     end).
Qed.

(** A property of characters that holds of the padding and of the 64
    digits holds of every [digit n]. *)
Lemma digit_all (P : ascii -> bool) :
  P pad = true ->
  forallb P (list_ascii_of_string alphabet) = true ->
  forall n, P (digit n) = true.
Proof.
  intros Hpad Hall n. unfold digit.
  destruct (String.get (N.to_nat n) alphabet) as [c|] eqn:Hget; [|exact Hpad].
  rewrite forallb_forall in Hall. apply Hall.
  clear - Hget. revert Hget. generalize (N.to_nat n) as k. generalize alphabet as s.
  induction s as [|x s IH]; intros k Hget; [destruct k; discriminate|].
  destruct k as [|k]; simpl in *.
  - injection Hget as ->. now left.
  - right. eauto.
Qed.

Lemma value_digit n : (n < 64)%N -> value (digit n) = Some n.
Proof.
  intros Hn. rewrite <- (N2Nat.id n) at 2. unfold digit.
  assert (Hk : (N.to_nat n < 64)%nat) by lia.
  revert Hk. generalize (N.to_nat n) as k. intros k Hk.
  do 64 (destruct k as [|k]; [reflexivity|]). lia.
Qed.

Lemma digit_plain n : plainChar (digit n) = true.
Proof. apply digit_all; reflexivity. Qed.

Lemma valueUrl_digit n : (n < 64)%N -> valueUrl (digit n) = Some n.
Proof.
  intros Hn. pose proof (value_digit n Hn) as Hv.
  assert (H : negb (N_of_ascii (digit n) =? 45)%N && negb (N_of_ascii (digit n) =? 95)%N = true)
    by (apply (digit_all (fun c => negb (N_of_ascii c =? 45)%N && negb (N_of_ascii c =? 95)%N));
        reflexivity).
  apply andb_true_iff in H as [H1 H2]. unfold valueUrl.
  destruct (N_of_ascii (digit n) =? 45)%N; [discriminate|].
  destruct (N_of_ascii (digit n) =? 95)%N; [discriminate|]. exact Hv.
Qed.

Lemma digit_not_pad n : (n < 64)%N -> Ascii.eqb (digit n) pad = false.
Proof.
  intros Hn. pose proof (value_digit n Hn) as Hv.
  destruct (Ascii.eqb (digit n) pad) eqn:He; [|reflexivity].
  apply Ascii.eqb_eq in He. rewrite He in Hv. discriminate.
Qed.

Lemma byteOf_to_N (b : Byte.byte) : byteOf (Byte.to_N b) = b.
Proof. unfold byteOf. now rewrite Byte.of_to_N. Qed.

Lemma plain_encode bs : plain (encode bs) = true.
Proof.
  induction bs as [|a|a b|a b c l IH] using list_ind3; cbn [encode plain];
    rewrite ?digit_plain, ?IH; reflexivity.
Qed.

Lemma sextet_bounds (a b c : Byte.byte) :
  let x := Byte.to_N a in
  let y := Byte.to_N b in
  let z := Byte.to_N c in
  (x / 4 < 64 /\ (x mod 4) * 16 + y / 16 < 64 /\ (x mod 4) * 16 < 64 /\
   (y mod 16) * 4 + z / 64 < 64 /\ (y mod 16) * 4 < 64 /\ z mod 64 < 64)%N.
Proof.
  pose proof (Byte.to_N_bounded a). pose proof (Byte.to_N_bounded b).
  pose proof (Byte.to_N_bounded c). cbv zeta. lia.
Qed.

Lemma bytes_back (a b c : Byte.byte) :
  let x := Byte.to_N a in
  let y := Byte.to_N b in
  let z := Byte.to_N c in
  byte1 (x / 4) ((x mod 4) * 16 + y / 16) = a /\
  byte1 (x / 4) ((x mod 4) * 16) = a /\
  byte2 ((x mod 4) * 16 + y / 16) ((y mod 16) * 4 + z / 64) = b /\
  byte2 ((x mod 4) * 16 + y / 16) ((y mod 16) * 4) = b /\
  byte3 ((y mod 16) * 4 + z / 64) (z mod 64) = c.
Proof.
  pose proof (Byte.to_N_bounded a). pose proof (Byte.to_N_bounded b).
  pose proof (Byte.to_N_bounded c). cbv zeta. unfold byte1, byte2, byte3.
  repeat split.
  - transitivity (byteOf (Byte.to_N a)); [f_equal; lia | apply byteOf_to_N].
  - transitivity (byteOf (Byte.to_N a)); [f_equal; lia | apply byteOf_to_N].
  - transitivity (byteOf (Byte.to_N b)); [f_equal; lia | apply byteOf_to_N].
  - transitivity (byteOf (Byte.to_N b)); [f_equal; lia | apply byteOf_to_N].
  - transitivity (byteOf (Byte.to_N c)); [f_equal; lia | apply byteOf_to_N].
Qed.

Lemma sextets_digit n s : (n < 64)%N -> sextets (String (digit n) s) = n :: sextets s.
Proof. intros Hn. cbn [sextets]. now rewrite digit_not_pad, valueUrl_digit. Qed.

(** The runtime's decoder inverts its encoder. *)
Lemma decodeLenient_encode bs : decodeLenient (encode bs) = bs.
Proof.
  unfold decodeLenient.
  induction bs as [|a|a b|a b c l IH] using list_ind3; cbn [encode].
  - reflexivity.
  - destruct (sextet_bounds a a a) as (H1 & _ & H2 & _).
    destruct (bytes_back a a a) as (_ & Ha & _).
    rewrite !sextets_digit by assumption. cbn. now rewrite Ha.
  - destruct (sextet_bounds a b b) as (H1 & H2 & _ & _ & H3 & _).
    destruct (bytes_back a b b) as (Ha & _ & _ & Hb & _).
    rewrite !sextets_digit by assumption. cbn. now rewrite Ha, Hb.
  - destruct (sextet_bounds a b c) as (H1 & H2 & _ & H3 & _ & H4).
    destruct (bytes_back a b c) as (Ha & _ & Hb & _ & Hc).
    rewrite !sextets_digit by assumption. cbn [unpack]. now rewrite Ha, Hb, Hc, IH.
Qed.

(** So does the strict decoder of the sandbox. *)
Lemma strictGroups_encode bs : strictGroups (encode bs) = Some bs.
Proof.
  induction bs as [|a|a b|a b c l IH] using list_ind3; cbn [encode].
  - reflexivity.
  - destruct (sextet_bounds a a a) as (H1 & _ & H2 & _).
    destruct (bytes_back a a a) as (_ & Ha & _).
    cbn [strictGroups]. rewrite !value_digit by assumption. cbn. now rewrite Ha.
  - destruct (sextet_bounds a b b) as (H1 & H2 & _ & _ & H3 & _).
    destruct (bytes_back a b b) as (Ha & _ & _ & Hb & _).
    cbn [strictGroups]. rewrite !value_digit by assumption.
    rewrite digit_not_pad by assumption. cbn. now rewrite Ha, Hb.
  - destruct (sextet_bounds a b c) as (H1 & H2 & _ & H3 & _ & H4).
    destruct (bytes_back a b c) as (Ha & _ & Hb & _ & Hc).
    cbn [strictGroups]. rewrite !value_digit by assumption.
    rewrite !digit_not_pad by assumption. now rewrite IH, Ha, Hb, Hc.
Qed.

Lemma encode_nil_inv bs : encode bs = "" -> bs = [].
Proof. destruct bs as [|a [|b [|c l]]]; [reflexivity|discriminate..]. Qed.

(** A chunk whose size is a multiple of four digits is the encoding of a
    block of the bytes, and what is left encodes the remaining bytes. *)
Lemma takeFirst_nil n : takeFirst n "" = "".
Proof. now destruct n. Qed.

Lemma dropFirst_nil n : dropFirst n "" = "".
Proof. now destruct n. Qed.

Lemma takeFirst_encode m bs :
  takeFirst (m * 4) (encode bs) = encode (firstn (m * 3) bs).
Proof.
  revert bs. induction m as [|m IH]; intros bs; [reflexivity|].
  destruct bs as [|a [|b [|c l]]];
    cbn [Nat.mul Nat.add firstn encode takeFirst];
    rewrite ?takeFirst_nil, ?firstn_nil, ?IH; reflexivity.
Qed.

Lemma dropFirst_encode m bs :
  dropFirst (m * 4) (encode bs) = encode (skipn (m * 3) bs).
Proof.
  revert bs. induction m as [|m IH]; intros bs; [reflexivity|].
  destruct bs as [|a [|b [|c l]]];
    cbn [Nat.mul Nat.add skipn encode dropFirst];
    rewrite ?dropFirst_nil, ?skipn_nil, ?IH; reflexivity.
Qed.

Lemma plain_app_newline s :
  plain s = true -> dropNewlines (s +:+ String newline "") = s.
Proof.
  induction s as [|c s IH]; intros H; [reflexivity|].
  cbn [plain] in H. apply andb_true_iff in H as [Hc Hs].
  unfold plainChar in Hc. rewrite !andb_true_iff, !negb_true_iff in Hc.
  destruct Hc as [[_ Hn] _]. cbn [String.append dropNewlines]. rewrite Hn.
  now rewrite IH.
Qed.

(** What the sandbox decodes from one echoed chunk. *)
Lemma decodeStrict_chunk bs :
  decodeStrict (encode bs +:+ String newline "") = Some bs.
Proof.
  unfold decodeStrict. rewrite plain_app_newline by apply plain_encode.
  apply strictGroups_encode.
Qed.

Lemma space_skipped c s : Ascii.is_space c = true -> sextets (String c s) = sextets s.
Proof.
  intros H. destruct c as [[] [] [] [] [] [] [] []]; try discriminate; reflexivity.
Qed.

Lemma sextets_trimStart s : sextets (trimStart s) = sextets s.
Proof.
  induction s as [|c s IH]; [reflexivity|]. cbn [trimStart].
  destruct (Ascii.is_space c) eqn:Hc; [|reflexivity].
  now rewrite IH, space_skipped.
Qed.

Lemma sextets_trimEnd s : sextets (trimEnd s) = sextets s.
Proof.
  induction s as [|c s IH]; [reflexivity|]. cbn [trimEnd].
  destruct (trimEnd s) as [|d t] eqn:Ht.
  - destruct (Ascii.is_space c) eqn:Hc.
    + rewrite space_skipped by assumption. now rewrite <- IH.
    + cbn [sextets] in *. rewrite <- IH. reflexivity.
  - cbn [sextets] in *. rewrite <- IH. reflexivity.
Qed.

Lemma sextets_wrapFrom column s : sextets (wrapFrom column s) = sextets s.
Proof.
  revert column. induction s as [|c s IH]; intros column; cbn [wrapFrom].
  - now destruct column.
  - destruct (column =? 76)%nat.
    + change (sextets (String newline (String c (wrapFrom 1 s)))) with
        (sextets (String c (wrapFrom 1 s))).
      cbn [sextets]. now rewrite IH.
    + cbn [sextets]. now rewrite IH.
Qed.

(** What the host decodes from the output of [base64 FILE]. *)
Lemma decodeLenient_output bs :
  decodeLenient (trim (wrap76 (encode bs))) = bs.
Proof.
  unfold decodeLenient, trim, wrap76.
  rewrite sextets_trimEnd, sextets_trimStart, sextets_wrapFrom.
  apply decodeLenient_encode.
Qed.

End Base64Facts.

Section ShellFacts.
Import JsString Shell.

Lemma after_app p s : after p (p +:+ s) = Some s.
Proof.
  induction p as [|c p IH]; [reflexivity|].
  cbn [String.append after]. now rewrite Ascii.eqb_refl.
Qed.

(** Reading a quoted word gives back the text that was escaped. *)
Lemma word_single p rest :
  endsWord rest ->
  word Single (escapeSingleQuotes p +:+ String quote rest) = Some (p, rest).
Proof.
  intros Hrest. induction p as [|c p IH].
  - cbn [escapeSingleQuotes String.append word]. rewrite Ascii.eqb_refl.
    destruct rest as [|d rest]; [reflexivity|].
    destruct Hrest as [Hq Hd]. cbn [word]. now rewrite Hq, Hd.
  - cbn [escapeSingleQuotes]. destruct (Ascii.eqb c quote) eqn:Hc.
    + apply Ascii.eqb_eq in Hc as ->.
      cbn [String.append word].
      change (Ascii.eqb quote quote) with true.
      change (Ascii.eqb dquote quote) with false.
      change (Ascii.eqb quote dquote) with false.
      change (Ascii.eqb dquote dquote) with true.
      change (expands quote) with false.
      cbv iota. now rewrite IH.
    + cbn [String.append word]. rewrite Hc. now rewrite IH.
Qed.

Lemma word_quoted p rest :
  endsWord rest ->
  word Outside (String quote (escapeSingleQuotes p +:+ String quote rest))
  = Some (p, rest).
Proof.
  intros H. cbn [word]. rewrite Ascii.eqb_refl. now apply word_single.
Qed.

Lemma parse_truncate dir file :
  parse ("mkdir -p '" +:+ escapeSingleQuotes dir +:+ "' && : > '" +:+
         escapeSingleQuotes file +:+ "'")
  = Truncate dir file.
Proof.
  change ("mkdir -p '" +:+ escapeSingleQuotes dir +:+ "' && : > '" +:+
          escapeSingleQuotes file +:+ "'")
    with ("mkdir -p " +:+
          String quote (escapeSingleQuotes dir +:+
          String quote (" && : > " +:+
          String quote (escapeSingleQuotes file +:+ String quote "")))).
  unfold parse, parseTruncate.
  rewrite after_app, word_quoted by (split; reflexivity).
  rewrite after_app, word_quoted by exact I. reflexivity.
Qed.

Lemma parse_append text file :
  parse ("echo '" +:+ escapeSingleQuotes text +:+ "' | base64 -d >> '" +:+
         escapeSingleQuotes file +:+ "'")
  = AppendDecoded text file.
Proof.
  unfold parse.
  replace (parseTruncate _) with (@None Command) by reflexivity.
  change ("echo '" +:+ escapeSingleQuotes text +:+ "' | base64 -d >> '" +:+
          escapeSingleQuotes file +:+ "'")
    with ("echo " +:+
          String quote (escapeSingleQuotes text +:+
          String quote (" | base64 -d >> " +:+
          String quote (escapeSingleQuotes file +:+ String quote "")))).
  unfold parseAppend.
  rewrite after_app, word_quoted by (split; reflexivity).
  rewrite after_app, word_quoted by exact I. reflexivity.
Qed.

Lemma parse_encode file :
  parse ("base64 '" +:+ escapeSingleQuotes file +:+ "'") = Encode file.
Proof.
  unfold parse.
  replace (parseTruncate _) with (@None Command) by reflexivity.
  replace (parseAppend _) with (@None Command) by reflexivity.
  change ("base64 '" +:+ escapeSingleQuotes file +:+ "'")
    with ("base64 " +:+ String quote (escapeSingleQuotes file +:+ String quote "")).
  unfold parseEncode.
  rewrite after_app, word_quoted by exact I. reflexivity.
Qed.

End ShellFacts.

Section TextFacts.
Import JsString JsText.

Lemma split_cons sep s : exists first others, split sep s = first :: others.
Proof.
  induction s as [|c s (first & others & IH)]; cbn [split]; [eauto|].
  destruct (Ascii.eqb c sep); [eauto|]. rewrite IH. eauto.
Qed.

Lemma split_free sep s : free sep s = true -> split sep s = [s].
Proof.
  induction s as [|c s IH]; [reflexivity|]. cbn [free split].
  destruct (Ascii.eqb c sep); [discriminate|]. cbn [negb andb]. intros H.
  now rewrite (IH H).
Qed.

(** Splitting at a separator splits both sides. *)
Lemma split_app sep a b :
  split sep (a +:+ String sep b) = split sep a ++ split sep b.
Proof.
  induction a as [|c a IH]; cbn [String.append split].
  - now rewrite Ascii.eqb_refl.
  - destruct (Ascii.eqb c sep); [now rewrite IH|].
    rewrite IH. destruct (split_cons sep a) as (first & others & ->). reflexivity.
Qed.

(** Joining what was split gives the text back. *)
Lemma join_split sep s : join sep (split sep s) = s.
Proof.
  induction s as [|c s IH]; [reflexivity|]. cbn [split].
  destruct (split_cons sep s) as (first & others & Hs). rewrite Hs in *.
  destruct (Ascii.eqb c sep) eqn:Hc.
  - apply Ascii.eqb_eq in Hc as ->. cbn [join]. cbn [join] in IH.
    now rewrite IH.
  - cbn [join] in *. destruct others as [|o others].
    + now rewrite IH.
    + rewrite <- IH. reflexivity.
Qed.

Lemma rev_app_spec s acc : String.rev_app s acc = String.rev s +:+ acc.
Proof.
  unfold String.rev. revert acc. induction s as [|c s IH]; intros acc; [reflexivity|].
  cbn [String.rev_app]. rewrite (IH (String c acc)), (IH (String c "")).
  now rewrite append_assoc.
Qed.

Lemma rev_cons c s : String.rev (String c s) = String.rev s +:+ String c "".
Proof. unfold String.rev at 1. cbn [String.rev_app]. apply rev_app_spec. Qed.

Lemma rev_append a b : String.rev (a +:+ b) = String.rev b +:+ String.rev a.
Proof.
  induction a as [|c a IH]; cbn [String.append].
  - now rewrite append_nil_r.
  - now rewrite !rev_cons, IH, append_assoc.
Qed.

Lemma rev_rev s : String.rev (String.rev s) = s.
Proof.
  induction s as [|c s IH]; [reflexivity|].
  now rewrite rev_cons, rev_append, IH.
Qed.

Lemma free_append sep a b : free sep (a +:+ b) = free sep a && free sep b.
Proof.
  induction a as [|c a IH]; [reflexivity|]. cbn [String.append free].
  now rewrite IH, andb_assoc.
Qed.

Lemma free_rev sep s : free sep (String.rev s) = free sep s.
Proof.
  induction s as [|c s IH]; [reflexivity|].
  rewrite rev_cons, free_append, IH. cbn [free]. rewrite andb_true_r. apply andb_comm.
Qed.

End TextFacts.

Section FsFacts.
Import JsString JsText Fs.

(** The text of a path below the root starts at the root. *)
Lemma render_rooted name parent :
  exists rest, render (name :: parent) = String "/" rest /\
               (parent <> [] -> exists rest', render parent = String "/" rest' /\
                                              rest = rest' +:+ String "/" name).
Proof.
  revert name. induction parent as [|n q IH]; intros name.
  - exists name. split; [reflexivity|]. congruence.
  - destruct (IH n) as (r & Hr & _). cbn [render] in *. rewrite Hr.
    eexists. split; [reflexivity|]. intros _. eauto.
Qed.

Lemma split_render p :
  forallb segment p = true -> split "/" (render p) = "" :: rev p.
Proof.
  induction p as [|name parent IH]; [reflexivity|]. cbn [forallb render rev].
  intros [Hname Hparent]%andb_true_iff. rewrite split_app, (IH Hparent).
  unfold segment in Hname. apply andb_true_iff in Hname as [[_ Hfree]%andb_true_iff _].
  now rewrite (split_free "/" name Hfree).
Qed.

Lemma segments_resolve (names : list string) :
  forallb segment names = true ->
  List.filter (fun name => negb (String.eqb name "")) names = names /\
  existsb dots names = false.
Proof.
  induction names as [|name names IH]; [now split|]. cbn [forallb].
  intros [Hname Hnames]%andb_true_iff. destruct (IH Hnames) as [Hf He].
  unfold segment in Hname.
  apply andb_true_iff in Hname as [[Hne _]%andb_true_iff Hd].
  cbn [List.filter existsb]. rewrite Hne, Hf, He.
  apply negb_true_iff in Hd. now rewrite Hd.
Qed.

Lemma forallb_rev {A} (f : A -> bool) (l : list A) :
  forallb f (rev l) = forallb f l.
Proof.
  induction l as [|x l IH]; [reflexivity|]. cbn [rev forallb].
  rewrite forallb_app, IH. cbn. rewrite andb_true_r. apply andb_comm.
Qed.

(** A path of plain components is read back from its text. *)
Lemma components_render name parent :
  forallb segment (name :: parent) = true ->
  components (render (name :: parent)) = Some (name :: parent).
Proof.
  intros Hplain. unfold components.
  destruct (render_rooted name parent) as (rest & Hrest & _).
  rewrite Hrest. cbn [startsWith]. change (Ascii.eqb "/" "/") with true. cbn [andb].
  rewrite <- Hrest, (split_render _ Hplain). cbn [List.filter String.eqb negb].
  destruct (segments_resolve (rev (name :: parent))) as [-> ->];
    [now rewrite forallb_rev|].
  now rewrite rev_involutive.
Qed.

Lemma fileOperand_render name parent :
  forallb segment (name :: parent) = true ->
  fileOperand (render (name :: parent)) = At (name :: parent).
Proof.
  intros Hplain. unfold fileOperand, trailingSlash.
  rewrite (components_render _ _ Hplain), (split_render _ Hplain).
  cbn [rev]. rewrite app_comm_cons, last_last.
  cbn [forallb] in Hplain. apply andb_true_iff in Hplain as [Hname _].
  unfold segment in Hname. apply andb_true_iff in Hname as [[Hne _]%andb_true_iff _].
  apply negb_true_iff in Hne. now rewrite Hne.
Qed.

(** The text of a directory: the root is [/]. *)
Lemma directoryOperand_render dir :
  forallb segment dir = true ->
  directoryOperand (match dir with [] => "/" | _ :: _ => render dir end) = At dir.
Proof.
  intros Hplain. destruct dir as [|name parent]; [reflexivity|].
  unfold directoryOperand. now rewrite (components_render _ _ Hplain).
Qed.

Lemma dropName_free name rest :
  free "/" name = true ->
  Daytona.dropName (name +:+ String "/" rest) = String "/" rest.
Proof.
  induction name as [|c name IH]; [reflexivity|]. cbn [free String.append Daytona.dropName].
  unfold Daytona.slash. destruct (Ascii.eqb c "/"); [discriminate|]. cbn [negb andb].
  exact IH.
Qed.

Lemma dropName_none name :
  free "/" name = true -> Daytona.dropName name = "".
Proof.
  induction name as [|c name IH]; [reflexivity|]. cbn [free Daytona.dropName].
  unfold Daytona.slash. destruct (Ascii.eqb c "/"); [discriminate|]. exact IH.
Qed.

Lemma dropSlashes_free name :
  free "/" name = true -> Daytona.dropSlashes name = name.
Proof.
  destruct name as [|c name]; [reflexivity|]. cbn [free Daytona.dropSlashes].
  unfold Daytona.slash. now destruct (Ascii.eqb c "/").
Qed.

Lemma dropSlashes_head name rest :
  name <> "" -> free "/" name = true ->
  Daytona.dropSlashes (name +:+ rest) = name +:+ rest.
Proof.
  destruct name as [|c name]; [congruence|]. intros _.
  cbn [free String.append Daytona.dropSlashes].
  unfold Daytona.slash. now destruct (Ascii.eqb c "/").
Qed.

Lemma rev_nonempty s : s <> "" -> String.rev s <> "".
Proof.
  destruct s as [|c s]; [congruence|]. intros _. rewrite rev_cons.
  now destruct (String.rev s).
Qed.

Lemma segment_facts name :
  segment name = true -> name <> "" /\ free "/" name = true.
Proof.
  unfold segment. intros [[Hne Hfree]%andb_true_iff _]%andb_true_iff.
  split; [|exact Hfree]. intros ->. discriminate.
Qed.

Lemma render_long name parent rest :
  segment name = true -> render (name :: parent) = String "/" rest -> rest <> "".
Proof.
  intros Hname Hrender ->. destruct (segment_facts name Hname) as [Hne _].
  cbn [render] in Hrender. destruct (render parent) as [|c s]; cbn [String.append] in Hrender.
  - injection Hrender as Hn. congruence.
  - injection Hrender as _ Hs. destruct s; discriminate.
Qed.

(** [path.posix.dirname] of a plain path is its parent directory. *)
Lemma dirname_render name parent :
  forallb segment (name :: parent) = true ->
  Daytona.dirname (render (name :: parent))
  = match parent with [] => "/" | _ :: _ => render parent end.
Proof.
  intros Hplain. cbn [forallb] in Hplain. apply andb_true_iff in Hplain as [Hname Hparent].
  destruct (segment_facts name Hname) as [Hne Hfree].
  destruct (render_rooted name parent) as (rest & Hrest & Htail).
  rewrite Hrest. unfold Daytona.dirname. change (Ascii.eqb "/" Daytona.slash) with true.
  destruct parent as [|n q].
  - cbn [render String.append] in Hrest. injection Hrest as <-.
    rewrite dropSlashes_free by now rewrite free_rev.
    rewrite dropName_none by now rewrite free_rev. reflexivity.
  - destruct Htail as (rest' & Hrender & ->); [discriminate|].
    cbn [forallb] in Hparent. apply andb_true_iff in Hparent as [Hn _].
    pose proof (render_long n q rest' Hn Hrender) as Hlong.
    rewrite rev_append, rev_cons, append_assoc. cbn [String.append].
    rewrite dropSlashes_head by (try apply rev_nonempty; now rewrite ?free_rev).
    rewrite dropName_free by now rewrite free_rev.
    rewrite Hrender.
    destruct (String.rev rest') eqn:Hrev.
    + exfalso. revert Hrev. now apply rev_nonempty.
    + rewrite <- Hrev, rev_rev. reflexivity.
Qed.

(** An entry put below [dir] is not on the way to [dir]. *)
Lemma enters_insert (t : Tree) (dir k : Path) (e : Entry) :
  (length dir < length k)%nat -> enters (<[k := e]> t) dir = enters t dir.
Proof.
  induction dir as [|name parent IH]; intros Hlen; cbn [enters].
  - rewrite lookup_insert_ne; [reflexivity|]. intros ->. cbn in Hlen. lia.
  - rewrite lookup_insert_ne by (intros ->; lia).
    rewrite IH by (cbn [length] in Hlen; lia). reflexivity.
Qed.

Lemma enters_entry (t : Tree) (dir : Path) :
  enters t dir = true -> exists writable, t !! dir = Some (Dir true writable).
Proof.
  destruct dir; cbn [enters]; destruct (t !! _) as [[[|] w|]|]; try discriminate; eauto.
Qed.

(** [mkdir -p] of a directory that can be entered changes nothing. *)
Lemma mkdirP_enters (t : Tree) (dir : Path) :
  enters t dir = true -> mkdirP t dir = (t, true).
Proof.
  induction dir as [|name parent IH]; intros Henters.
  - cbn [mkdirP]. apply enters_entry in Henters as [w ->]. reflexivity.
  - destruct (enters_entry _ _ Henters) as [w Hdir].
    cbn [enters] in Henters. rewrite Hdir in Henters.
    cbn [mkdirP]. rewrite (IH Henters). cbn [negb].
    apply enters_entry in Henters as [w' ->]. now rewrite Hdir.
Qed.

(** [mkdir -p dir] touches nothing below [dir]. *)
Lemma mkdirP_outside (t : Tree) (dir k : Path) :
  (length dir < length k)%nat -> fst (mkdirP t dir) !! k = t !! k.
Proof.
  induction dir as [|name parent IH]; intros Hlen; [reflexivity|].
  cbn [mkdirP]. cbn [length] in Hlen.
  specialize (IH ltac:(lia)). destruct (mkdirP t parent) as [t' made]. cbn [fst] in IH.
  destruct made; cbn [negb]; [|exact IH].
  destruct (t' !! parent) as [[[|] [|]|]|]; try exact IH;
    destruct (t' !! (name :: parent)) as [[|]|]; try exact IH.
  cbn [fst]. rewrite lookup_insert_ne
    by (intros H; apply (f_equal (@length _)) in H; cbn [length] in H; lia).
  exact IH.
Qed.

(** Above a vacant place, [mkdir -p] makes the directories that are
    missing: afterwards the directory can be entered and written, and the
    place is still empty. *)
Lemma vacant_mkdirP (t : Tree) (name : string) (parent : Path) :
  vacant t (name :: parent) = true ->
  exists t',
    mkdirP t parent = (t', true) /\
    enters t' parent = true /\
    t' !! parent = Some (Dir true true) /\
    t' !! (name :: parent) = None.
Proof.
  revert name. induction parent as [|n q IH]; intros name Hvacant; cbn [vacant] in Hvacant.
  - destruct (t !! [name]) eqn:Hplace; [discriminate|].
    destruct (t !! []) as [[[|] [|]|]|] eqn:Hroot; try discriminate.
    exists t. rewrite (mkdirP_enters t [] Hvacant). auto.
  - destruct (t !! (name :: n :: q)) eqn:Hplace; [discriminate|].
    destruct (t !! (n :: q)) as [[[|] [|]|]|] eqn:Hdir; try discriminate.
    + exists t. rewrite (mkdirP_enters t (n :: q) Hvacant). auto.
    + assert (Hup : vacant t (n :: q) = true) by (cbn [vacant]; now rewrite Hdir).
      destruct (IH n Hup) as (t1 & Hmake & Henters & Hq & Hnone).
      pose proof (mkdirP_outside t q (name :: n :: q) ltac:(cbn [length]; lia)) as Hout.
      rewrite Hmake in Hout. cbn [fst] in Hout.
      exists (<[n :: q := Dir true true]> t1).
      cbn [mkdirP]. rewrite Hmake. cbn [negb]. rewrite Hq, Hnone.
      split; [reflexivity|]. split; [|split].
      * cbn [enters]. rewrite lookup_insert_eq.
        rewrite enters_insert by (cbn [length]; lia). exact Henters.
      * apply lookup_insert_eq.
      * rewrite lookup_insert_ne by (intros H; apply (f_equal (@length _)) in H; cbn in H; lia).
        now rewrite Hout.
Qed.

(** What [mkdir -p DIR && : > FILE] leaves where a file is accepted: the
    file is there, empty, and can be reached, read and written. *)
Lemma accepts_truncate (t : Tree) (name : string) (parent : Path) :
  accepts t (name :: parent) = true ->
  exists made written,
    mkdirP t parent = (made, true) /\
    store (fun _ => []) made (name :: parent) = Some written /\
    written !! (name :: parent) = Some (File [] true true) /\
    enters written parent = true.
Proof.
  unfold accepts. intros Haccepts.
  destruct (t !! (name :: parent)) as [[|content [|] [|]]|] eqn:Hplace; try discriminate.
  - exists t, (<[name :: parent := File [] true true]> t).
    rewrite (mkdirP_enters t parent Haccepts). unfold store. rewrite Haccepts, Hplace.
    split; [reflexivity|]. split; [reflexivity|]. split; [apply lookup_insert_eq|].
    rewrite enters_insert by (cbn [length]; lia). exact Haccepts.
  - destruct (vacant_mkdirP t name parent Haccepts) as (made & Hmake & Henters & Hdir & Hnone).
    exists made, (<[name :: parent := File [] true true]> made).
    unfold store. rewrite Henters, Hnone, Hdir.
    split; [exact Hmake|]. split; [reflexivity|]. split; [apply lookup_insert_eq|].
    rewrite enters_insert by (cbn [length]; lia). exact Henters.
Qed.

End FsFacts.

Section DaytonaFacts.
Import JsString Js Base64 Shell Daytona Scenarios.

(** Symbolic execution of the CLI's script code on an abstract world. *)
Ltac dx :=
  repeat (progress
            (cbv beta iota zeta delta
                 [tryCatch bind ret throw exit get modify when consoleLog
                  readFile writeFile create delete call print setExitCode
                  setLocalFiles setSandboxFiles];
             cbn [localFiles writeError sandboxFiles calls console processExitCode
                  fst snd negb local remote])).

Lemma length_dropFirst i s : String.length (dropFirst i s) = (String.length s - i)%nat.
Proof.
  revert s. induction i as [|i IH]; intros s; [simpl; lia|].
  destruct s as [|c s]; [reflexivity|]. cbn [dropFirst String.length]. now rewrite IH.
Qed.

Lemma dropFirst_add i k s : dropFirst (i + k) s = dropFirst k (dropFirst i s).
Proof.
  revert s. induction i as [|i IH]; intros s; [reflexivity|].
  destruct s as [|c s]; cbn [Nat.add dropFirst]; [now rewrite dropFirst_nil | apply IH].
Qed.

Lemma length_zero s : String.length s = 0%nat -> s = "".
Proof. now destruct s. Qed.

Lemma CHUNK_SIZE_digits : CHUNK_SIZE = (N.to_nat 15000 * 4)%nat.
Proof. unfold CHUNK_SIZE. lia. Qed.

Lemma code_respond_ok pv text : code (respond pv (ok text)) = 0%Z.
Proof. unfold respond. now destruct (snakeCase pv). Qed.

Lemma data_respond_ok pv text :
  orElse (result (respond pv (ok text))) (orElse (stdout (respond pv (ok text))) "")
  = text.
Proof. unfold respond. destruct (snakeCase pv); destruct text; reflexivity. Qed.

(** The loop of [pushFile]: when what is left of the text encodes [rest]
    and the remote file holds [done] and can be reached and written, the
    loop ends normally with [done ++ rest] in the remote file. *)
Lemma pushChunks_ok pv (pair : Pair) (name : string) (parent : Fs.Path) (b64 : string) :
  Fs.fileOperand (remote pair) = Fs.At (name :: parent) ->
  forall fuel i (rest done : list Byte.byte) (w : World),
    dropFirst i b64 = encode rest ->
    (String.length (dropFirst i b64) <= fuel)%nat ->
    sandboxFiles w !! (name :: parent) = Some (Fs.File done true true) ->
    Fs.enters (sandboxFiles w) parent = true ->
    exists w',
      pushChunks pv pair (escapeSingleQuotes (remote pair)) b64 fuel i w = (Ret tt, w') /\
      sandboxFiles w' !! (name :: parent) = Some (Fs.File (done ++ rest) true true) /\
      Fs.enters (sandboxFiles w') parent = true /\
      (localFiles w' = localFiles w /\ writeError w' = writeError w).
Proof.
  intros Hoperand.
  induction fuel as [|fuel IH]; intros i rest done w Hrest Hfuel Hfile Henters.
  - assert (Hnil : dropFirst i b64 = "") by (apply length_zero; lia).
    rewrite Hnil in Hrest. symmetry in Hrest. apply encode_nil_inv in Hrest as ->.
    rewrite length_dropFirst in Hfuel.
    exists w. cbn [pushChunks].
    replace (i <? String.length b64)%nat with false
      by (symmetry; apply Nat.ltb_ge; lia).
    rewrite app_nil_r. auto.
  - cbn [pushChunks]. destruct (i <? String.length b64)%nat eqn:Hlt.
    + apply Nat.ltb_lt in Hlt.
      set (block := firstn (N.to_nat 15000 * 3) rest).
      assert (Hslice : slice b64 i (i + CHUNK_SIZE) = encode block).
      { unfold slice. replace (i + CHUNK_SIZE - i)%nat with CHUNK_SIZE by lia.
        rewrite Hrest, CHUNK_SIZE_digits. apply takeFirst_encode. }
      rewrite Hslice.
      assert (Hnext : dropFirst (i + CHUNK_SIZE) b64
                      = encode (skipn (N.to_nat 15000 * 3) rest)).
      { rewrite dropFirst_add, Hrest, CHUNK_SIZE_digits. apply dropFirst_encode. }
      unfold bind at 1. unfold codeRun, exec.
      rewrite parse_append, Hoperand, decodeStrict_chunk.
      unfold Fs.store. rewrite Henters, Hfile.
      rewrite code_respond_ok. cbn [Z.eqb negb].
      set (w1 := call _ _).
      destruct (IH (i + CHUNK_SIZE)%nat (skipn (N.to_nat 15000 * 3) rest)
                   (done ++ block) w1 Hnext) as (w' & Hrun & Hfiles & Hreach & Hlocal).
      * rewrite length_dropFirst in *. rewrite CHUNK_SIZE_digits. lia.
      * subst w1. cbn [sandboxFiles call setSandboxFiles]. apply lookup_insert_eq.
      * subst w1. cbn [sandboxFiles call setSandboxFiles].
        rewrite enters_insert by (cbn [length]; lia). exact Henters.
      * exists w'. split; [exact Hrun|]. split; [|split; [exact Hreach | exact Hlocal]].
        rewrite Hfiles. do 2 f_equal. rewrite <- app_assoc. f_equal.
        apply firstn_skipn.
    + apply Nat.ltb_ge in Hlt.
      assert (Hnil : dropFirst i b64 = "")
        by (apply length_zero; rewrite length_dropFirst; lia).
      rewrite Hnil in Hrest. symmetry in Hrest. apply encode_nil_inv in Hrest as ->.
      exists w. rewrite app_nil_r. auto.
Qed.

(** [pushFile] makes the directory of the remote path, empties the remote
    file and leaves the content of the local file in it. *)
Lemma pushFile_ok pv (source name : string) (parent : Fs.Path)
      (content : list Byte.byte) (w : World) :
  forallb Fs.segment (name :: parent) = true ->
  Fs.accepts (sandboxFiles w) (name :: parent) = true ->
  localFiles w !! source = Some content ->
  exists w',
    pushFile pv {| local := source; remote := Fs.render (name :: parent) |} w
      = (Ret tt, w') /\
    sandboxFiles w' !! (name :: parent) = Some (Fs.File content true true) /\
    Fs.enters (sandboxFiles w') parent = true /\
    (localFiles w' = localFiles w /\ writeError w' = writeError w).
Proof.
  intros Hplain Haccepts Hlocal. unfold pushFile. dx. rewrite Hlocal. dx.
  unfold codeRun, exec. rewrite parse_truncate, (dirname_render _ _ Hplain).
  assert (Hparent : forallb Fs.segment parent = true)
    by (cbn [forallb] in Hplain; now apply andb_true_iff in Hplain).
  rewrite (directoryOperand_render parent Hparent), (fileOperand_render _ _ Hplain).
  destruct (accepts_truncate _ _ _ Haccepts) as (made & written & -> & -> & Hfile & Henters).
  set (w1 := call _ _).
  destruct (pushChunks_ok pv {| local := source; remote := Fs.render (name :: parent) |}
              name parent (encode content) (fileOperand_render _ _ Hplain)
              (String.length (encode content)) 0%nat content [] w1)
    as (w' & Hrun & Hfiles & Hreach & Hsame).
  - reflexivity.
  - cbn [dropFirst]. lia.
  - subst w1. cbn [sandboxFiles call setSandboxFiles]. exact Hfile.
  - subst w1. cbn [sandboxFiles call setSandboxFiles]. exact Henters.
  - cbn [remote local] in Hrun. rewrite Hrun. dx. eexists. split; [reflexivity|].
    cbn [sandboxFiles localFiles writeError]. auto.
Qed.

(** [pullFile] writes the content of a remote file that can be reached
    and read to the local path. *)
Lemma pullFile_ok pv (pair : Pair) (name : string) (parent : Fs.Path)
      (content : list Byte.byte) (writable : bool) (w : World) :
  Fs.fileOperand (remote pair) = Fs.At (name :: parent) ->
  sandboxFiles w !! (name :: parent) = Some (Fs.File content true writable) ->
  Fs.enters (sandboxFiles w) parent = true ->
  writeError w (local pair) = None ->
  exists w',
    pullFile pv pair w = (Ret tt, w') /\
    localFiles w' = <[local pair := content]> (localFiles w).
Proof.
  intros Hoperand Hremote Henters Hwrite. unfold pullFile. dx.
  unfold codeRun, exec. rewrite parse_encode, Hoperand.
  unfold Fs.read. rewrite Henters, Hremote.
  rewrite code_respond_ok. cbn [Z.eqb negb].
  rewrite data_respond_ok, decodeLenient_output. dx. rewrite Hwrite. dx.
  eexists. split; reflexivity.
Qed.

(** The text of a file of [n] bytes has [4 * ceil(n / 3)] digits: 45000
    bytes fill exactly one chunk, one byte more starts a second chunk. *)
Lemma length_encode bs :
  String.length (encode bs) = (4 * ((length bs + 2) / 3))%nat.
Proof.
  induction bs as [|a|a b|a b c l IH] using list_ind3;
    cbn [encode String.length length]; try reflexivity.
  rewrite IH. lia.
Qed.

Lemma chunk_boundary (bs : list Byte.byte) :
  (length bs = N.to_nat 45000 -> String.length (encode bs) = CHUNK_SIZE) /\
  (length bs = S (N.to_nat 45000) -> String.length (encode bs) = (CHUNK_SIZE + 4)%nat).
Proof.
  rewrite length_encode. unfold CHUNK_SIZE. split; intros ->; lia.
Qed.

(** On a remote path that names a directory the transfer cannot take
    place: [pushFile] throws as soon as a chunk is sent, and nothing is
    pulled back. *)
Lemma push_onto_directory_fails :
  let pair := {| local := "test/payload.txt"; remote := "/tmp" |} in
  exists detail,
    fst (pushFile someProvider pair exampleWorld)
      = Thrown ("Failed to push test/payload.txt: " +:+ detail) /\
    sandboxFiles (snd (pushFile someProvider pair exampleWorld)) = sandboxTree.
Proof. eexists. vm_compute. split; reflexivity. Qed.

(** C4. Pushing a local file to a remote path through the chunked base64
    protocol and pulling that path back yields the same bytes: both steps
    end normally and the pulled file holds exactly the content of the
    pushed one. The statement is for every content, whatever its size
    (empty, one byte, one chunk of [CHUNK_SIZE] digits, one more) and for
    both response styles of the provider. The remote path is an absolute
    path of plain components at which the sandbox accepts a file: the
    place is vacant below a directory that exists or can be made, or it
    holds a regular file the user can read and write. The local path
    pulled to is one at which the host can write a file. *)
Theorem push_then_pull_is_identity
        (pv : Provider) (w : World) (source target name : string)
        (parent : Fs.Path) (content : list Byte.byte) :
  localFiles w !! source = Some content ->
  forallb Fs.segment (name :: parent) = true ->
  Fs.accepts (sandboxFiles w) (name :: parent) = true ->
  writeError w target = None ->
  let path := Fs.render (name :: parent) in
  let pushed := pushFile pv {| local := source; remote := path |} w in
  let pulled := pullFile pv {| local := target; remote := path |} (snd pushed) in
  fst pushed = Ret tt /\
  fst pulled = Ret tt /\
  localFiles (snd pulled) !! target = Some content.
Proof.
  intros Hsource Hplain Haccepts Hwrite.
  destruct (pushFile_ok pv source name parent content w Hplain Haccepts Hsource)
    as (w1 & Hpush & Hremote & Henters & _ & Hkept).
  destruct (pullFile_ok pv {| local := target; remote := Fs.render (name :: parent) |}
              name parent content true w1 (fileOperand_render _ _ Hplain) Hremote Henters)
    as (w2 & Hpull & Hlocal).
  { cbn [local]. now rewrite Hkept. }
  cbv zeta. rewrite Hpush. cbn [fst snd]. rewrite Hpull. cbn [fst snd].
  repeat split. rewrite Hlocal. apply lookup_insert_eq.
Qed.

Lemma push_then_pull_is_identity_witness :
  Fs.render ["payload.txt"; "daytona-cli"; "tmp"] = "/tmp/daytona-cli/payload.txt" /\
  sandboxFiles exampleWorld !! ["daytona-cli"; "tmp"] = None /\
  localFiles (snd (pullFile someProvider pullPayload
                     (snd (pushFile someProvider pushPayload exampleWorld))))
    !! "test/payload.out" = Some payload.
Proof.
  split; [reflexivity|]. split; [reflexivity|].
  apply (push_then_pull_is_identity someProvider exampleWorld
           "test/payload.txt" "test/payload.out" "payload.txt" ["daytona-cli"; "tmp"]
           payload); reflexivity.
Defined.

(** On a local path that names a directory nothing is written: [pullFile]
    throws after its command and the local files are as before. *)
Lemma pull_onto_directory_fails :
  let pushed := pushFile someProvider pushPayload exampleWorld in
  let pulled := pullFile someProvider
                  {| local := "test"; remote := "/tmp/daytona-cli/payload.txt" |}
                  (snd pushed) in
  fst pulled = Thrown "EISDIR: illegal operation on a directory, open 'test'" /\
  localFiles (snd pulled) = localFiles exampleWorld.
Proof. vm_compute. split; reflexivity. Qed.

(** C3, evaluated on the code. With [--keep] unset, [main] deletes the
    sandbox when every step succeeds, but a failing push, a failing command
    and a failing pull each end the run without any [delete] call: the
    sandbox was created and is left behind, and the exit code is 1. *)
Theorem sandbox_left_behind_on_failure :
  let calls_of opts := calls (snd (main someProvider opts exampleWorld)) in
  let exit_of opts := processExitCode (snd (main someProvider opts exampleWorld)) in
  List.filter isDelete (calls_of exampleOptions) = [Delete] /\
  (List.filter isCreate (calls_of failingPush) = [Create "typescript"] /\
   List.filter isDelete (calls_of failingPush) = [] /\ exit_of failingPush = 1%Z) /\
  (List.filter isCreate (calls_of failingCommand) = [Create "typescript"] /\
   List.filter isDelete (calls_of failingCommand) = [] /\ exit_of failingCommand = 1%Z) /\
  (List.filter isCreate (calls_of failingPull) = [Create "typescript"] /\
   List.filter isDelete (calls_of failingPull) = [] /\ exit_of failingPull = 1%Z).
Proof. vm_compute. repeat split; reflexivity. Qed.

(** The runner script of the extension, by contrast, deletes the sandbox
    when the agent command fails: the context file is uploaded, the
    command exits with code 2, [delete] is called, the record is rewritten
    to "failed" and the process exits with that code. *)
Lemma runner_deletes_after_failed_agent :
  let r := RemoteRunner.main timedOutHost agentFails remoteScript remoteWorld in
  fst r = Exited 2 /\
  sandboxFiles (RemoteRunner.sandbox (snd r)) !! ["payload.txt"; "context"; "daytona"; "home"]
    = Some (Fs.File payload true true) /\
  List.filter isDelete (calls (RemoteRunner.sandbox (snd r))) = [Delete] /\
  Ledger.statusIn "1700000000000" (Ledger.tasksFile (RemoteRunner.ledger (snd r)))
    = Some (Ledger.JStr "failed").
Proof. vm_compute. repeat split; reflexivity. Qed.

End DaytonaFacts.

Section DaytonaOutcomes.
Import JsString Js Base64 Shell Daytona Protocol Scenarios.

(** Symbolic execution, as in the section above. *)
Ltac dx :=
  repeat (progress
            (cbv beta iota zeta delta
                 [tryCatch bind ret throw exit get modify when consoleLog
                  readFile writeFile create delete call print setExitCode
                  setLocalFiles setSandboxFiles];
             cbn [localFiles writeError sandboxFiles calls console processExitCode
                  fst snd negb local remote])).

(** X18. Without an API key (neither [--api-key] nor [DAYTONA_API_KEY])
    [main] makes no call to the provider at all: no sandbox is created,
    the message is printed and the exit code is set to 1. *)
Theorem missing_api_key_creates_no_sandbox (pv : Provider) (opts : Options) (w : World) :
  truthy (orEmpty (apiKey opts)) = false ->
  main pv opts w =
    (Ret tt, setExitCode 1 (print "DAYTONA_API_KEY is required (or --api-key)" w)).
Proof. intros Hkey. unfold main. rewrite Hkey. reflexivity. Qed.

Lemma missing_api_key_creates_no_sandbox_witness :
  calls (snd (main someProvider
                {| apiKey := None; language := None; remoteDir := DEFAULT_REMOTE_DIR;
                   push := [pushPayload]; pull := []; cmd := Some "ls"; keep := false |}
                exampleWorld)) = [].
Proof.
  rewrite (missing_api_key_creates_no_sandbox someProvider
             {| apiKey := None; language := None; remoteDir := DEFAULT_REMOTE_DIR;
                push := [pushPayload]; pull := []; cmd := Some "ls"; keep := false |}
             exampleWorld eq_refl).
  reflexivity.
Defined.

(** X19. [pushFile] of a local file that does not exist throws the read
    error before anything is sent: the sandbox receives no command and no
    remote file is created or truncated. *)
Theorem push_of_missing_file_sends_nothing (pv : Provider) (pair : Pair) (w : World) :
  localFiles w !! local pair = None ->
  pushFile pv pair w =
    (Thrown ("ENOENT: no such file or directory, open '" +:+ local pair +:+ "'"), w).
Proof. intros Hlocal. unfold pushFile. dx. rewrite Hlocal. reflexivity. Qed.

Lemma push_of_missing_file_sends_nothing_witness :
  snd (pushFile someProvider
         {| local := "test/missing.txt"; remote := "/tmp/daytona-cli/missing.txt" |}
         exampleWorld) = exampleWorld.
Proof.
  rewrite (push_of_missing_file_sends_nothing someProvider
             {| local := "test/missing.txt"; remote := "/tmp/daytona-cli/missing.txt" |}
             exampleWorld eq_refl).
  reflexivity.
Defined.

(** X20. [pullFile] of a remote path at which no readable regular file
    is (nothing there, a directory, or a file the user may not read)
    throws [Failed to pull <remote>: ...] after its one command; no local
    file is written or replaced, and the sandbox is as before. *)
Theorem pull_of_missing_file_writes_nothing
        (pv : Provider) (pair : Pair) (file : Fs.Path) (w : World) :
  Fs.fileOperand (remote pair) = Fs.At file ->
  Fs.read (sandboxFiles w) file = None ->
  exists detail,
    pullFile pv pair w =
      (Thrown ("Failed to pull " +:+ remote pair +:+ ": " +:+ detail),
       call (CodeRun ("base64 '" +:+ escapeSingleQuotes (remote pair) +:+ "'")) w).
Proof.
  intros Hoperand Hremote. unfold pullFile. dx.
  unfold codeRun, exec. rewrite parse_encode, Hoperand, Hremote.
  exists ("base64: " +:+ remote pair +:+ ": No such file or directory").
  unfold respond. destruct (snakeCase pv); cbn; destruct w; reflexivity.
Qed.

Lemma pull_of_missing_file_writes_nothing_witness :
  localFiles (snd (pullFile someProvider
                     {| local := "absent.txt"; remote := "/tmp/daytona-cli/absent.txt" |}
                     exampleWorld))
  = localFiles exampleWorld.
Proof.
  destruct (pull_of_missing_file_writes_nothing someProvider
              {| local := "absent.txt"; remote := "/tmp/daytona-cli/absent.txt" |}
              ["absent.txt"; "daytona-cli"; "tmp"] exampleWorld eq_refl eq_refl)
    as [detail ->].
  reflexivity.
Defined.

Lemma onlyRuns_still {A} (m : M World A) :
  (forall w, calls (snd (m w)) = calls w) -> onlyRuns m.
Proof. intros H w. exists []. rewrite H. cbn. now rewrite app_nil_r. Qed.

Lemma onlyRuns_bind {A B} (m : M World A) (k : A -> M World B) :
  onlyRuns m -> (forall a, onlyRuns (k a)) -> onlyRuns (bind m k).
Proof.
  intros Hm Hk w. unfold bind. destruct (Hm w) as [r1 H1].
  destruct (m w) as [[a|e|c] w1]; cbn [snd] in *; try (now exists r1).
  destruct (Hk a w1) as [r2 H2]. exists (r1 ++ r2).
  now rewrite H2, H1, map_app, app_assoc.
Qed.

Lemma onlyRuns_codeRun pv text : onlyRuns (codeRun pv text).
Proof.
  intros w. exists [text]. unfold codeRun.
  destruct (exec (other pv) text (sandboxFiles w)). reflexivity.
Qed.

Lemma onlyRuns_forEach {A} (xs : list A) (body : A -> M World unit) :
  (forall x, onlyRuns (body x)) -> onlyRuns (forEach xs body).
Proof.
  intros Hbody. induction xs as [|x xs IH]; cbn [forEach].
  - now apply onlyRuns_still.
  - apply onlyRuns_bind; auto.
Qed.

Lemma onlyRuns_pushChunks pv pair remoteEsc b64 fuel i :
  onlyRuns (pushChunks pv pair remoteEsc b64 fuel i).
Proof.
  revert i. induction fuel as [|fuel IH]; intros i; cbn [pushChunks];
    destruct (i <? String.length b64)%nat; try (now apply onlyRuns_still).
  apply onlyRuns_bind; [apply onlyRuns_codeRun|]. intros res.
  destruct (negb (code res =? 0)%Z); [now apply onlyRuns_still | apply IH].
Qed.

Lemma onlyRuns_pushFile pv pair : onlyRuns (pushFile pv pair).
Proof.
  unfold pushFile. apply onlyRuns_bind.
  - apply onlyRuns_still. intros w. unfold readFile, bind, get.
    now destruct (localFiles w !! local pair).
  - intros buffer. apply onlyRuns_bind; [apply onlyRuns_codeRun|]. intros _.
    apply onlyRuns_bind; [apply onlyRuns_pushChunks|]. intros _.
    now apply onlyRuns_still.
Qed.

Lemma onlyRuns_pullFile pv pair : onlyRuns (pullFile pv pair).
Proof.
  unfold pullFile. apply onlyRuns_bind; [apply onlyRuns_codeRun|]. intros res.
  destruct (negb (code res =? 0)%Z); apply onlyRuns_still; intros w; [reflexivity|].
  cbv [bind writeFile get throw modify consoleLog].
  destruct (writeError w (local pair)); reflexivity.
Qed.

Lemma onlyRuns_runCommand pv text : onlyRuns (runCommand pv text).
Proof.
  unfold runCommand. apply onlyRuns_bind; [apply onlyRuns_codeRun|]. intros res.
  apply onlyRuns_bind; [now apply onlyRuns_still|]. intros _.
  apply onlyRuns_bind;
    [destruct (truthy (orEmpty (stdout res))); now apply onlyRuns_still|]. intros _.
  apply onlyRuns_bind;
    [destruct (truthy (orEmpty (result res)) && negb (truthy (orEmpty (stdout res))));
     now apply onlyRuns_still|]. intros _.
  destruct (negb (code res =? 0)%Z); now apply onlyRuns_still.
Qed.

Lemma closes_bind {A B} keep (m : M World A) (k : A -> M World B) :
  onlyRuns m -> (forall a, closes keep (k a)) -> closes keep (bind m k).
Proof.
  intros Hm Hk w. unfold bind. destruct (Hm w) as [r1 H1].
  destruct (m w) as [[a|e|c] w1]; cbn [snd] in *.
  - destruct (Hk a w1) as (r2 & closing & H2 & Hclosing). exists (r1 ++ r2), closing.
    split; [|exact Hclosing]. now rewrite H2, H1, map_app, <- !app_assoc.
  - exists r1, []. rewrite app_nil_r. auto.
  - exists r1, []. rewrite app_nil_r. auto.
Qed.

(** X21. Whatever the options, the files and the provider do, [main]
    talks to the provider in one order: a [create] call first, made
    exactly when an API key is present; then only commands; then at most
    one [delete] call, which is the last call. With [--keep] no [delete]
    call is ever made. *)
Theorem api_calls_follow_protocol (pv : Provider) (opts : Options) (w : World) :
  exists runs closing,
    calls (snd (main pv opts w)) =
      calls w ++
      (if truthy (orEmpty (apiKey opts))
       then [Create (orElse (language opts) "typescript")] else []) ++
      map CodeRun runs ++ closing /\
    (closing = [] \/ closing = [Delete] /\ keep opts = false).
Proof.
  unfold main.
  destruct (truthy (orEmpty (apiKey opts))); cbn [negb].
  2:{ exists [], []. cbn. rewrite app_nil_r. auto. }
  set (rest := bind (consoleLog _) _).
  assert (Hrest : closes (keep opts) rest).
  { subst rest. apply closes_bind; [now apply onlyRuns_still|]. intros _.
    apply closes_bind; [apply onlyRuns_forEach; intros x; apply onlyRuns_pushFile|]. intros _.
    apply closes_bind.
    { destruct (truthy (orEmpty (cmd opts)));
        [apply onlyRuns_runCommand | now apply onlyRuns_still]. }
    intros _.
    apply closes_bind; [apply onlyRuns_forEach; intros x; apply onlyRuns_pullFile|]. intros _.
    intros w1. destruct (keep opts) eqn:Hkeep; cbn [negb].
    - exists [], []. cbn. rewrite app_nil_r. auto.
    - exists [], [Delete]. split; [|auto]. dx. now destruct (deleteOk pv). }
  unfold tryCatch, bind at 1, create. dx.
  destruct (createOk pv).
  - destruct (Hrest (call (Create (orElse (language opts) "typescript")) w))
      as (runs & closing & Hcalls & Hclosing).
    exists runs, closing. split; [|exact Hclosing].
    destruct (rest _) as [[[]|e|c] w1]; cbn [snd] in *; dx;
      rewrite Hcalls; cbn [calls call]; now rewrite <- !app_assoc.
  - exists [], []. cbn. auto.
Qed.

End DaytonaOutcomes.

Section RemoteRunnerOutcomes.
Import JsString Js Scenarios.

(** Symbolic execution of the remote runner on an abstract world. *)
Ltac rx :=
  repeat (progress
            (cbv beta iota zeta delta
                 [tryCatch bind ret throw exit get modify when
                  RemoteRunner.onLedger RemoteRunner.onSandbox RemoteRunner.log
                  RemoteRunner.executeCommand
                  Ledger.log Ledger.effect Ledger.record Ledger.DateNow Ledger.tick
                  Ledger.writeTasks Ledger.parseTasks Ledger.setTasks
                  Daytona.create Daytona.delete Daytona.call Daytona.codeRun
                  Daytona.setSandboxFiles Shell.exec];
             cbn [RemoteRunner.ledger RemoteRunner.sandbox
                  Ledger.tasksFile Ledger.effects Ledger.reads Ledger.workspace
                  Ledger.tools Ledger.workingDirectoryExists
                  Daytona.localFiles Daytona.writeError Daytona.sandboxFiles Daytona.calls
                  Daytona.console Daytona.processExitCode
                  fst snd negb forEach length Nat.ltb Nat.leb])).

(** The command line of the agent is not a command of the transfer
    protocol. *)
Lemma parse_agent_command key model prompt :
  Shell.parse
    ((if truthy key
      then "export OPENROUTER_API_KEY='" +:+ RemoteRunner.escapeForShell key +:+ "' && "
      else "") +:+
     "opencode run --model '" +:+ RemoteRunner.escapeForShell model +:+ "' '" +:+
     RemoteRunner.escapeForShell prompt +:+ "' --print-logs 2>&1")
  = Shell.Other.
Proof. destruct (truthy key); reflexivity. Qed.

(** X22. The remote runner without context files, on a provider that
    creates the sandbox: whatever the installation and the agent command
    return, the sandbox is deleted, as the last of exactly four calls. The
    process exits with the exit code of the agent command and the record
    is rewritten to "completed" or "failed" after it; but when the delete
    call fails, the job is recorded as "failed" and the process exits with
    code 1, even if the agent command succeeded. *)
Theorem remote_runner_deletes_its_sandbox
        (h : Ledger.Host) (pv : Daytona.Provider) (s : RemoteRunner.Script)
        (w : RemoteRunner.World) (items : list Ledger.json) (i : nat) :
  Daytona.createOk pv = true ->
  RemoteRunner.fileContents s = [] ->
  Ledger.tasksFile (RemoteRunner.ledger w) = Some (Ledger.Json (Ledger.JArr items)) ->
  Ledger.findIndexFrom 0 (RemoteRunner.taskId s) items = Some (Some i) ->
  let command :=
    (if truthy (RemoteRunner.openRouterApiKey s)
     then "export OPENROUTER_API_KEY='" +:+
          RemoteRunner.escapeForShell (RemoteRunner.openRouterApiKey s) +:+ "' && "
     else "") +:+
    "opencode run --model '" +:+ RemoteRunner.escapeForShell (RemoteRunner.model s) +:+
    "' '" +:+ RemoteRunner.escapeForShell (RemoteRunner.promptText s) +:+
    "' --print-logs 2>&1" in
  let c := Daytona.code (Daytona.respond pv (Daytona.other pv command)) in
  let r := RemoteRunner.main h pv s w in
  Daytona.calls (RemoteRunner.sandbox (snd r)) =
    Daytona.calls (RemoteRunner.sandbox w) ++
    [ Daytona.Create "typescript";
      Daytona.CodeRun "npm install -g opencode-ai 2>&1";
      Daytona.CodeRun command;
      Daytona.Delete ] /\
  fst r = Exited (if Daytona.deleteOk pv then c else 1%Z) /\
  Ledger.statusIn (RemoteRunner.taskId s) (Ledger.tasksFile (RemoteRunner.ledger (snd r)))
    = Some (Ledger.JStr (if Daytona.deleteOk pv && (c =? 0)%Z
                         then "completed" else "failed")).
Proof.
  intros Hcreate Hfiles Hfile Hfind command c.
  unfold RemoteRunner.main. rewrite Hfiles. rx. rewrite Hcreate. rx.
  change (Shell.parse "npm install -g opencode-ai 2>&1") with Shell.Other. rx.
  rewrite parse_agent_command. rx. fold command. fold c.
  destruct (Daytona.deleteOk pv); rx;
    unfold Ledger.updateTask; rx; rewrite Hfile; rx;
    unfold Ledger.findIndex; rewrite Hfind; rx.
  - rewrite <- !app_assoc. split; [reflexivity|]. split; [reflexivity|].
    cbn [andb]. unfold Ledger.statusOf.
    destruct (c =? 0)%Z; now apply statusIn_mutateAt.
  - rewrite <- !app_assoc. split; [reflexivity|]. split; [reflexivity|].
    now apply statusIn_mutateAt.
Qed.

Lemma remote_runner_deletes_its_sandbox_witness :
  let s := {| RemoteRunner.taskId := "1700000000000";
              RemoteRunner.model := "openrouter/anthropic/claude-3.5-haiku";
              RemoteRunner.fileContents := [];
              RemoteRunner.openRouterApiKey := "sk-or-key";
              RemoteRunner.promptText := "what's new?" |} in
  fst (RemoteRunner.main timedOutHost agentFails s remoteWorld) = Exited 2 /\
  Ledger.statusIn "1700000000000"
    (Ledger.tasksFile
       (RemoteRunner.ledger (snd (RemoteRunner.main timedOutHost agentFails s remoteWorld))))
    = Some (Ledger.JStr "failed").
Proof.
  cbv zeta.
  destruct (remote_runner_deletes_its_sandbox timedOutHost agentFails
              {| RemoteRunner.taskId := "1700000000000";
                 RemoteRunner.model := "openrouter/anthropic/claude-3.5-haiku";
                 RemoteRunner.fileContents := [];
                 RemoteRunner.openRouterApiKey := "sk-or-key";
                 RemoteRunner.promptText := "what's new?" |}
              remoteWorld
              [Ledger.newTask "1700000000000" "write a fizzbuzz script" 1700000000001
                 "/work/.agentic-logs/1700000000000.log"] 0%nat
              eq_refl eq_refl eq_refl eq_refl) as (_ & Hexit & Hstatus).
  split; [exact Hexit | exact Hstatus].
Defined.

(** X23. When the provider fails to create the sandbox, the remote runner
    sends no command and makes no delete call; the record is rewritten to
    "failed" and the process exits with code 1. *)
Theorem remote_runner_without_sandbox_fails
        (h : Ledger.Host) (pv : Daytona.Provider) (s : RemoteRunner.Script)
        (w : RemoteRunner.World) (items : list Ledger.json) (i : nat) :
  Daytona.createOk pv = false ->
  Ledger.tasksFile (RemoteRunner.ledger w) = Some (Ledger.Json (Ledger.JArr items)) ->
  Ledger.findIndexFrom 0 (RemoteRunner.taskId s) items = Some (Some i) ->
  let r := RemoteRunner.main h pv s w in
  Daytona.calls (RemoteRunner.sandbox (snd r)) =
    Daytona.calls (RemoteRunner.sandbox w) ++ [Daytona.Create "typescript"] /\
  fst r = Exited 1 /\
  Ledger.statusIn (RemoteRunner.taskId s) (Ledger.tasksFile (RemoteRunner.ledger (snd r)))
    = Some (Ledger.JStr "failed").
Proof.
  intros Hcreate Hfile Hfind.
  unfold RemoteRunner.main. rx. rewrite Hcreate. rx.
  unfold Ledger.updateTask. rx. rewrite Hfile. rx.
  unfold Ledger.findIndex. rewrite Hfind. rx.
  split; [reflexivity|]. split; [reflexivity|]. now apply statusIn_mutateAt.
Qed.

Lemma remote_runner_without_sandbox_fails_witness :
  let pv := {| Daytona.createOk := false; Daytona.sandboxId := None;
               Daytona.deleteOk := true; Daytona.snakeCase := false;
               Daytona.other := fun _ => Shell.ok "" |} in
  fst (RemoteRunner.main timedOutHost pv remoteScript remoteWorld) = Exited 1.
Proof.
  cbv zeta.
  destruct (remote_runner_without_sandbox_fails timedOutHost
              {| Daytona.createOk := false; Daytona.sandboxId := None;
                 Daytona.deleteOk := true; Daytona.snakeCase := false;
                 Daytona.other := fun _ => Shell.ok "" |}
              remoteScript remoteWorld
              [Ledger.newTask "1700000000000" "write a fizzbuzz script" 1700000000001
                 "/work/.agentic-logs/1700000000000.log"] 0%nat
              eq_refl eq_refl eq_refl) as (_ & Hexit & _).
  exact Hexit.
Defined.

(** The chunk loop of [uploadFile] sends what the chunk loop of
    [pushFile] sends; the two differ in the error they throw. *)
Lemma uploadChunks_as_pushChunks pv (pair : Daytona.Pair) escaped b64 :
  forall fuel i (l : Ledger.World) (d d' : Daytona.World),
    Daytona.pushChunks pv pair escaped b64 fuel i d = (Ret tt, d') ->
    RemoteRunner.uploadChunks pv escaped b64 fuel i
      {| RemoteRunner.ledger := l; RemoteRunner.sandbox := d |}
    = (Ret tt, {| RemoteRunner.ledger := l; RemoteRunner.sandbox := d' |}).
Proof.
  induction fuel as [|fuel IH]; intros i l d d';
    cbn [Daytona.pushChunks RemoteRunner.uploadChunks];
    change RemoteRunner.CHUNK_SIZE with Daytona.CHUNK_SIZE;
    destruct (i <? String.length b64)%nat; try discriminate;
    try (intros [= <-]; reflexivity).
  intros Hpush. unfold bind in Hpush |- *.
  unfold RemoteRunner.executeCommand, RemoteRunner.onSandbox.
  cbn [RemoteRunner.sandbox RemoteRunner.ledger].
  destruct (Daytona.codeRun pv _ d) as [[res|e|c] d1]; try discriminate.
  destruct (negb (Daytona.code res =? 0)%Z); [discriminate|]. now apply IH.
Qed.

Lemma parentOf_render name parent :
  forallb Fs.segment (name :: parent) = true ->
  RemoteRunner.parentOf (Fs.render (name :: parent)) = Fs.render parent.
Proof.
  intros Hplain. cbn [forallb] in Hplain. apply andb_true_iff in Hplain as [Hname _].
  destruct (segment_facts name Hname) as [_ Hfree].
  unfold RemoteRunner.parentOf. cbn [Fs.render].
  rewrite rev_append, rev_cons, append_assoc. cbn [String.append].
  rewrite dropName_free by now rewrite free_rev.
  apply rev_rev.
Qed.

(** X24. [uploadFile] of the remote runner leaves the decoded content of
    its base64 argument in the remote file, whatever the size of the
    content: for a remote path of plain components below a directory (not
    directly below the root) at which the sandbox accepts a file. The
    ledger side of the runner is not touched. *)
Theorem uploadFile_stores_content
        (pv : Daytona.Provider) (name dir : string) (above : Fs.Path)
        (content : list Byte.byte) (w : RemoteRunner.World) :
  forallb Fs.segment (name :: dir :: above) = true ->
  Fs.accepts (Daytona.sandboxFiles (RemoteRunner.sandbox w)) (name :: dir :: above) = true ->
  exists w',
    RemoteRunner.uploadFile pv (Fs.render (name :: dir :: above)) (Base64.encode content) w
      = (Ret tt, w') /\
    Daytona.sandboxFiles (RemoteRunner.sandbox w') !! (name :: dir :: above)
      = Some (Fs.File content true true) /\
    RemoteRunner.ledger w' = RemoteRunner.ledger w.
Proof.
  intros Hplain Haccepts.
  assert (Hparent : forallb Fs.segment (dir :: above) = true)
    by (cbn [forallb] in Hplain; now apply andb_true_iff in Hplain).
  unfold RemoteRunner.uploadFile. rx.
  rewrite parse_truncate, (parentOf_render _ _ Hplain).
  rewrite (directoryOperand_render (dir :: above) Hparent), (fileOperand_render _ _ Hplain).
  destruct (accepts_truncate _ _ _ Haccepts) as (made & written & -> & -> & Hfile & Henters).
  rx.
  match goal with
  | |- context [{| RemoteRunner.ledger := _; RemoteRunner.sandbox := ?d |}] =>
      set (d1 := d)
  end.
  destruct (pushChunks_ok pv
              {| Daytona.local := ""; Daytona.remote := Fs.render (name :: dir :: above) |}
              name (dir :: above) (Base64.encode content) (fileOperand_render _ _ Hplain)
              (String.length (Base64.encode content)) 0%nat content [] d1)
    as (d' & Hrun & Hfiles & _ & _).
  - reflexivity.
  - cbn [dropFirst]. lia.
  - subst d1. cbn. exact Hfile.
  - subst d1. cbn [Daytona.sandboxFiles]. exact Henters.
  - cbn [Daytona.remote] in Hrun, Hfiles.
    rewrite (uploadChunks_as_pushChunks pv _ _ _ _ _ _ _ _ Hrun).
    eexists. split; [reflexivity|]. split; [exact Hfiles | reflexivity].
Qed.

Lemma uploadFile_stores_content_witness :
  exists w',
    RemoteRunner.uploadFile someProvider "/home/daytona/context/payload.txt"
      (Base64.encode payload) remoteWorld = (Ret tt, w') /\
    Daytona.sandboxFiles (RemoteRunner.sandbox w') !! ["payload.txt"; "context"; "daytona"; "home"]
      = Some (Fs.File payload true true) /\
    RemoteRunner.ledger w' = RemoteRunner.ledger remoteWorld.
Proof.
  apply (uploadFile_stores_content someProvider "payload.txt" "context" ["daytona"; "home"]
           payload remoteWorld); reflexivity.
Defined.

End RemoteRunnerOutcomes.
